(** * Poker awards parser: hand-history parsing and award assignment

    Shallow embedding of the tournament processor ([PokerAwardsParser] and the
    standalone [calculateAwards]) together with the properties of its
    specification.

    Modelling conventions.
    - Transcripts are strings of 8-bit characters; [toLowerCase], [\w], [\d]
      and [\s] are the ASCII ones.  Properties that depend on the white
      space of a transcript are stated for ASCII transcripts ([isAscii]).
    - JavaScript numbers are modelled exactly: counters and chip counts as
      [Z], ratios and decimal constants as [Q].  Properties that depend on
      the value of a parsed number state that it is one the host holds
      exactly.
    - A JavaScript object used as a map is an association list in insertion
      order; [Object_entries] restores the host's enumeration order
      (array-index keys first, ascending, then the other keys in insertion
      order).
    - The functions of the parser are given twice.  The first version reads
      and writes the own properties of the player map.  The second, in
      module [Host], has the lookups of the source, which also find what
      the map inherits from [Object.prototype]; it threads what a run
      leaves on [Object.prototype] and may throw.  The two agree on a
      transcript that looks up no name of the host ([Host.plain]), and the
      properties whose truth depends on these lookups are stated on
      [Host].
    - The wall clock is an explicit argument ([Clock]). *)

From Stdlib Require Import List String Ascii ZArith QArith Qround Bool Lia Arith.
From Stdlib Require Import DecimalString.
Import ListNotations.

Open Scope string_scope.
Open Scope Z_scope.

Set Implicit Arguments.

(* ================================================================== *)
(** ** Host-language strings *)

Module JS.

Definition ascii_between (lo hi : nat) (c : ascii) : bool :=
  let n := nat_of_ascii c in (Nat.leb lo n && Nat.leb n hi)%bool.

Definition isUpper := ascii_between 65 90.
Definition isLower := ascii_between 97 122.
Definition isDigit := ascii_between 48 57.

(** [\w] *)
Definition isWord (c : ascii) : bool :=
  (isUpper c || isLower c || isDigit c || Ascii.eqb c "_")%bool.

(** [\s] *)
Definition isSpace (c : ascii) : bool :=
  (ascii_between 9 13 c || Ascii.eqb c " ")%bool.

(** [.] without the [s] flag: anything but a line terminator *)
Definition isNotLineEnd (c : ascii) : bool :=
  negb (Nat.eqb (nat_of_ascii c) 10 || Nat.eqb (nat_of_ascii c) 13).

Definition anyChar (_ : ascii) : bool := true.

Definition isNot (x : ascii) (c : ascii) : bool := negb (Ascii.eqb c x).

Definition lowerChar (c : ascii) : ascii :=
  if isUpper c then ascii_of_nat (nat_of_ascii c + 32) else c.

Fixpoint toLowerCase (s : string) : string :=
  match s with
  | EmptyString => EmptyString
  | String c s' => String (lowerChar c) (toLowerCase s')
  end.

(** [dropPrefix p s] is the rest of [s] after its prefix [p], if it starts
    with [p]. *)
Fixpoint dropPrefix (p s : string) : option string :=
  match p with
  | EmptyString => Some s
  | String a p' =>
      match s with
      | EmptyString => None
      | String b s' => if Ascii.eqb a b then dropPrefix p' s' else None
      end
  end.

Definition startsWith (s p : string) : bool :=
  match dropPrefix p s with Some _ => true | None => false end.

(** [s.includes(needle)] *)
Fixpoint includes (s needle : string) : bool :=
  (startsWith s needle ||
   match s with
   | EmptyString => false
   | String _ s' => includes s' needle
   end)%bool.

(** Text after the first occurrence of [sep]. *)
Fixpoint afterFirst (sep s : string) : option string :=
  match dropPrefix sep s with
  | Some rest => Some rest
  | None =>
      match s with
      | EmptyString => None
      | String _ s' => afterFirst sep s'
      end
  end.

(** Text before the first occurrence of [sep] (all of [s] if there is none). *)
Fixpoint beforeFirst (sep s : string) : string :=
  match dropPrefix sep s with
  | Some _ => EmptyString
  | None =>
      match s with
      | EmptyString => EmptyString
      | String c s' => String c (beforeFirst sep s')
      end
  end.

(** [s.split(sep)[1]] for a non-empty [sep]. *)
Definition splitSecond (sep s : string) : option string :=
  match afterFirst sep s with
  | Some rest => Some (beforeFirst sep rest)
  | None => None
  end.

Fixpoint takeChars (n : nat) (s : string) : string :=
  match n, s with
  | S n', String c s' => String c (takeChars n' s')
  | _, _ => EmptyString
  end.

(** [parseInt] on a string of decimal digits. *)
Fixpoint parseDigits (acc : Z) (s : string) : Z :=
  match s with
  | EmptyString => acc
  | String c s' =>
      if isDigit c
      then parseDigits (10 * acc + Z.of_nat (nat_of_ascii c - 48)) s'
      else acc
  end.

Definition parseInt (s : string) : Z := parseDigits 0 s.

(** Decimal rendering of an integer inside a template string. *)
Definition numberToString (z : Z) : string :=
  NilZero.string_of_int (Z.to_int z).

(* ------------------------------------------------------------------ *)
(** *** Regular expressions (backtracking semantics) *)

Inductive regex : Type :=
| Chr (p : ascii -> bool)
| Lit (s : string)
| Seq (r1 r2 : regex)
| Alt (r1 r2 : regex)
| Star (greedy : bool) (r : regex)
| Opt (r : regex)
| Group (i : nat) (r : regex)
| Ahead (positive : bool) (r : regex)
| Eoi.

Definition Plus (r : regex) : regex := Seq r (Star true r).

Fixpoint Times (n : nat) (r : regex) : regex :=
  match n with
  | O => Lit ""
  | S O => r
  | S n' => Seq r (Times n' r)
  end.

Fixpoint seqs (rs : list regex) : regex :=
  match rs with
  | [] => Lit ""
  | [r] => r
  | r :: rs' => Seq r (seqs rs')
  end.

Definition Caps := list (nat * string).

Definition Cont := string -> Caps -> option (string * Caps).

(** The iteration of a starred expression whose body is matched by [body]:
    greedy ([g]) or lazy, each round having to consume input. [fuel] bounds
    the number of rounds by the length of the input. *)
Fixpoint starLoop (body : string -> Caps -> Cont -> option (string * Caps))
  (g : bool) (k : Cont) (fuel : nat) (s : string) (c : Caps)
  : option (string * Caps) :=
  match fuel with
  | O => k s c
  | S f =>
      let again s' c' :=
        if Nat.ltb (String.length s') (String.length s)
        then starLoop body g k f s' c' else None in
      if g
      then match body s c again with
           | Some x => Some x
           | None => k s c
           end
      else match k s c with
           | Some x => Some x
           | None => body s c again
           end
  end.

(** [rmatch r s c k]: match [r] at the head of [s], then continue with [k]
    on what is left; [None] makes the matcher backtrack. *)
Fixpoint rmatch (r : regex) (s : string) (c : Caps) (k : Cont)
  {struct r} : option (string * Caps) :=
  match r with
  | Chr p =>
      match s with
      | String a s' => if p a then k s' c else None
      | EmptyString => None
      end
  | Lit l =>
      match dropPrefix l s with
      | Some s' => k s' c
      | None => None
      end
  | Seq r1 r2 => rmatch r1 s c (fun s' c' => rmatch r2 s' c' k)
  | Alt r1 r2 =>
      match rmatch r1 s c k with
      | Some x => Some x
      | None => rmatch r2 s c k
      end
  | Opt r1 =>
      match rmatch r1 s c k with
      | Some x => Some x
      | None => k s c
      end
  | Star g r1 => starLoop (rmatch r1) g k (String.length s) s c
  | Group i r1 =>
      rmatch r1 s c
        (fun s' c' =>
           k s' ((i, takeChars (String.length s - String.length s') s) :: c'))
  | Ahead pos r1 =>
      match rmatch r1 s c (fun s' c' => Some (s', c')) with
      | Some (_, c') => if pos then k s c' else None
      | None => if pos then None else k s c
      end
  | Eoi =>
      match s with
      | EmptyString => k s c
      | _ => None
      end
  end.

Record Match : Type := mkMatch { m_length : nat; m_caps : Caps }.

Fixpoint capture (i : nat) (c : Caps) : string :=
  match c with
  | [] => ""
  | (j, v) :: c' => if Nat.eqb i j then v else capture i c'
  end.

(** [m[i]] of a match array *)
Definition group (i : nat) (m : Match) : string := capture i (m_caps m).

(** One attempt at the current position. *)
Definition execAt (r : regex) (s : string) : option Match :=
  match rmatch r s [] (fun s' c => Some (s', c)) with
  | Some (s', c) => Some (mkMatch (String.length s - String.length s') c)
  | None => None
  end.

(** [s.match(r)] for a regex without the [g] flag: leftmost match. *)
Fixpoint search (r : regex) (s : string) : option Match :=
  match execAt r s with
  | Some m => Some m
  | None =>
      match s with
      | EmptyString => None
      | String _ s' => search r s'
      end
  end.

(** [[...s.matchAll(r)]] (equally, the [exec] loop of a [g] regex): matches
    from left to right, each search resuming where the previous match ended
    (one character further after an empty match). [skip] counts the
    characters still covered by the previous match. *)
Fixpoint scan (r : regex) (s : string) (skip : nat) : list Match :=
  match skip with
  | S k =>
      match s with
      | EmptyString => []
      | String _ s' => scan r s' k
      end
  | O =>
      match execAt r s with
      | Some m =>
          m :: match s with
               | EmptyString => []
               | String _ s' => scan r s' (Nat.pred (m_length m))
               end
      | None =>
          match s with
          | EmptyString => []
          | String _ s' => scan r s' 0
          end
      end
  end.

Definition matchAll (r : regex) (s : string) : list Match := scan r s 0.

(** [nonNull r]: syntactically, [r] cannot match the empty string. *)
Fixpoint nonNull (r : regex) : bool :=
  match r with
  | Chr _ => true
  | Lit l => negb (String.eqb l "")
  | Seq r1 r2 => (nonNull r1 || nonNull r2)%bool
  | Alt r1 r2 => (nonNull r1 && nonNull r2)%bool
  | Group _ r1 => nonNull r1
  | Star _ _ | Opt _ | Ahead _ _ | Eoi => false
  end.

(** [unbound i r]: [r] has no capture group numbered [i]. *)
Fixpoint unbound (i : nat) (r : regex) : bool :=
  match r with
  | Chr _ | Lit _ | Eoi => true
  | Seq r1 r2 | Alt r1 r2 => (unbound i r1 && unbound i r2)%bool
  | Star _ r1 | Opt r1 | Ahead _ r1 => unbound i r1
  | Group j r1 => (negb (Nat.eqb i j) && unbound i r1)%bool
  end.

End JS.

Import JS.

(* ================================================================== *)
(** ** The patterns of the parser *)

Module Patterns.

Definition digits : regex := Plus (Chr isDigit).

(** [\w+(?:\*\d+)?] *)
Definition playerName : regex :=
  Seq (Plus (Chr isWord)) (Opt (Seq (Lit "*") digits)).

(** [/Tournament #(\d+)/] *)
Definition tournamentRegex : regex :=
  Seq (Lit "Tournament #") (Group 1 digits).

(** [/(\d{4}\/\d{2}\/\d{2} \d{2}:\d{2}:\d{2})/] *)
Definition dateRegex : regex :=
  let d := Chr isDigit in
  Group 1 (seqs [Times 4 d; Lit "/"; Times 2 d; Lit "/"; Times 2 d; Lit " ";
                 Times 2 d; Lit ":"; Times 2 d; Lit ":"; Times 2 d]).

Definition handHeader : regex :=
  seqs [Lit "PokerStars Hand #"; digits; Lit ": Tournament #"; digits].

(** [/(PokerStars Hand #\d+: Tournament #\d+.*?)(?=PokerStars Hand #\d+: Tournament #\d+|\s*$)/gs] *)
Definition handRegex : regex :=
  Seq (Group 1 (Seq handHeader (Star false (Chr anyChar))))
      (Ahead true (Alt handHeader (Seq (Star true (Chr isSpace)) Eoi))).

(** [/Seat \d+: (\w+(?:\*\d+)?)\s*\((\d+) in chips\)/g] *)
Definition seatRegex : regex :=
  seqs [Lit "Seat "; digits; Lit ": "; Group 1 playerName;
        Star true (Chr isSpace); Lit "("; Group 2 digits; Lit " in chips)"].

(** [/(\w+(?:\*\d+)?): raises/g] and its four siblings *)
Definition actionRegex (keyword : string) : regex :=
  Seq (Group 1 playerName) (Lit (": " ++ keyword)).

(** [/(\w+(?:\*\d+)?): (?:raises|calls|folds)(?! before Flop)/g] *)
Definition voluntaryRegex : regex :=
  seqs [Group 1 playerName; Lit ": ";
        Alt (Lit "raises") (Alt (Lit "calls") (Lit "folds"));
        Ahead false (Lit " before Flop")].

(** [/(\w+(?:\*\d+)?): shows.*?and (won|lost)/g] *)
Definition showdownResultRegex : regex :=
  seqs [Group 1 playerName; Lit ": shows"; Star false (Chr isNotLineEnd);
        Lit "and "; Group 2 (Alt (Lit "won") (Lit "lost"))].

(** [/(\w+(?:\*\d+)?) collected (\d+) from pot/g] *)
Definition collectedRegex : regex :=
  seqs [Group 1 playerName; Lit " collected "; Group 2 digits;
        Lit " from pot"].

(** [/(\w+(?:\*\d+)?): shows \[([^\]]+)\] \(([^)]+)\)/g] *)
Definition showdownRegex : regex :=
  seqs [Group 1 playerName; Lit ": shows ["; Group 2 (Plus (Chr (isNot "]")));
        Lit "] ("; Group 3 (Plus (Chr (isNot ")"))); Lit ")"].

(** [/(\w+(?:\*\d+)?) collected \d+ from pot/] *)
Definition finalWinnerRegex : regex :=
  seqs [Group 1 playerName; Lit " collected "; digits; Lit " from pot"].

(** [/(\w+(?:\*\d+)?): shows/g] *)
Definition finalistRegex : regex :=
  Seq (Group 1 playerName) (Lit ": shows").

Definition SHOW_DOWN : string := "*** SHOW DOWN ***".

End Patterns.

Import Patterns.

(* ================================================================== *)
(** ** Data model *)

Record BadBeatInfo : Type := mkBadBeat {
  bb_victim_hand : string;
  bb_winner_hand : string;
  bb_winner : string;
  bb_description : string
}.

Record SuckoutInfo : Type := mkSuckout {
  so_winning_hand : string;
  so_victim : string;
  so_victim_hand : string;
  so_description : string
}.

Record PlayerStat : Type := mkStat {
  hands_played : Z;
  raises : Z;
  calls : Z;
  folds : Z;
  bets : Z;
  checks : Z;
  showdowns : Z;
  showdown_wins : Z;
  total_won : Z;
  total_bet : Z;
  aggressive_actions : Z;
  passive_actions : Z;
  hands_voluntarily_played : Z;
  final_position : option Z;
  max_chips : Z;
  bad_beats : list BadBeatInfo;
  suckouts : list SuckoutInfo
}.

(** Field updates ([p.field = v]). *)

Definition set_hands_played (v : Z) (p : PlayerStat) : PlayerStat :=
  {| hands_played := v; raises := raises p; calls := calls p;
     folds := folds p; bets := bets p; checks := checks p;
     showdowns := showdowns p; showdown_wins := showdown_wins p;
     total_won := total_won p; total_bet := total_bet p;
     aggressive_actions := aggressive_actions p;
     passive_actions := passive_actions p;
     hands_voluntarily_played := hands_voluntarily_played p;
     final_position := final_position p; max_chips := max_chips p;
     bad_beats := bad_beats p; suckouts := suckouts p |}.

Definition set_raises (v : Z) (p : PlayerStat) : PlayerStat :=
  {| hands_played := hands_played p; raises := v; calls := calls p;
     folds := folds p; bets := bets p; checks := checks p;
     showdowns := showdowns p; showdown_wins := showdown_wins p;
     total_won := total_won p; total_bet := total_bet p;
     aggressive_actions := aggressive_actions p;
     passive_actions := passive_actions p;
     hands_voluntarily_played := hands_voluntarily_played p;
     final_position := final_position p; max_chips := max_chips p;
     bad_beats := bad_beats p; suckouts := suckouts p |}.

Definition set_calls (v : Z) (p : PlayerStat) : PlayerStat :=
  {| hands_played := hands_played p; raises := raises p; calls := v;
     folds := folds p; bets := bets p; checks := checks p;
     showdowns := showdowns p; showdown_wins := showdown_wins p;
     total_won := total_won p; total_bet := total_bet p;
     aggressive_actions := aggressive_actions p;
     passive_actions := passive_actions p;
     hands_voluntarily_played := hands_voluntarily_played p;
     final_position := final_position p; max_chips := max_chips p;
     bad_beats := bad_beats p; suckouts := suckouts p |}.

Definition set_folds (v : Z) (p : PlayerStat) : PlayerStat :=
  {| hands_played := hands_played p; raises := raises p; calls := calls p;
     folds := v; bets := bets p; checks := checks p;
     showdowns := showdowns p; showdown_wins := showdown_wins p;
     total_won := total_won p; total_bet := total_bet p;
     aggressive_actions := aggressive_actions p;
     passive_actions := passive_actions p;
     hands_voluntarily_played := hands_voluntarily_played p;
     final_position := final_position p; max_chips := max_chips p;
     bad_beats := bad_beats p; suckouts := suckouts p |}.

Definition set_bets (v : Z) (p : PlayerStat) : PlayerStat :=
  {| hands_played := hands_played p; raises := raises p; calls := calls p;
     folds := folds p; bets := v; checks := checks p;
     showdowns := showdowns p; showdown_wins := showdown_wins p;
     total_won := total_won p; total_bet := total_bet p;
     aggressive_actions := aggressive_actions p;
     passive_actions := passive_actions p;
     hands_voluntarily_played := hands_voluntarily_played p;
     final_position := final_position p; max_chips := max_chips p;
     bad_beats := bad_beats p; suckouts := suckouts p |}.

Definition set_checks (v : Z) (p : PlayerStat) : PlayerStat :=
  {| hands_played := hands_played p; raises := raises p; calls := calls p;
     folds := folds p; bets := bets p; checks := v; showdowns := showdowns p;
     showdown_wins := showdown_wins p; total_won := total_won p;
     total_bet := total_bet p; aggressive_actions := aggressive_actions p;
     passive_actions := passive_actions p;
     hands_voluntarily_played := hands_voluntarily_played p;
     final_position := final_position p; max_chips := max_chips p;
     bad_beats := bad_beats p; suckouts := suckouts p |}.

Definition set_showdowns (v : Z) (p : PlayerStat) : PlayerStat :=
  {| hands_played := hands_played p; raises := raises p; calls := calls p;
     folds := folds p; bets := bets p; checks := checks p; showdowns := v;
     showdown_wins := showdown_wins p; total_won := total_won p;
     total_bet := total_bet p; aggressive_actions := aggressive_actions p;
     passive_actions := passive_actions p;
     hands_voluntarily_played := hands_voluntarily_played p;
     final_position := final_position p; max_chips := max_chips p;
     bad_beats := bad_beats p; suckouts := suckouts p |}.

Definition set_showdown_wins (v : Z) (p : PlayerStat) : PlayerStat :=
  {| hands_played := hands_played p; raises := raises p; calls := calls p;
     folds := folds p; bets := bets p; checks := checks p;
     showdowns := showdowns p; showdown_wins := v; total_won := total_won p;
     total_bet := total_bet p; aggressive_actions := aggressive_actions p;
     passive_actions := passive_actions p;
     hands_voluntarily_played := hands_voluntarily_played p;
     final_position := final_position p; max_chips := max_chips p;
     bad_beats := bad_beats p; suckouts := suckouts p |}.

Definition set_total_won (v : Z) (p : PlayerStat) : PlayerStat :=
  {| hands_played := hands_played p; raises := raises p; calls := calls p;
     folds := folds p; bets := bets p; checks := checks p;
     showdowns := showdowns p; showdown_wins := showdown_wins p;
     total_won := v; total_bet := total_bet p;
     aggressive_actions := aggressive_actions p;
     passive_actions := passive_actions p;
     hands_voluntarily_played := hands_voluntarily_played p;
     final_position := final_position p; max_chips := max_chips p;
     bad_beats := bad_beats p; suckouts := suckouts p |}.

Definition set_aggressive_actions (v : Z) (p : PlayerStat) : PlayerStat :=
  {| hands_played := hands_played p; raises := raises p; calls := calls p;
     folds := folds p; bets := bets p; checks := checks p;
     showdowns := showdowns p; showdown_wins := showdown_wins p;
     total_won := total_won p; total_bet := total_bet p;
     aggressive_actions := v; passive_actions := passive_actions p;
     hands_voluntarily_played := hands_voluntarily_played p;
     final_position := final_position p; max_chips := max_chips p;
     bad_beats := bad_beats p; suckouts := suckouts p |}.

Definition set_passive_actions (v : Z) (p : PlayerStat) : PlayerStat :=
  {| hands_played := hands_played p; raises := raises p; calls := calls p;
     folds := folds p; bets := bets p; checks := checks p;
     showdowns := showdowns p; showdown_wins := showdown_wins p;
     total_won := total_won p; total_bet := total_bet p;
     aggressive_actions := aggressive_actions p; passive_actions := v;
     hands_voluntarily_played := hands_voluntarily_played p;
     final_position := final_position p; max_chips := max_chips p;
     bad_beats := bad_beats p; suckouts := suckouts p |}.

Definition set_hands_voluntarily_played (v : Z) (p : PlayerStat) : PlayerStat :=
  {| hands_played := hands_played p; raises := raises p; calls := calls p;
     folds := folds p; bets := bets p; checks := checks p;
     showdowns := showdowns p; showdown_wins := showdown_wins p;
     total_won := total_won p; total_bet := total_bet p;
     aggressive_actions := aggressive_actions p;
     passive_actions := passive_actions p; hands_voluntarily_played := v;
     final_position := final_position p; max_chips := max_chips p;
     bad_beats := bad_beats p; suckouts := suckouts p |}.

Definition set_final_position (v : option Z) (p : PlayerStat) : PlayerStat :=
  {| hands_played := hands_played p; raises := raises p; calls := calls p;
     folds := folds p; bets := bets p; checks := checks p;
     showdowns := showdowns p; showdown_wins := showdown_wins p;
     total_won := total_won p; total_bet := total_bet p;
     aggressive_actions := aggressive_actions p;
     passive_actions := passive_actions p;
     hands_voluntarily_played := hands_voluntarily_played p;
     final_position := v; max_chips := max_chips p; bad_beats := bad_beats p;
     suckouts := suckouts p |}.

Definition set_max_chips (v : Z) (p : PlayerStat) : PlayerStat :=
  {| hands_played := hands_played p; raises := raises p; calls := calls p;
     folds := folds p; bets := bets p; checks := checks p;
     showdowns := showdowns p; showdown_wins := showdown_wins p;
     total_won := total_won p; total_bet := total_bet p;
     aggressive_actions := aggressive_actions p;
     passive_actions := passive_actions p;
     hands_voluntarily_played := hands_voluntarily_played p;
     final_position := final_position p; max_chips := v;
     bad_beats := bad_beats p; suckouts := suckouts p |}.

Definition set_bad_beats (v : list BadBeatInfo) (p : PlayerStat) : PlayerStat :=
  {| hands_played := hands_played p; raises := raises p; calls := calls p;
     folds := folds p; bets := bets p; checks := checks p;
     showdowns := showdowns p; showdown_wins := showdown_wins p;
     total_won := total_won p; total_bet := total_bet p;
     aggressive_actions := aggressive_actions p;
     passive_actions := passive_actions p;
     hands_voluntarily_played := hands_voluntarily_played p;
     final_position := final_position p; max_chips := max_chips p;
     bad_beats := v; suckouts := suckouts p |}.

Definition set_suckouts (v : list SuckoutInfo) (p : PlayerStat) : PlayerStat :=
  {| hands_played := hands_played p; raises := raises p; calls := calls p;
     folds := folds p; bets := bets p; checks := checks p;
     showdowns := showdowns p; showdown_wins := showdown_wins p;
     total_won := total_won p; total_bet := total_bet p;
     aggressive_actions := aggressive_actions p;
     passive_actions := passive_actions p;
     hands_voluntarily_played := hands_voluntarily_played p;
     final_position := final_position p; max_chips := max_chips p;
     bad_beats := bad_beats p; suckouts := v |}.

(** The object literal of [parseHand] for a player seen for the first time. *)
Definition newPlayer (chips : Z) : PlayerStat :=
  {| hands_played := 0; raises := 0; calls := 0; folds := 0; bets := 0;
     checks := 0; showdowns := 0; showdown_wins := 0; total_won := 0;
     total_bet := 0; aggressive_actions := 0; passive_actions := 0;
     hands_voluntarily_played := 0; final_position := None;
     max_chips := chips; bad_beats := []; suckouts := [] |}.

(** The [players] object: player name to statistics, in insertion order. *)
Definition Players : Type := list (string * PlayerStat).

(** [players[name]] *)
Fixpoint get (name : string) (players : Players) : option PlayerStat :=
  match players with
  | [] => None
  | (k, v) :: rest => if String.eqb k name then Some v else get name rest
  end.

(** In-place update of the record stored under [name]. *)
Fixpoint modify (name : string) (f : PlayerStat -> PlayerStat)
  (players : Players) : Players :=
  match players with
  | [] => []
  | (k, v) :: rest =>
      if String.eqb k name then (k, f v) :: rest
      else (k, v) :: modify name f rest
  end.

(** [if (players[name]) { ... }] *)
Definition whenPlayer (name : string) (f : PlayerStat -> PlayerStat)
  (players : Players) : Players :=
  match get name players with
  | Some _ => modify name f players
  | None => players
  end.

(* ------------------------------------------------------------------ *)
(** *** Enumeration order of an object's own keys *)

Fixpoint allDigits (s : string) : bool :=
  match s with
  | EmptyString => true
  | String c s' => (isDigit c && allDigits s')%bool
  end.

(** A key is an array index when it is the canonical decimal form of an
    integer below [2^32 - 1]. *)
Definition arrayIndex (k : string) : option Z :=
  match k with
  | EmptyString => None
  | String c rest =>
      if (allDigits k &&
          (negb (Ascii.eqb c "0") || String.eqb rest "") &&
          (parseInt k <? 4294967295))%bool
      then Some (parseInt k) else None
  end.

Fixpoint insertIndexed {A : Type} (x : Z * (string * A))
  (l : list (Z * (string * A))) : list (Z * (string * A)) :=
  match l with
  | [] => [x]
  | y :: l' => if fst x <=? fst y then x :: l else y :: insertIndexed x l'
  end.

Fixpoint indexedEntries {A : Type} (o : list (string * A))
  : list (Z * (string * A)) :=
  match o with
  | [] => []
  | (k, v) :: rest =>
      match arrayIndex k with
      | Some i => insertIndexed (i, (k, v)) (indexedEntries rest)
      | None => indexedEntries rest
      end
  end.

Definition isNamedKey {A : Type} (e : string * A) : bool :=
  match arrayIndex (fst e) with Some _ => false | None => true end.

(** [Object.entries(o)] *)
Definition Object_entries {A : Type} (o : list (string * A))
  : list (string * A) :=
  map snd (indexedEntries o) ++ filter isNamedKey o.

(** [Object.keys(o)] *)
Definition Object_keys {A : Type} (o : list (string * A)) : list string :=
  map fst (Object_entries o).

(* ================================================================== *)
(** ** Hand-strength classifier *)

(** [evaluateMadeHandStrength] *)
Definition evaluateMadeHandStrength (handDescription : string) : Z :=
  let handDesc := toLowerCase handDescription in
  if includes handDesc "royal flush" then 1000
  else if includes handDesc "straight flush" then 900
  else if includes handDesc "four of a kind" then 800
  else if includes handDesc "full house" then 700
  else if (includes handDesc "flush" && negb (includes handDesc "straight"))%bool
  then 600
  else if (includes handDesc "straight" && negb (includes handDesc "flush"))%bool
  then 500
  else if includes handDesc "three of a kind" then 400
  else if includes handDesc "two pair" then
    if existsb (fun card => includes handDesc card) ["aces"; "kings"; "queens"]
    then 300 else 200
  else if includes handDesc "pair of" then
    if includes handDesc "aces" then 150
    else if includes handDesc "kings" then 140
    else if includes handDesc "queens" then 130
    else if includes handDesc "jacks" then 120
    else 100
  else 50.

(** [getSimpleHandDescription] *)
Definition getSimpleHandDescription (fullDescription : string) : string :=
  let desc := toLowerCase fullDescription in
  if includes desc "royal flush" then "royal flush"
  else if includes desc "straight flush" then "straight flush"
  else if includes desc "four of a kind" then
    if includes desc "aces" then "quad aces"
    else if includes desc "kings" then "quad kings"
    else if includes desc "queens" then "quad queens"
    else "quads"
  else if includes desc "full house" then "full house"
  else if (includes desc "flush" && negb (includes desc "straight"))%bool
  then "flush"
  else if (includes desc "straight" && negb (includes desc "flush"))%bool
  then "straight"
  else if includes desc "three of a kind" then
    if includes desc "aces" then "trip aces"
    else if includes desc "kings" then "trip kings"
    else if includes desc "queens" then "trip queens"
    else if includes desc "jacks" then "trip jacks"
    else "trips"
  else if includes desc "two pair" then "two pair"
  else if includes desc "pair of aces" then "pocket aces"
  else if includes desc "pair of kings" then "pocket kings"
  else if includes desc "pair of queens" then "pocket queens"
  else if includes desc "pair of jacks" then "pocket jacks"
  else if includes desc "pair of" then "a pair"
  else "high card".

(* ================================================================== *)
(** ** Bad-beat / suckout detector *)

(** An element of [playerHands] in [analyzeShowdownForBadBeats]. *)
Record ShownHand : Type := mkShown {
  player : string;
  cards : string;
  description : string;
  made_hand_strength : Z;
  won : bool
}.

(** [isGenuineBadBeat] *)
Definition isGenuineBadBeat (losingHand winningHand : ShownHand) : bool :=
  let loserStrength := made_hand_strength losingHand in
  let winnerStrength := made_hand_strength winningHand in
  if 400 <=? loserStrength then true
  else if ((300 <=? loserStrength) && (loserStrength <? winnerStrength))%bool
  then true
  else false.

Definition splitPotPhrases : list string := ["split pot"; "divided"; "tied"].

Definition shownHand (winner : string) (m : Match) : ShownHand :=
  {| player := group 1 m;
     cards := group 2 m;
     description := group 3 m;
     made_hand_strength := evaluateMadeHandStrength (group 3 m);
     won := String.eqb (group 1 m) winner |}.

Definition badBeatInfo (winner : string) (losingHand winningHand : ShownHand)
  : BadBeatInfo :=
  let victimDesc := getSimpleHandDescription (description losingHand) in
  let winnerDesc := getSimpleHandDescription (description winningHand) in
  {| bb_victim_hand := description losingHand;
     bb_winner_hand := description winningHand;
     bb_winner := winner;
     bb_description :=
       player losingHand ++ " had " ++ victimDesc ++ ", got cracked by "
       ++ winner ++ "'s " ++ winnerDesc |}.

Definition suckoutInfo (losingHand winningHand : ShownHand) : SuckoutInfo :=
  let victimDesc := getSimpleHandDescription (description losingHand) in
  let winnerDesc := getSimpleHandDescription (description winningHand) in
  {| so_winning_hand := description winningHand;
     so_victim := player losingHand;
     so_victim_hand := description losingHand;
     so_description :=
       "Sucked out with " ++ winnerDesc ++ " vs " ++ victimDesc |}.

(** Body of the [losingHands.forEach] callback. *)
Definition recordBadBeat (winner : string) (winningHand : ShownHand)
  (players : Players) (losingHand : ShownHand) : Players :=
  if isGenuineBadBeat losingHand winningHand then
    let victimName := player losingHand in
    let players1 :=
      whenPlayer victimName
        (fun p => set_bad_beats
                    (bad_beats p ++ [badBeatInfo winner losingHand winningHand])%list
                    p)
        players in
    whenPlayer winner
      (fun p => set_suckouts
                  (suckouts p ++ [suckoutInfo losingHand winningHand])%list p)
      players1
  else players.

(** [analyzeShowdownForBadBeats] *)
Definition analyzeShowdownForBadBeats (handText : string) (players : Players)
  : Players :=
  if negb (includes handText SHOW_DOWN) then players
  else
    match splitSecond SHOW_DOWN handText with
    | None => players
    | Some showdownSection =>
        let showdownMatches := matchAll showdownRegex showdownSection in
        let winnerMatches := matchAll collectedRegex handText in
        if Nat.ltb 1 (List.length winnerMatches) then players
        else
          let winner :=
            match winnerMatches with
            | m :: _ => Some (group 1 m)
            | [] => None
            end in
          if existsb (fun phrase => includes (toLowerCase handText) phrase)
               splitPotPhrases
          then players
          else
            match winner with
            | Some winner =>
                if (Nat.leb 2 (List.length showdownMatches) &&
                    negb (String.eqb winner "") &&
                    Nat.eqb (List.length winnerMatches) 1)%bool
                then
                  let playerHands := map (shownHand winner) showdownMatches in
                  let losingHands :=
                    filter (fun h => negb (won h)) playerHands in
                  match find won playerHands with
                  | Some winningHand =>
                      if Nat.ltb 0 (List.length losingHands)
                      then fold_left (recordBadBeat winner winningHand)
                             losingHands players
                      else players
                  | None => players
                  end
                else players
            | None => players
            end
    end.

(* ================================================================== *)
(** ** Per-hand statistics *)

Inductive ActionType : Type := Raises | Calls | Folds | Bets | Checks.

Definition actionKeyword (a : ActionType) : string :=
  match a with
  | Raises => "raises"
  | Calls => "calls"
  | Folds => "folds"
  | Bets => "bets"
  | Checks => "checks"
  end.

(** The keys of [actionPatterns], in order. *)
Definition actionPatterns : list ActionType :=
  [Raises; Calls; Folds; Bets; Checks].

(** [players[playerName][actionType] += 1] and the aggressive/passive tally *)
Definition countAction (a : ActionType) (p : PlayerStat) : PlayerStat :=
  match a with
  | Raises =>
      let p1 := set_raises (raises p + 1) p in
      set_aggressive_actions (aggressive_actions p1 + 1) p1
  | Bets =>
      let p1 := set_bets (bets p + 1) p in
      set_aggressive_actions (aggressive_actions p1 + 1) p1
  | Calls =>
      let p1 := set_calls (calls p + 1) p in
      set_passive_actions (passive_actions p1 + 1) p1
  | Checks =>
      let p1 := set_checks (checks p + 1) p in
      set_passive_actions (passive_actions p1 + 1) p1
  | Folds => set_folds (folds p + 1) p
  end.

(** One iteration of the seat loop. *)
Definition seatStep (players : Players) (m : Match) : Players :=
  let playerName := group 1 m in
  let chips := group 2 m in
  let players1 :=
    match get playerName players with
    | None => (players ++ [(playerName, newPlayer (parseInt chips))])%list
    | Some _ => players
    end in
  modify playerName
    (fun p =>
       let p1 := set_hands_played (hands_played p + 1) p in
       set_max_chips (Z.max (max_chips p1) (parseInt chips)) p1)
    players1.

Definition actionStep (a : ActionType) (players : Players) (m : Match)
  : Players :=
  whenPlayer (group 1 m) (countAction a) players.

Definition countActions (handText : string) (players : Players)
  (a : ActionType) : Players :=
  fold_left (actionStep a)
    (matchAll (actionRegex (actionKeyword a)) handText) players.

(** [Set.prototype.add] on a set kept in insertion order *)
Definition setAdd (s : list string) (x : string) : list string :=
  if existsb (String.eqb x) s then s else (s ++ [x])%list.

Definition voluntaryPlayers (handText : string) : list string :=
  fold_left (fun s m => setAdd s (group 1 m))
    (matchAll voluntaryRegex handText) [].

Definition voluntaryStep (players : Players) (playerName : string)
  : Players :=
  whenPlayer playerName
    (fun p => set_hands_voluntarily_played (hands_voluntarily_played p + 1) p)
    players.

Definition showdownStep (players : Players) (m : Match) : Players :=
  whenPlayer (group 1 m)
    (fun p =>
       let p1 := set_showdowns (showdowns p + 1) p in
       if String.eqb (group 2 m) "won"
       then set_showdown_wins (showdown_wins p1 + 1) p1 else p1)
    players.

Definition collectStep (players : Players) (m : Match) : Players :=
  whenPlayer (group 1 m)
    (fun p => set_total_won (total_won p + parseInt (group 2 m)) p)
    players.

(** [parseHand] *)
Definition parseHand (handText : string) (players : Players) : Players :=
  let players1 := fold_left seatStep (matchAll seatRegex handText) players in
  let players2 :=
    if includes handText SHOW_DOWN
    then analyzeShowdownForBadBeats handText players1 else players1 in
  let players3 := fold_left (countActions handText) actionPatterns players2 in
  let players4 := fold_left voluntaryStep (voluntaryPlayers handText) players3 in
  let players5 :=
    if includes handText SHOW_DOWN
    then fold_left showdownStep (matchAll showdownResultRegex handText) players4
    else players4 in
  fold_left collectStep (matchAll collectedRegex handText) players5.

(* ================================================================== *)
(** ** Numbers, sorting and running extrema *)

(** [x || d] on a number *)
Definition orElse (x d : Z) : Z := if x =? 0 then d else x.

(** [a / b] *)
Definition ratio (a b : Z) : Q := (inject_Z a / inject_Z b)%Q.

Definition Qgtb (x y : Q) : bool := negb (Qle_bool x y).
Definition Qltb (x y : Q) : bool := negb (Qle_bool y x).

(** [Math.round] *)
Definition Math_round (x : Q) : Z := Qfloor (x + (1 # 2))%Q.

(** [Array.prototype.sort(compareFn)], a stable sort; [cmpLe a b] stands for
    [compareFn(a, b) <= 0]. *)
Fixpoint insertSorted {A : Type} (cmpLe : A -> A -> bool) (x : A)
  (l : list A) : list A :=
  match l with
  | [] => [x]
  | y :: l' => if cmpLe x y then x :: l else y :: insertSorted cmpLe x l'
  end.

Fixpoint sortBy {A : Type} (cmpLe : A -> A -> bool) (l : list A) : list A :=
  match l with
  | [] => []
  | x :: l' => insertSorted cmpLe x (sortBy cmpLe l')
  end.

(** The running-extremum loops of the award engine:
    [let best = null; let bestVal = init;
     cands.forEach(([name, data]) => { const v = metric(data);
       if (better(v, bestVal)) { bestVal = v; best = name; } })] *)
Definition bestStep {V : Type} (metric : PlayerStat -> V)
  (better : V -> V -> bool) (acc : option string * V)
  (e : string * PlayerStat) : option string * V :=
  if better (metric (snd e)) (snd acc)
  then (Some (fst e), metric (snd e)) else acc.

Definition bestBy {V : Type} (metric : PlayerStat -> V) (init : V)
  (better : V -> V -> bool) (cands : list (string * PlayerStat))
  : option string :=
  fst (fold_left (bestStep metric better) cands (None, init)).

(** [if (best) { ... }]: [null] and the empty string are falsy. *)
Definition truthy (best : option string) : option string :=
  match best with
  | Some name => if String.eqb name "" then None else Some name
  | None => None
  end.

Definition isNone {A : Type} (o : option A) : bool :=
  match o with None => true | Some _ => false end.

Definition isSome {A : Type} (o : option A) : bool := negb (isNone o).

(** [data.final_position === n] *)
Definition positionIs (n : Z) (e : string * PlayerStat) : bool :=
  match final_position (snd e) with
  | Some p => p =? n
  | None => false
  end.

(* ================================================================== *)
(** ** Final-position resolver *)

Definition TOURNAMENT_INFO : string := "tournament_info".

Definition notTournamentInfo {A : Type} (e : string * A) : bool :=
  negb (String.eqb (fst e) TOURNAMENT_INFO).

(** The hand records of a transcript. *)
Definition handsOf (text : string) : list string :=
  map (group 1) (matchAll handRegex text).

Definition clearPosition (e : string * PlayerStat) : string * PlayerStat :=
  if notTournamentInfo e then (fst e, set_final_position None (snd e)) else e.

(** First and second place, read from the final hand. *)
Definition rankFinalHand (finalHand : string) (players : Players) : Players :=
  let winnerMatch := search finalWinnerRegex finalHand in
  let finalists := map (group 1) (matchAll finalistRegex finalHand) in
  match winnerMatch, finalists with
  | Some wm, _ :: _ =>
      let winner := group 1 wm in
      let players1 := whenPlayer winner (set_final_position (Some 1)) players in
      match find (fun finalist =>
                    (negb (String.eqb finalist winner) &&
                     isSome (get finalist players1))%bool) finalists with
      | Some finalist => modify finalist (set_final_position (Some 2)) players1
      | None => players1
      end
  | _, _ => players
  end.

(** Third place: highest chip count among the players still unranked. *)
Definition rankThird (players : Players) : Players :=
  let unassigned :=
    filter (fun e => (notTournamentInfo e &&
                      isNone (final_position (snd e)))%bool)
      (Object_entries players) in
  match sortBy (fun a b => orElse (max_chips (snd b)) 0
                           - orElse (max_chips (snd a)) 0 <=? 0)
          unassigned with
  | first :: _ => modify (fst first) (set_final_position (Some 3)) players
  | [] => players
  end.

(** [if (hands.length > 0) { const finalHand = hands[hands.length - 1]; ... }] *)
Definition rankLastHand (fullText : string) (players : Players) : Players :=
  match handsOf fullText with
  | [] => players
  | h :: hs => rankFinalHand (last (h :: hs) "") players
  end.

(** [determineFinalPositions] *)
Definition determineFinalPositions (players : Players) (fullText : string)
  : Players :=
  let players0 := map clearPosition players in
  let players1 := rankLastHand fullText players0 in
  rankThird players1.

(* ================================================================== *)
(** ** Award assignment engine *)

(** The keys of the [awards] object (each key carries a leading emoji in the
    source, left out here). *)
Inductive AwardName : Type :=
| TournamentChampion
| RunnerUp
| MostAggressive
| CallingStation
| TightestPlayer
| ComebackKid
| YoloAward
| DoggyPaddlingAward
| HollywoodActor
| SevenTwoHero
| Donkey
| AbcPlayer
| BubbleBoy.

Definition AwardName_eqb (a b : AwardName) : bool :=
  match a, b with
  | TournamentChampion, TournamentChampion
  | RunnerUp, RunnerUp
  | MostAggressive, MostAggressive
  | CallingStation, CallingStation
  | TightestPlayer, TightestPlayer
  | ComebackKid, ComebackKid
  | YoloAward, YoloAward
  | DoggyPaddlingAward, DoggyPaddlingAward
  | HollywoodActor, HollywoodActor
  | SevenTwoHero, SevenTwoHero
  | Donkey, Donkey
  | AbcPlayer, AbcPlayer
  | BubbleBoy, BubbleBoy => true
  | _, _ => false
  end.

(** Placement awards are exempt from the one-award-per-player rule. *)
Definition isPlacement (a : AwardName) : bool :=
  match a with
  | TournamentChampion | RunnerUp | BubbleBoy => true
  | _ => false
  end.

Definition isBehavioral (a : AwardName) : bool := negb (isPlacement a).

Record AwardRecord : Type := mkAward {
  aw_winner : string;
  aw_description : string;
  aw_stat : string
}.

(** The [awards] object, in insertion order. *)
Definition Awards : Type := list (AwardName * AwardRecord).

(** [awards[name]] *)
Fixpoint awardOf (name : AwardName) (awards : Awards) : option AwardRecord :=
  match awards with
  | [] => None
  | (k, r) :: rest => if AwardName_eqb k name then Some r else awardOf name rest
  end.

(** [awards[name] = record] *)
Fixpoint assign (name : AwardName) (record : AwardRecord) (awards : Awards)
  : Awards :=
  match awards with
  | [] => [(name, record)]
  | (k, r) :: rest =>
      if AwardName_eqb k name then (k, record) :: rest
      else (k, r) :: assign name record rest
  end.

(** The two locals threaded through [calculateAwards]. *)
Record AwardState : Type := mkState {
  awards : Awards;
  awardedPlayers : list string
}.

Definition has (s : list string) (name : string) : bool :=
  existsb (String.eqb name) s.

(** [awards[name] = record] alone (placement awards) *)
Definition place (name : AwardName) (record : AwardRecord) (st : AwardState)
  : AwardState :=
  {| awards := assign name record (awards st);
     awardedPlayers := awardedPlayers st |}.

(** [awards[name] = record; awardedPlayers.add(record.winner)] *)
Definition grant (name : AwardName) (record : AwardRecord) (st : AwardState)
  : AwardState :=
  {| awards := assign name record (awards st);
     awardedPlayers := setAdd (awardedPlayers st) (aw_winner record) |}.

(** [Math.min(...l)] on a non-empty array *)
Definition Math_min (l : list Z) : Z :=
  match l with
  | [] => 0
  | x :: l' => fold_left Z.min l' x
  end.

(** [data.final_position || 999] *)
Definition positionOr999 (data : PlayerStat) : Z :=
  match final_position data with
  | Some p => orElse p 999
  | None => 999
  end.

(** Number of own keys of the [players] object. *)
Definition playerCount (players : Players) : Z :=
  Z.of_nat (List.length (Object_keys players)).

(** [Object.fromEntries(Object.entries(playersData).filter(([k]) => k !== 'tournament_info'))] *)
Definition withoutTournamentInfo (playersData : Players) : Players :=
  filter notTournamentInfo (Object_entries playersData).

(* ------------------------------------------------------------------ *)
(** *** The method [PokerAwardsParser.calculateAwards] *)

Module PokerAwardsParser.

Definition champion (players : Players) (st : AwardState) : AwardState :=
  let championCandidates := filter (positionIs 1) (Object_entries players) in
  match championCandidates with
  | (championName, _) :: _ =>
      place TournamentChampion
        {| aw_winner := championName;
           aw_description := "Survived the chaos and claimed the crown";
           aw_stat := "Outlasted " ++ numberToString (playerCount players - 1)
                      ++ " other players" |} st
  | [] => st
  end.

Definition runnerUp (players : Players) (st : AwardState) : AwardState :=
  let runnerUpCandidates := filter (positionIs 2) (Object_entries players) in
  match runnerUpCandidates with
  | (runnerUpName, _) :: _ =>
      place RunnerUp
        {| aw_winner := runnerUpName;
           aw_description := "So close to glory, yet so far";
           aw_stat := "Heads-up warrior" |} st
  | [] => st
  end.

Definition aggroRatio (data : PlayerStat) : Q :=
  let handsPlayed := Z.max (orElse (hands_played data) 1) 1 in
  let aggressiveActions := orElse (aggressive_actions data) 0 in
  ratio aggressiveActions handsPlayed.

Definition mostAggressive (players : Players) (st : AwardState) : AwardState :=
  let aggressivePlayers :=
    filter (fun e => ((5 <? orElse (hands_played (snd e)) 0) &&
                      negb (has (awardedPlayers st) (fst e)))%bool)
      (Object_entries players) in
  match aggressivePlayers with
  | [] => st
  | _ :: _ =>
      match truthy (bestBy aggroRatio 0%Q Qgtb aggressivePlayers) with
      | Some bestAggressive =>
          grant MostAggressive
            {| aw_winner := bestAggressive;
               aw_description :=
                 "Fearless bets and raises kept everyone on edge";
               aw_stat := "Never met a pot they didn't want to steal" |} st
      | None => st
      end
  end.

Definition callRatio (data : PlayerStat) : Q :=
  let handsPlayed := Z.max (orElse (hands_played data) 1) 1 in
  let calls := orElse (calls data) 0 in
  ratio calls handsPlayed.

Definition callingStation (players : Players) (st : AwardState) : AwardState :=
  let callingCandidates :=
    filter (fun e => (negb (has (awardedPlayers st) (fst e)) &&
                      (5 <? orElse (hands_played (snd e)) 0))%bool)
      (Object_entries players) in
  match callingCandidates with
  | [] => st
  | _ :: _ =>
      match truthy (bestBy callRatio 0%Q Qgtb callingCandidates) with
      | Some bestCaller =>
          grant CallingStation
            {| aw_winner := bestCaller;
               aw_description := "Never saw a bet they didn't want to call";
               aw_stat := "The human slot machine" |} st
      | None => st
      end
  end.

Definition vpipRatio (data : PlayerStat) : Q :=
  let handsPlayed := Z.max (orElse (hands_played data) 1) 1 in
  let handsVoluntary := orElse (hands_voluntarily_played data) 0 in
  ratio handsVoluntary handsPlayed.

Definition tightestPlayer (players : Players) (st : AwardState) : AwardState :=
  let tightCandidates :=
    filter (fun e => (negb (has (awardedPlayers st) (fst e)) &&
                      (5 <? orElse (hands_played (snd e)) 0))%bool)
      (Object_entries players) in
  match tightCandidates with
  | [] => st
  | _ :: _ =>
      match truthy (bestBy vpipRatio 1%Q Qltb tightCandidates) with
      | Some tightest =>
          grant TightestPlayer
            {| aw_winner := tightest;
               aw_description :=
                 "Plays only a small, selective number of hands";
               aw_stat := "Classic tight-aggressive strategy" |} st
      | None => st
      end
  end.

Definition comebackCandidates (players : Players) (st : AwardState)
  : list (string * Q) :=
  let allChips :=
    filter (fun chips => 0 <? chips)
      (map (fun e => orElse (max_chips (snd e)) 0) (Object_entries players)) in
  match allChips with
  | [] => []
  | _ :: _ =>
      let minChips := Math_min allChips in
      flat_map
        (fun e =>
           if has (awardedPlayers st) (fst e) then []
           else
             match final_position (snd e) with
             | Some finalPos =>
                 let maxChips := orElse (max_chips (snd e)) 0 in
                 if ((maxChips <=? minChips * 2) &&
                     Qle_bool (inject_Z finalPos)
                       (inject_Z (playerCount players) / 2))%bool
                 then [(fst e,
                        ratio (playerCount players - finalPos)
                          (Z.max maxChips 1))]
                 else []
             | None => []
             end)
        (Object_entries players)
  end.

Definition comebackKid (players : Players) (st : AwardState) : AwardState :=
  match sortBy (fun a b => Qle_bool (snd b - snd a) 0)
          (comebackCandidates players st) with
  | (comebackKing, _) :: _ =>
      grant ComebackKid
        {| aw_winner := comebackKing;
           aw_description := "Largest comeback from the smallest chip stack";
           aw_stat := "Rose from the ashes like a phoenix" |} st
  | [] => st
  end.

Definition yoloCandidates (players : Players) (st : AwardState)
  : list (string * SuckoutInfo) :=
  flat_map
    (fun e =>
       if has (awardedPlayers st) (fst e) then []
       else
         map (fun suckout => (fst e, suckout))
           (filter
              (fun suckout =>
                 let description := toLowerCase (so_description suckout) in
                 existsb (fun badHand => includes description badHand)
                   ["7"; "2"; "offsuit"; "unsuited"])
              (suckouts (snd e))))
    (Object_entries players).

Definition yoloAward (players : Players) (st : AwardState) : AwardState :=
  match yoloCandidates players st with
  | (yoloWinner, _) :: _ =>
      grant YoloAward
        {| aw_winner := yoloWinner;
           aw_description := "Biggest pot won with the worst starting hand";
           aw_stat := "Sometimes you gotta risk it all" |} st
  | [] => st
  end.

Definition doggyPaddling (players : Players) (st : AwardState) : AwardState :=
  let survivors :=
    filter (fun e => (negb (has (awardedPlayers st) (fst e)) &&
                      Qgtb (inject_Z (positionOr999 (snd e)))
                        (inject_Z (playerCount players) * (6 # 10)))%bool)
      (Object_entries players) in
  match survivors with
  | [] => st
  | _ :: _ =>
      match truthy (bestBy (fun data => orElse (hands_played data) 0) 0
                      Z.gtb survivors) with
      | Some longestSurvivor =>
          grant DoggyPaddlingAward
            {| aw_winner := longestSurvivor;
               aw_description :=
                 "Consistently hovers at the bottom but somehow stays alive longer than expected";
               aw_stat := "Survival instincts kicked in" |} st
      | None => st
      end
  end.

Definition bluffRatio (data : PlayerStat) : Q :=
  let bets := orElse (bets data) 0 in
  let showdowns := Z.max (orElse (showdowns data) 1) 1 in
  ratio bets showdowns.

Definition hollywoodActor (players : Players) (st : AwardState) : AwardState :=
  let blufferCandidates :=
    filter (fun e => (negb (has (awardedPlayers st) (fst e)) &&
                      (2 <? orElse (bets (snd e)) 0))%bool)
      (Object_entries players) in
  match blufferCandidates with
  | [] => st
  | _ :: _ =>
      match truthy (bestBy bluffRatio 0%Q Qgtb blufferCandidates) with
      | Some bestBluffer =>
          grant HollywoodActor
            {| aw_winner := bestBluffer;
               aw_description := "Most bluffs attempted (successful or failed)";
               aw_stat := "Master of deception and theatrics" |} st
      | None => st
      end
  end.

Definition badHandWinners (players : Players) (st : AwardState)
  : list (string * SuckoutInfo) :=
  flat_map
    (fun e =>
       if has (awardedPlayers st) (fst e) then []
       else
         map (fun suckout => (fst e, suckout))
           (filter
              (fun suckout =>
                 let winningHand := toLowerCase (so_winning_hand suckout) in
                 ((includes winningHand "7" && includes winningHand "2")
                  || includes winningHand "worst")%bool)
              (suckouts (snd e))))
    (Object_entries players).

Definition sevenTwoHero (players : Players) (st : AwardState) : AwardState :=
  match badHandWinners players st with
  | (heroWinner, _) :: _ =>
      grant SevenTwoHero
        {| aw_winner := heroWinner;
           aw_description := "Won with the infamous 7-2 offsuit";
           aw_stat := "Turned trash into treasure" |} st
  | [] => st
  end.

Definition donkeyCandidates (players : Players) (st : AwardState)
  : list (string * Q * Q) :=
  flat_map
    (fun e =>
       if has (awardedPlayers st) (fst e) then []
       else
         let handsPlayed := orElse (hands_played (snd e)) 0 in
         if 10 <? handsPlayed then
           let vpip :=
             ratio (orElse (hands_voluntarily_played (snd e)) 0) handsPlayed in
           let winRate :=
             ratio (orElse (showdown_wins (snd e)) 0)
               (Z.max (orElse (showdowns (snd e)) 1) 1) in
           if (Qgtb vpip (4 # 10) && Qltb winRate (3 # 10))%bool
           then [(fst e, (vpip / (winRate + (1 # 10)))%Q, vpip)]
           else []
         else [])
    (Object_entries players).

Definition donkeyAward (candidates : list (string * Q * Q)) (st : AwardState)
  : AwardState :=
  match sortBy (fun a b => Qle_bool (snd (fst b) - snd (fst a)) 0)
          candidates with
  | worstPlayer :: _ =>
      if Qgtb (snd (fst worstPlayer)) (15 # 10) then
        grant Donkey
          {| aw_winner := fst (fst worstPlayer);
             aw_description :=
               "Made questionable decisions and played too many weak hands";
             aw_stat :=
               "Played "
               ++ numberToString (Math_round (snd worstPlayer * 100))
               ++ "% of hands with poor results" |} st
      else st
  | [] => st
  end.

Definition abcPlayer (players : Players) (st : AwardState) : AwardState :=
  let abcCandidates :=
    filter
      (fun e =>
         if (has (awardedPlayers st) (fst e) ||
             (orElse (hands_played (snd e)) 0 <=? 5))%bool
         then false
         else
           let aggroRatio :=
             ratio (orElse (aggressive_actions (snd e)) 0)
               (orElse (hands_played (snd e)) 1) in
           (Qgtb aggroRatio (15 # 100) && Qltb aggroRatio (35 # 100))%bool)
      (Object_entries players) in
  match abcCandidates with
  | [] => st
  | _ :: _ =>
      match truthy (bestBy (fun data => orElse (showdown_wins data) 0) 0
                      Z.gtb abcCandidates) with
      | Some bestAbc =>
          grant AbcPlayer
            {| aw_winner := bestAbc;
               aw_description :=
                 "Played textbook poker, predictable as clockwork";
               aw_stat := "By-the-book basic strategy" |} st
      | None => st
      end
  end.

Definition bubbleBoy (players : Players) (st : AwardState) : AwardState :=
  if 4 <=? playerCount players then
    let bubblePosition := (playerCount players + 1) / 2 in
    match filter (positionIs bubblePosition) (Object_entries players) with
    | (bubbleName, _) :: _ =>
        place BubbleBoy
          {| aw_winner := bubbleName;
             aw_description :=
               "Knocked out just before the money in heartbreaking fashion";
             aw_stat := "So close to cashing, yet so far" |} st
    | [] => st
    end
  else st.

(** [getSampleAwards] *)
Definition getSampleAwards : Awards :=
  [(TournamentChampion,
    {| aw_winner := "Player1";
       aw_description := "Survived the chaos and claimed the crown";
       aw_stat := "Outlasted 5 other players" |});
   (MostAggressive,
    {| aw_winner := "Player2";
       aw_description := "Fearless bets and raises kept everyone on edge";
       aw_stat := "Never met a pot they didn't want to steal" |});
   (CallingStation,
    {| aw_winner := "Player3";
       aw_description := "Never saw a bet they didn't want to call";
       aw_stat := "The human slot machine" |})].

(** The award blocks in source order, from [awards = {}] and an empty
    [awardedPlayers]. *)
Definition runAwards (players : Players) : AwardState :=
  let st0 := {| awards := []; awardedPlayers := [] |} in
  let st1 := champion players st0 in
  let st2 := runnerUp players st1 in
  let st3 := mostAggressive players st2 in
  let st4 := callingStation players st3 in
  let st5 := tightestPlayer players st4 in
  let st6 := comebackKid players st5 in
  let st7 := yoloAward players st6 in
  let st8 := doggyPaddling players st7 in
  let st9 := hollywoodActor players st8 in
  let st10 := sevenTwoHero players st9 in
  let st11 :=
    match donkeyCandidates players st10 with
    | [] => st10
    | _ :: _ => donkeyAward (donkeyCandidates players st10) st10
    end in
  let st12 := abcPlayer players st11 in
  bubbleBoy players st12.

(** [calculateAwards] *)
Definition calculateAwards (playersData : Players) : Awards :=
  let players := withoutTournamentInfo playersData in
  match Object_keys players with
  | [] => getSampleAwards
  | _ :: _ => awards (runAwards players)
  end.

End PokerAwardsParser.

(* ------------------------------------------------------------------ *)
(** *** The standalone [calculateAwards]

    A second copy of the method.  It returns the empty object for an empty
    player map.  Its Donkey guard [if (donkeyCandidates.length > 0) {] is
    written twice; the first of the two opening braces is only closed by the
    brace that follows [return awards], so the ABC Player block, the Bubble
    Boy block and the [return] are inside the guard, and the function ends
    without a value ([None]) when there is no Donkey candidate. *)

Module Standalone.

Definition champion (players : Players) (st : AwardState) : AwardState :=
  let championCandidates := filter (positionIs 1) (Object_entries players) in
  match championCandidates with
  | (championName, _) :: _ =>
      place TournamentChampion
        {| aw_winner := championName;
           aw_description := "Survived the chaos and claimed the crown";
           aw_stat := "Outlasted " ++ numberToString (playerCount players - 1)
                      ++ " other players" |} st
  | [] => st
  end.

Definition runnerUp (players : Players) (st : AwardState) : AwardState :=
  let runnerUpCandidates := filter (positionIs 2) (Object_entries players) in
  match runnerUpCandidates with
  | (runnerUpName, _) :: _ =>
      place RunnerUp
        {| aw_winner := runnerUpName;
           aw_description := "So close to glory, yet so far";
           aw_stat := "Heads-up warrior" |} st
  | [] => st
  end.

Definition aggroRatio (data : PlayerStat) : Q :=
  let handsPlayed := Z.max (orElse (hands_played data) 1) 1 in
  let aggressiveActions := orElse (aggressive_actions data) 0 in
  ratio aggressiveActions handsPlayed.

Definition mostAggressive (players : Players) (st : AwardState) : AwardState :=
  let aggressivePlayers :=
    filter (fun e => ((5 <? orElse (hands_played (snd e)) 0) &&
                      negb (has (awardedPlayers st) (fst e)))%bool)
      (Object_entries players) in
  match aggressivePlayers with
  | [] => st
  | _ :: _ =>
      match truthy (bestBy aggroRatio 0%Q Qgtb aggressivePlayers) with
      | Some bestAggressive =>
          grant MostAggressive
            {| aw_winner := bestAggressive;
               aw_description :=
                 "Fearless bets and raises kept everyone on edge";
               aw_stat := "Never met a pot they didn't want to steal" |} st
      | None => st
      end
  end.

Definition callRatio (data : PlayerStat) : Q :=
  let handsPlayed := Z.max (orElse (hands_played data) 1) 1 in
  let calls := orElse (calls data) 0 in
  ratio calls handsPlayed.

Definition callingStation (players : Players) (st : AwardState) : AwardState :=
  let callingCandidates :=
    filter (fun e => (negb (has (awardedPlayers st) (fst e)) &&
                      (5 <? orElse (hands_played (snd e)) 0))%bool)
      (Object_entries players) in
  match callingCandidates with
  | [] => st
  | _ :: _ =>
      match truthy (bestBy callRatio 0%Q Qgtb callingCandidates) with
      | Some bestCaller =>
          grant CallingStation
            {| aw_winner := bestCaller;
               aw_description := "Never saw a bet they didn't want to call";
               aw_stat := "The human slot machine" |} st
      | None => st
      end
  end.

Definition vpipRatio (data : PlayerStat) : Q :=
  let handsPlayed := Z.max (orElse (hands_played data) 1) 1 in
  let handsVoluntary := orElse (hands_voluntarily_played data) 0 in
  ratio handsVoluntary handsPlayed.

Definition tightestPlayer (players : Players) (st : AwardState) : AwardState :=
  let tightCandidates :=
    filter (fun e => (negb (has (awardedPlayers st) (fst e)) &&
                      (5 <? orElse (hands_played (snd e)) 0))%bool)
      (Object_entries players) in
  match tightCandidates with
  | [] => st
  | _ :: _ =>
      match truthy (bestBy vpipRatio 1%Q Qltb tightCandidates) with
      | Some tightest =>
          grant TightestPlayer
            {| aw_winner := tightest;
               aw_description :=
                 "Plays only a small, selective number of hands";
               aw_stat := "Classic tight-aggressive strategy" |} st
      | None => st
      end
  end.

Definition comebackCandidates (players : Players) (st : AwardState)
  : list (string * Q) :=
  let allChips :=
    filter (fun chips => 0 <? chips)
      (map (fun e => orElse (max_chips (snd e)) 0) (Object_entries players)) in
  match allChips with
  | [] => []
  | _ :: _ =>
      let minChips := Math_min allChips in
      flat_map
        (fun e =>
           if has (awardedPlayers st) (fst e) then []
           else
             match final_position (snd e) with
             | Some finalPos =>
                 let maxChips := orElse (max_chips (snd e)) 0 in
                 if ((maxChips <=? minChips * 2) &&
                     Qle_bool (inject_Z finalPos)
                       (inject_Z (playerCount players) / 2))%bool
                 then [(fst e,
                        ratio (playerCount players - finalPos)
                          (Z.max maxChips 1))]
                 else []
             | None => []
             end)
        (Object_entries players)
  end.

Definition comebackKid (players : Players) (st : AwardState) : AwardState :=
  match sortBy (fun a b => Qle_bool (snd b - snd a) 0)
          (comebackCandidates players st) with
  | (comebackKing, _) :: _ =>
      grant ComebackKid
        {| aw_winner := comebackKing;
           aw_description := "Largest comeback from the smallest chip stack";
           aw_stat := "Rose from the ashes like a phoenix" |} st
  | [] => st
  end.

Definition yoloCandidates (players : Players) (st : AwardState)
  : list (string * SuckoutInfo) :=
  flat_map
    (fun e =>
       if has (awardedPlayers st) (fst e) then []
       else
         map (fun suckout => (fst e, suckout))
           (filter
              (fun suckout =>
                 let description := toLowerCase (so_description suckout) in
                 existsb (fun badHand => includes description badHand)
                   ["7"; "2"; "offsuit"; "unsuited"])
              (suckouts (snd e))))
    (Object_entries players).

Definition yoloAward (players : Players) (st : AwardState) : AwardState :=
  match yoloCandidates players st with
  | (yoloWinner, _) :: _ =>
      grant YoloAward
        {| aw_winner := yoloWinner;
           aw_description := "Biggest pot won with the worst starting hand";
           aw_stat := "Sometimes you gotta risk it all" |} st
  | [] => st
  end.

Definition doggyPaddling (players : Players) (st : AwardState) : AwardState :=
  let survivors :=
    filter (fun e => (negb (has (awardedPlayers st) (fst e)) &&
                      Qgtb (inject_Z (positionOr999 (snd e)))
                        (inject_Z (playerCount players) * (6 # 10)))%bool)
      (Object_entries players) in
  match survivors with
  | [] => st
  | _ :: _ =>
      match truthy (bestBy (fun data => orElse (hands_played data) 0) 0
                      Z.gtb survivors) with
      | Some longestSurvivor =>
          grant DoggyPaddlingAward
            {| aw_winner := longestSurvivor;
               aw_description :=
                 "Consistently hovers at the bottom but somehow stays alive longer than expected";
               aw_stat := "Survival instincts kicked in" |} st
      | None => st
      end
  end.

Definition bluffRatio (data : PlayerStat) : Q :=
  let bets := orElse (bets data) 0 in
  let showdowns := Z.max (orElse (showdowns data) 1) 1 in
  ratio bets showdowns.

Definition hollywoodActor (players : Players) (st : AwardState) : AwardState :=
  let blufferCandidates :=
    filter (fun e => (negb (has (awardedPlayers st) (fst e)) &&
                      (2 <? orElse (bets (snd e)) 0))%bool)
      (Object_entries players) in
  match blufferCandidates with
  | [] => st
  | _ :: _ =>
      match truthy (bestBy bluffRatio 0%Q Qgtb blufferCandidates) with
      | Some bestBluffer =>
          grant HollywoodActor
            {| aw_winner := bestBluffer;
               aw_description := "Most bluffs attempted (successful or failed)";
               aw_stat := "Master of deception and theatrics" |} st
      | None => st
      end
  end.

Definition badHandWinners (players : Players) (st : AwardState)
  : list (string * SuckoutInfo) :=
  flat_map
    (fun e =>
       if has (awardedPlayers st) (fst e) then []
       else
         map (fun suckout => (fst e, suckout))
           (filter
              (fun suckout =>
                 let winningHand := toLowerCase (so_winning_hand suckout) in
                 ((includes winningHand "7" && includes winningHand "2")
                  || includes winningHand "worst")%bool)
              (suckouts (snd e))))
    (Object_entries players).

Definition sevenTwoHero (players : Players) (st : AwardState) : AwardState :=
  match badHandWinners players st with
  | (heroWinner, _) :: _ =>
      grant SevenTwoHero
        {| aw_winner := heroWinner;
           aw_description := "Won with the infamous 7-2 offsuit";
           aw_stat := "Turned trash into treasure" |} st
  | [] => st
  end.

Definition donkeyCandidates (players : Players) (st : AwardState)
  : list (string * Q * Q) :=
  flat_map
    (fun e =>
       if has (awardedPlayers st) (fst e) then []
       else
         let handsPlayed := orElse (hands_played (snd e)) 0 in
         if 10 <? handsPlayed then
           let vpip :=
             ratio (orElse (hands_voluntarily_played (snd e)) 0) handsPlayed in
           let winRate :=
             ratio (orElse (showdown_wins (snd e)) 0)
               (Z.max (orElse (showdowns (snd e)) 1) 1) in
           if (Qgtb vpip (4 # 10) && Qltb winRate (3 # 10))%bool
           then [(fst e, (vpip / (winRate + (1 # 10)))%Q, vpip)]
           else []
         else [])
    (Object_entries players).

Definition donkeyAward (candidates : list (string * Q * Q)) (st : AwardState)
  : AwardState :=
  match sortBy (fun a b => Qle_bool (snd (fst b) - snd (fst a)) 0)
          candidates with
  | worstPlayer :: _ =>
      if Qgtb (snd (fst worstPlayer)) (15 # 10) then
        grant Donkey
          {| aw_winner := fst (fst worstPlayer);
             aw_description :=
               "Made questionable decisions and played too many weak hands";
             aw_stat :=
               "Played "
               ++ numberToString (Math_round (snd worstPlayer * 100))
               ++ "% of hands with poor results" |} st
      else st
  | [] => st
  end.

Definition abcPlayer (players : Players) (st : AwardState) : AwardState :=
  let abcCandidates :=
    filter
      (fun e =>
         if (has (awardedPlayers st) (fst e) ||
             (orElse (hands_played (snd e)) 0 <=? 5))%bool
         then false
         else
           let aggroRatio :=
             ratio (orElse (aggressive_actions (snd e)) 0)
               (orElse (hands_played (snd e)) 1) in
           (Qgtb aggroRatio (15 # 100) && Qltb aggroRatio (35 # 100))%bool)
      (Object_entries players) in
  match abcCandidates with
  | [] => st
  | _ :: _ =>
      match truthy (bestBy (fun data => orElse (showdown_wins data) 0) 0
                      Z.gtb abcCandidates) with
      | Some bestAbc =>
          grant AbcPlayer
            {| aw_winner := bestAbc;
               aw_description :=
                 "Played textbook poker, predictable as clockwork";
               aw_stat := "By-the-book basic strategy" |} st
      | None => st
      end
  end.

Definition bubbleBoy (players : Players) (st : AwardState) : AwardState :=
  if 4 <=? playerCount players then
    let bubblePosition := (playerCount players + 1) / 2 in
    match filter (positionIs bubblePosition) (Object_entries players) with
    | (bubbleName, _) :: _ =>
        place BubbleBoy
          {| aw_winner := bubbleName;
             aw_description :=
               "Knocked out just before the money in heartbreaking fashion";
             aw_stat := "So close to cashing, yet so far" |} st
    | [] => st
    end
  else st.

(** The award blocks up to the Donkey guard. *)
Definition beforeDonkey (players : Players) : AwardState :=
  let st0 := {| awards := []; awardedPlayers := [] |} in
  let st1 := champion players st0 in
  let st2 := runnerUp players st1 in
  let st3 := mostAggressive players st2 in
  let st4 := callingStation players st3 in
  let st5 := tightestPlayer players st4 in
  let st6 := comebackKid players st5 in
  let st7 := yoloAward players st6 in
  let st8 := doggyPaddling players st7 in
  let st9 := hollywoodActor players st8 in
  sevenTwoHero players st9.

(** [calculateAwards]; [None] is [undefined]. *)
Definition calculateAwards (playersData : Players) : option Awards :=
  let players := withoutTournamentInfo playersData in
  match Object_keys players with
  | [] => Some []
  | _ :: _ =>
      let st10 := beforeDonkey players in
      match donkeyCandidates players st10 with
      | [] => None
      | _ :: _ =>
          let st11 :=
            match donkeyCandidates players st10 with
            | [] => st10
            | _ :: _ => donkeyAward (donkeyCandidates players st10) st10
            end in
          let st12 := abcPlayer players st11 in
          Some (awards (bubbleBoy players st12))
      end
  end.

End Standalone.

(* ================================================================== *)
(** ** Parser facade *)

Record TournamentInfo : Type := mkInfo {
  ti_id : option string;
  ti_date : option string;
  ti_player_count : Z
}.

(** An element of the bad-beat log. *)
Record BadBeatEntry : Type := mkEntry {
  h_victim : string;
  h_victim_hand : string;
  h_winner : string;
  h_winner_hand : string;
  h_description : string
}.

(** The two readings of the wall clock ([new Date()]) made by [parseTxt]. *)
Record Clock : Type := mkClock {
  toLocaleDateString : string;
  toISOString : string
}.

Record TournamentSummary : Type := mkSummary {
  tournament_date : string;
  tournament_id : string;
  total_players : Z;
  summary_awards : Awards;
  preparation_h_club : list BadBeatEntry;
  last_updated : string
}.

(** [extractFromTxt]; the result object is the player map together with the
    value stored last under the key [tournament_info] (every reader of the
    map skips that key). *)
Definition extractFromTxt (text : string) : Players * TournamentInfo :=
  let id := option_map (group 1) (search tournamentRegex text) in
  let date := option_map (group 1) (search dateRegex text) in
  let hands := handsOf text in
  let players := fold_left (fun ps handText => parseHand handText ps) hands [] in
  let players' := determineFinalPositions players text in
  (players',
   {| ti_id := id; ti_date := date;
      ti_player_count := Z.of_nat (List.length (Object_keys players')) |}).

(** [extractPreparationHClub] *)
Definition extractPreparationHClub (playersData : Players)
  : list BadBeatEntry :=
  flat_map
    (fun e =>
       map (fun badBeat =>
              {| h_victim := fst e;
                 h_victim_hand := bb_victim_hand badBeat;
                 h_winner := bb_winner badBeat;
                 h_winner_hand := bb_winner_hand badBeat;
                 h_description := bb_description badBeat |})
         (bad_beats (snd e)))
    (Object_entries (withoutTournamentInfo playersData)).

(** [s || d] on an optional string *)
Definition orText (s : option string) (d : string) : string :=
  match s with
  | Some v => if String.eqb v "" then d else v
  | None => d
  end.

(** [parseTxt].  Nothing in the [try] block throws on a string, so the
    [catch] branch is never taken. *)
Definition parseTxt (now : Clock) (content : string) : TournamentSummary :=
  let playersData := fst (extractFromTxt content) in
  let tournamentInfo := snd (extractFromTxt content) in
  let playerCount :=
    Z.of_nat (List.length (filter (fun k => negb (String.eqb k TOURNAMENT_INFO))
                             (Object_keys playersData))) in
  let awards := PokerAwardsParser.calculateAwards playersData in
  let preparationHClub := extractPreparationHClub playersData in
  {| tournament_date := orText (ti_date tournamentInfo) (toLocaleDateString now);
     tournament_id := orText (ti_id tournamentInfo) "Unknown";
     total_players := orElse (ti_player_count tournamentInfo) playerCount;
     summary_awards := awards;
     preparation_h_club := preparationHClub;
     last_updated := toISOString now |}.

(* ================================================================== *)
(** ** Vocabulary of the specification *)

(** *** Views of the player map *)

(** What a reader sees of a player through [proj]; [d] for a name that is
    not registered. *)
Definition viewOr {A : Type} (proj : PlayerStat -> A) (d : A) (n : string)
  (players : Players) : A :=
  match get n players with
  | Some p => proj p
  | None => d
  end.

Definition badBeatsOf : string -> Players -> list BadBeatInfo :=
  viewOr bad_beats [].

Definition suckoutsOf : string -> Players -> list SuckoutInfo :=
  viewOr suckouts [].

Definition handsPlayedOf : string -> Players -> Z := viewOr hands_played 0.

Definition voluntaryOf : string -> Players -> Z :=
  viewOr hands_voluntarily_played 0.

(** [final_position] of a registered player, [None] for "unranked". *)
Definition positionOf : string -> Players -> option Z :=
  viewOr final_position None.

(** The split/tie language test of the detector. *)
Definition splitLanguage (handText : string) : bool :=
  existsb (fun phrase => includes (toLowerCase handText) phrase)
    splitPotPhrases.

(** [players[name]] is truthy. *)
Definition registered (name : string) (players : Players) : bool :=
  isSome (get name players).

(** Text between the showdown marker and the next one. *)
Definition showdownSection (handText : string) : string :=
  match splitSecond SHOW_DOWN handText with
  | Some section => section
  | None => ""
  end.

(** The hands revealed at the showdown, as the detector classifies them when
    [winner] collected the pot. *)
Definition revealedHands (handText winner : string) : list ShownHand :=
  map (shownHand winner) (matchAll showdownRegex (showdownSection handText)).

Definition losingHands (handText winner : string) : list ShownHand :=
  filter (fun h => negb (won h)) (revealedHands handText winner).

(** The comparison [(a, b) => key(b) - key(a)], as [compareFn(a, b) <= 0]. *)
Definition descending {A : Type} (key : A -> Z) (a b : A) : bool :=
  key b - key a <=? 0.

(** [o] is the name [n]. *)
Definition isName (o : option string) (n : string) : bool :=
  match o with
  | Some m => String.eqb m n
  | None => false
  end.

(** The winner named by the award [c], if the award was issued. *)
Definition winnerOf (c : AwardName) (a : Awards) : option string :=
  option_map aw_winner (awardOf c a).

(** One award block: it leaves the state alone, or assigns a placement
    award, or grants the award [c] to a player not yet in [awardedPlayers]. *)
Definition AwardStep (c : AwardName) (st st' : AwardState) : Prop :=
  st' = st
  \/ (exists r, st' = place c r st /\ isPlacement c = true)
  \/ (exists r, st' = grant c r st
                /\ has (awardedPlayers st) (aw_winner r) = false).

(** Every behavioral winner is in [awardedPlayers], and no two behavioral
    awards name the same winner. *)
Definition exclusive (st : AwardState) : Prop :=
  (forall c r,
      isBehavioral c = true -> awardOf c (awards st) = Some r ->
      In (aw_winner r) (awardedPlayers st))
  /\ (forall c1 c2 r1 r2,
         isBehavioral c1 = true -> isBehavioral c2 = true -> c1 <> c2 ->
         awardOf c1 (awards st) = Some r1 ->
         awardOf c2 (awards st) = Some r2 ->
         aw_winner r1 <> aw_winner r2).

(** The hand record consulted by the final-position resolver. *)
Definition lastHand (text : string) : option string :=
  match handsOf text with
  | [] => None
  | h :: hs => Some (last (h :: hs) "")
  end.

(** The first pot collector of a hand. *)
Definition finalCollector (finalHand : string) : option string :=
  option_map (group 1) (search finalWinnerRegex finalHand).

(** The names shown in a hand, in order. *)
Definition finalists (finalHand : string) : list string :=
  map (group 1) (matchAll finalistRegex finalHand).

(** The winner of the last hand, when that hand has a collector who is a
    registered player and at least one shown hand. *)
Definition firstPlace (text : string) (players : Players) : option string :=
  match lastHand text with
  | Some finalHand =>
      match finalCollector finalHand, finalists finalHand with
      | Some w, _ :: _ => if registered w players then Some w else None
      | _, _ => None
      end
  | None => None
  end.

(** Under the same condition on the last hand, the first registered player
    shown in it other than the collector. *)
Definition secondPlace (text : string) (players : Players) : option string :=
  match lastHand text with
  | Some finalHand =>
      match finalCollector finalHand, finalists finalHand with
      | Some w, f :: fs =>
          find (fun x => (negb (String.eqb x w) && registered x players)%bool)
            (f :: fs)
      | _, _ => None
      end
  | None => None
  end.

(** A player that receives neither of the first two places. *)
Definition unranked (text : string) (players : Players) (n : string) : Prop :=
  registered n players = true
  /\ n <> TOURNAMENT_INFO
  /\ firstPlace text players <> Some n
  /\ secondPlace text players <> Some n.

Definition maxChipsOf : string -> Players -> Z := viewOr max_chips 0.

(** The names with a seat entry in a hand. *)
Definition seatedNames (handText : string) : list string :=
  map (group 1) (matchAll seatRegex handText).

(** Every name matched as playing voluntarily in the hand has a seat entry
    in the same hand. *)
Definition actorsSeated (handText : string) : bool :=
  forallb (fun n => existsb (String.eqb n) (seatedNames handText))
    (voluntaryPlayers handText).

Definition wellSeated (text : string) : bool :=
  forallb actorsSeated (handsOf text).

(** The pot-collection events of a hand. *)
Definition potCollections (handText : string) : list Match :=
  matchAll collectedRegex handText.

(** *** Hand classes *)

Inductive HandClass : Type :=
| HighCard | OnePair | TwoPair | ThreeOfAKind | Straight | Flush
| FullHouse | FourOfAKind | StraightFlush | RoyalFlush.

(** The order of the specification, low to high. *)
Definition classRank (c : HandClass) : nat :=
  match c with
  | HighCard => 0 | OnePair => 1 | TwoPair => 2 | ThreeOfAKind => 3
  | Straight => 4 | Flush => 5 | FullHouse => 6 | FourOfAKind => 7
  | StraightFlush => 8 | RoyalFlush => 9
  end%nat.

(** The class named by a canonical label. *)
Definition labelClass (label : string) : HandClass :=
  if String.eqb label "royal flush" then RoyalFlush
  else if String.eqb label "straight flush" then StraightFlush
  else if startsWith label "quad" then FourOfAKind
  else if String.eqb label "full house" then FullHouse
  else if String.eqb label "flush" then Flush
  else if String.eqb label "straight" then Straight
  else if startsWith label "trip" then ThreeOfAKind
  else if String.eqb label "two pair" then TwoPair
  else if startsWith label "pocket " then OnePair
  else if String.eqb label "a pair" then OnePair
  else HighCard.

(** The class of a numeric strength. *)
Definition strengthClass (strength : Z) : HandClass :=
  if 1000 <=? strength then RoyalFlush
  else if 900 <=? strength then StraightFlush
  else if 800 <=? strength then FourOfAKind
  else if 700 <=? strength then FullHouse
  else if 600 <=? strength then Flush
  else if 500 <=? strength then Straight
  else if 400 <=? strength then ThreeOfAKind
  else if 200 <=? strength then TwoPair
  else if 100 <=? strength then OnePair
  else HighCard.

(** The conditions under which either function recognizes a description. *)
Definition recognized (handDescription : string) : bool :=
  let d := toLowerCase handDescription in
  (includes d "royal flush" || includes d "straight flush"
   || includes d "four of a kind" || includes d "full house"
   || (includes d "flush" && negb (includes d "straight"))
   || (includes d "straight" && negb (includes d "flush"))
   || includes d "three of a kind" || includes d "two pair"
   || includes d "pair of")%bool.

Definition premiumRanks (handDescription : string) : bool :=
  existsb (fun card => includes (toLowerCase handDescription) card)
    ["aces"; "kings"; "queens"].

Definition strengths : list Z :=
  [50; 100; 120; 130; 140; 150; 200; 300; 400; 500; 600; 700; 800; 900; 1000].

(** One description for each class of the specification, low to high. *)
Definition sampleDescriptions : list string :=
  ["high card Ace"; "a pair of Sevens"; "two pair, Sevens and Fours";
   "three of a kind, Sevens"; "a straight, Five to Nine";
   "a flush, Ace high"; "a full house, Sevens full of Fours";
   "four of a kind, Sevens"; "a straight flush, Five to Nine";
   "a Royal Flush"].


(* ================================================================== *)
(** ** Sample transcripts *)

Definition LF : string := String (ascii_of_nat 10) "".

Fixpoint lines (ls : list string) : string :=
  match ls with
  | [] => ""
  | l :: rest => l ++ LF ++ lines rest
  end.

(** Two pair of jacks and fours loses a showdown to a flush. *)
Definition twoPairHand : string :=
  lines
    ["PokerStars Hand #7: Tournament #3928736979, $5.00+$0.50 USD Hold'em No Limit - Level II (15/30) - 2025/03/02 20:15:01 ET";
     "Table '3928736979 1' 9-max Seat #1 is the button";
     "Seat 1: Joe (1500 in chips)";
     "Seat 2: Al (900 in chips)";
     "Seat 3: Bea (1200 in chips)";
     "Al: posts small blind 15";
     "Bea: posts big blind 30";
     "*** HOLE CARDS ***";
     "Joe: raises 60 to 90";
     "Al: calls 75";
     "Bea: folds";
     "*** FLOP *** [Jh 4h 2h]";
     "Al: checks";
     "Joe: bets 120";
     "Al: calls 120";
     "*** SHOW DOWN ***";
     "Joe: shows [Ah Kh] (a flush, Ace high)";
     "Al: shows [Jc 4d] (two pair, Jacks and Fours)";
     "Joe collected 450 from pot";
     "*** SUMMARY ***";
     "Total pot 450 | Rake 0";
     "Seat 1: Joe (button) showed [Ah Kh] and won (450) with a flush, Ace high";
     "Seat 2: Al (small blind) showed [Jc 4d] and lost with two pair, Jacks and Fours"].

(** A full house and two pair of queens and jacks both lose to four aces. *)
Definition badBeatHand : string :=
  lines
    ["PokerStars Hand #8: Tournament #3928736979, $5.00+$0.50 USD Hold'em No Limit - Level II (15/30) - 2025/03/02 20:17:40 ET";
     "Seat 1: Joe (1950 in chips)";
     "Seat 2: Al (450 in chips)";
     "Seat 3: Bea (1200 in chips)";
     "Joe: raises 60 to 90";
     "Al: calls 90";
     "Bea: calls 90";
     "*** SHOW DOWN ***";
     "Joe: shows [Ah Ad] (four of a kind, Aces)";
     "Al: shows [Kc Kd] (a full house, Kings full of Aces)";
     "Bea: shows [Qc Jd] (two pair, Queens and Jacks)";
     "Joe collected 270 from pot";
     "*** SUMMARY ***"].

(** Two players collect from the same pot. *)
Definition splitPotHand : string :=
  lines
    ["PokerStars Hand #9: Tournament #3928736979, $5.00+$0.50 USD Hold'em No Limit - Level II (15/30) - 2025/03/02 20:19:12 ET";
     "Seat 1: Joe (2130 in chips)";
     "Seat 2: Al (360 in chips)";
     "Seat 3: Bea (1110 in chips)";
     "Joe: raises 60 to 90";
     "Al: calls 90";
     "Bea: calls 90";
     "*** SHOW DOWN ***";
     "Joe: shows [Ah Kd] (a full house, Aces full of Kings)";
     "Al: shows [Ac Kc] (a full house, Aces full of Kings)";
     "Bea: shows [Qc Qd] (a flush, Queen high)";
     "Joe collected 135 from pot";
     "Al collected 135 from pot";
     "*** SUMMARY ***"].

(** The players seated in a hand, registered in an empty map. *)
Definition seated (handText : string) : Players :=
  fold_left seatStep (matchAll seatRegex handText) [].


(** A transcript of the two hands [twoPairHand] and [badBeatHand]. *)
Definition twoHandTranscript : string := twoPairHand ++ badBeatHand.

(** The last hand is won without a showdown. *)
Definition foldedFinalTranscript : string :=
  twoPairHand
  ++ lines
       ["PokerStars Hand #8: Tournament #3928736979, $5.00+$0.50 USD Hold'em No Limit - Level II (15/30) - 2025/03/02 20:17:40 ET";
        "Seat 1: Joe (1950 in chips)";
        "Seat 2: Al (450 in chips)";
        "Seat 3: Bea (1200 in chips)";
        "Joe: raises 60 to 90";
        "Al: folds";
        "Bea: folds";
        "Uncalled bet (60) returned to Joe";
        "Joe collected 75 from pot";
        "Joe: doesn't show hand";
        "*** SUMMARY ***"].

(** A player record with the given counters and everything else at its
    initial value. *)
Definition statOf (handsPlayed aggressive callCount voluntary showdownsSeen
  wins : Z) : PlayerStat :=
  {| hands_played := handsPlayed; raises := aggressive; calls := callCount;
     folds := 0; bets := 0; checks := 0; showdowns := showdownsSeen;
     showdown_wins := wins; total_won := 0; total_bet := 0;
     aggressive_actions := aggressive;
     passive_actions := callCount;
     hands_voluntarily_played := voluntary; final_position := None;
     max_chips := 1500; bad_beats := []; suckouts := [] |}.

(** Two players with eight hands each, no raise, bet or call, and every hand
    played voluntarily. *)
Definition passivePlayers : Players :=
  [("Ann", statOf 8 0 0 8 0 0); ("Bob", statOf 8 0 0 8 0 0)].

(** Ann, Bob and Cat all raise in a fifth of their hands; none of them has
    won a showdown. *)
Definition textbookPlayers : Players :=
  [("Ann", statOf 10 2 0 10 1 0); ("Bob", statOf 10 2 0 10 1 0);
   ("Cat", statOf 10 2 0 10 1 0)].

(** Ann, Bob, Cat and Dan each win one of the four metric-maximizing
    awards; Eve, with the most hands, takes Doggy Paddling. *)
Definition activePlayers : Players :=
  [("Ann", statOf 10 6 0 10 0 0); ("Bob", statOf 10 0 5 10 0 0);
   ("Cat", statOf 10 0 0 2 0 0); ("Dan", statOf 10 2 0 10 2 1);
   ("Eve", statOf 12 0 0 12 0 0)].

(** [activePlayers] and Fay, who plays every one of her eleven hands
    voluntarily and never wins a showdown. *)
Definition donkeyPlayers : Players :=
  (activePlayers ++ [("Fay", statOf 11 0 0 11 0 0)])%list.


(** Two readings of the clock, a day apart. *)
Definition firstOfMarch : Clock :=
  {| toLocaleDateString := "3/1/2025";
     toISOString := "2025-03-01T20:00:00.000Z" |}.

Definition secondOfMarch : Clock :=
  {| toLocaleDateString := "3/2/2025";
     toISOString := "2025-03-02T20:00:00.000Z" |}.

(* ================================================================== *)
(** ** Vocabulary of the parse invariants *)

(** The player map after the hand loop of [extractFromTxt], before the
    final positions are resolved. *)
Definition parsedPlayers (text : string) : Players :=
  fold_left (fun ps handText => parseHand handText ps) (handsOf text) [].

(** [J] holds of every entry of the player map. *)
Definition everyPlayer (J : string -> PlayerStat -> Prop) (players : Players)
  : Prop :=
  Forall (fun e => J (fst e) (snd e)) players.

(** What the seat loop does to the record of a player listed with [chips]. *)
Definition seatUpdate (chips : Z) (p : PlayerStat) : PlayerStat :=
  let p1 := set_hands_played (hands_played p + 1) p in
  set_max_chips (Z.max (max_chips p1) chips) p1.

(** What the showdown loop does to the record of a player matched with
    the result [result]. *)
Definition showdownUpdate (result : string) (p : PlayerStat) : PlayerStat :=
  let p1 := set_showdowns (showdowns p + 1) p in
  if String.eqb result "won"
  then set_showdown_wins (showdown_wins p1 + 1) p1 else p1.

(** The hands the detector compares are read off a showdown match: their
    strength is the classified strength of their description. *)
Definition classified (h : ShownHand) : Prop :=
  made_hand_strength h = evaluateMadeHandStrength (description h).

(** A bad-beat record as the detector writes it in the list of [victim]. *)
Definition recordedBadBeat (victim : string) (b : BadBeatInfo) : Prop :=
  exists losingHand winningHand,
    b = badBeatInfo (player winningHand) losingHand winningHand
    /\ player losingHand = victim
    /\ player winningHand <> victim
    /\ player winningHand <> ""
    /\ classified losingHand
    /\ classified winningHand
    /\ isGenuineBadBeat losingHand winningHand = true.

(** A suckout record as the detector writes it in the list of [winner]. *)
Definition recordedSuckout (winner : string) (s : SuckoutInfo) : Prop :=
  exists losingHand winningHand,
    s = suckoutInfo losingHand winningHand
    /\ player winningHand = winner
    /\ player losingHand <> winner
    /\ classified losingHand
    /\ classified winningHand
    /\ isGenuineBadBeat losingHand winningHand = true.

(** Every player of [ps] is still a player of [ps'], with a record related
    to the old one by [R]. *)
Definition extends (R : PlayerStat -> PlayerStat -> Prop) (ps ps' : Players)
  : Prop :=
  forall n p, get n ps = Some p -> exists p', get n ps' = Some p' /\ R p p'.

(** [p'] is [p] after more play: no counter is lower, the bad-beat and
    suckout lists are extended at their end, and [final_position] and
    [total_bet] are the same. *)
Definition grew (p p' : PlayerStat) : Prop :=
  hands_played p <= hands_played p'
  /\ raises p <= raises p'
  /\ calls p <= calls p'
  /\ folds p <= folds p'
  /\ bets p <= bets p'
  /\ checks p <= checks p'
  /\ showdowns p <= showdowns p'
  /\ showdown_wins p <= showdown_wins p'
  /\ total_won p <= total_won p'
  /\ aggressive_actions p <= aggressive_actions p'
  /\ passive_actions p <= passive_actions p'
  /\ hands_voluntarily_played p <= hands_voluntarily_played p'
  /\ max_chips p <= max_chips p'
  /\ (exists more, bad_beats p' = bad_beats p ++ more)%list
  /\ (exists more, suckouts p' = suckouts p ++ more)%list
  /\ final_position p' = final_position p
  /\ total_bet p' = total_bet p.

(** The seat entries of a transcript, hand by hand. *)
Definition seatEntries (text : string) : list Match :=
  flat_map (matchAll seatRegex) (handsOf text).


(** The values of [getSimpleHandDescription]. *)
Definition handLabels : list string :=
  ["royal flush"; "straight flush"; "quad aces"; "quad kings"; "quad queens";
   "quads"; "full house"; "flush"; "straight"; "trip aces"; "trip kings";
   "trip queens"; "trip jacks"; "trips"; "two pair"; "pocket aces";
   "pocket kings"; "pocket queens"; "pocket jacks"; "a pair"; "high card"].

(** The test of the YOLO block on the description of a suckout. *)
Definition mentionsBadHand (description : string) : bool :=
  existsb (fun badHand => includes (toLowerCase description) badHand)
    ["7"; "2"; "offsuit"; "unsuited"].

(** The positions the resolver hands out. *)
Definition rankedPositions : list (option Z) :=
  [None; Some 1; Some 2; Some 3].

(** The number of players the award engine sees. *)
Definition fieldSize (playersData : Players) : Z :=
  playerCount (withoutTournamentInfo playersData).

(** The marker every hand record starts with. *)
Definition HAND_MARKER : string := "PokerStars Hand #".

(** The distinct names of the seat entries, in order of first appearance. *)
Definition distinctSeated (text : string) : list string :=
  fold_left setAdd (map (group 1) (seatEntries text)) [].

(** An award block that leaves the awards alone or assigns one whose winner
    is a player of the map. *)
Definition NamesPlayer (players : Players) (st st' : AwardState) : Prop :=
  awards st' = awards st
  \/ exists c r,
      awards st' = assign c r (awards st)
      /\ In (aw_winner r) (map fst players).

(** Four players; Joe wins the showdown of the only hand against Al. *)
Definition fourHandedTranscript : string :=
  lines
    ["PokerStars Hand #11: Tournament #3928736979, $5.00+$0.50 USD Hold'em No Limit - Level III (25/50) - 2025/03/02 20:31:07 ET";
     "Seat 1: Joe (1800 in chips)";
     "Seat 2: Al (700 in chips)";
     "Seat 3: Bea (2100 in chips)";
     "Seat 4: Cy (1400 in chips)";
     "Joe: raises 100 to 150";
     "Al: calls 150";
     "Bea: folds";
     "Cy: folds";
     "*** SHOW DOWN ***";
     "Joe: shows [As Ks] (a pair of Aces)";
     "Al: shows [Qc Jd] (a pair of Queens)";
     "Joe collected 375 from pot";
     "*** SUMMARY ***"].

(** Ann has played the most hands, Bob has bet four times, and Cat plays
    every hand voluntarily without ever winning a showdown. *)
Definition showmen : Players :=
  [("Ann", statOf 12 0 0 12 0 0); ("Bob", set_bets 4 (statOf 11 0 0 11 0 0));
   ("Cat", statOf 11 0 0 11 0 0)].

(* ================================================================== *)
(** ** The line-based tournament parser

    [parseTournament] and [extractDate] of the request handler
    ([functions/[[path]].js]).  A thrown exception is a value of [Thrown];
    [undefined[0]], a [TypeError] in the source, is [TypeError].
    [player_stats] holds own properties only: the properties that depend on
    its lookups are stated for files that name no player after a property
    that objects inherit ([ordinaryResults]). *)

Module Worker.

(** [s.split('\n')] *)
Fixpoint splitLines (s : string) : list string :=
  match s with
  | EmptyString => [""]
  | String c s' =>
      if Ascii.eqb c (ascii_of_nat 10) then "" :: splitLines s'
      else match splitLines s' with
           | l :: ls => String c l :: ls
           | [] => [String c ""]
           end
  end.

Fixpoint trimStart (s : string) : string :=
  match s with
  | EmptyString => EmptyString
  | String c s' => if isSpace c then trimStart s' else s
  end.

Fixpoint trimEnd (s : string) : string :=
  match s with
  | EmptyString => EmptyString
  | String c s' =>
      match trimEnd s' with
      | EmptyString => if isSpace c then EmptyString else String c EmptyString
      | rest => String c rest
      end
  end.

(** [s.trim()] *)
Definition trim (s : string) : string := trimEnd (trimStart s).

(** [s.replace(/\//g, '-')] *)
Fixpoint dashes (s : string) : string :=
  match s with
  | EmptyString => EmptyString
  | String c s' =>
      String (if Ascii.eqb c "/" then "-"%char else c) (dashes s')
  end.

(** A literal under the [i] flag. *)
Fixpoint LitI (l : string) : regex :=
  match l with
  | EmptyString => Lit ""
  | String c EmptyString =>
      Chr (fun a => Ascii.eqb (lowerChar a) (lowerChar c))
  | String c l' =>
      Seq (Chr (fun a => Ascii.eqb (lowerChar a) (lowerChar c))) (LitI l')
  end.

(** [/(\d{4}\/\d{2}\/\d{2})/] *)
Definition dayRegex : regex :=
  let d := Chr isDigit in
  Group 1 (seqs [Times 4 d; Lit "/"; Times 2 d; Lit "/"; Times 2 d]).

(** [/(\d+) players/i] *)
Definition playersRegex : regex := Seq (Group 1 digits) (LitI " players").

(** [/^(\w+)\s+finished\s+(\d+)(st|nd|rd|th)/i]; the anchor is rendered by
    matching at the start of the line only. *)
Definition finishedRegex : regex :=
  seqs [Group 1 (Plus (Chr isWord)); Plus (Chr isSpace); LitI "finished";
        Plus (Chr isSpace); Group 2 digits;
        Group 3 (Alt (LitI "st") (Alt (LitI "nd") (Alt (LitI "rd") (LitI "th"))))].

(** [/(\w+)\s+.*knocked out.*(\w+)/i] *)
Definition knockoutRegex : regex :=
  seqs [Group 1 (Plus (Chr isWord)); Plus (Chr isSpace);
        Star true (Chr isNotLineEnd); LitI "knocked out";
        Star true (Chr isNotLineEnd); Group 2 (Plus (Chr isWord))].

(** [extractDate] *)
Definition extractDate (line : string) : option string :=
  match search dayRegex line with
  | Some dateMatch => Some (dashes (group 1 dateMatch))
  | None => None
  end.

Record Stats : Type := mkStats {
  placement : Z;
  knockouts : Z
}.

Record Award : Type := mkAward {
  winner : string;
  stat : string
}.

Record Tournament : Type := mkTournament {
  tournament_date : string;
  total_players : Z;
  awards : list (string * Award);
  preparation_h_club : list BadBeatEntry;
  player_stats : list (string * Stats)
}.

Inductive Thrown : Type :=
| EmptyFile   (** [new Error('File is empty or contains no valid data')] *)
| TypeError.

(** [o[k]] *)
Fixpoint lookup {A : Type} (k : string) (o : list (string * A)) : option A :=
  match o with
  | [] => None
  | (k', v) :: rest => if String.eqb k' k then Some v else lookup k rest
  end.

(** [o[k] = v] *)
Fixpoint assignKey {A : Type} (k : string) (v : A) (o : list (string * A))
  : list (string * A) :=
  match o with
  | [] => [(k, v)]
  | (k', v') :: rest =>
      if String.eqb k' k then (k', v) :: rest
      else (k', v') :: assignKey k v rest
  end.

Definition set_tournament_date (v : string) (t : Tournament) : Tournament :=
  {| tournament_date := v; total_players := total_players t;
     awards := awards t; preparation_h_club := preparation_h_club t;
     player_stats := player_stats t |}.

Definition set_total_players (v : Z) (t : Tournament) : Tournament :=
  {| tournament_date := tournament_date t; total_players := v;
     awards := awards t; preparation_h_club := preparation_h_club t;
     player_stats := player_stats t |}.

Definition set_awards (v : list (string * Award)) (t : Tournament)
  : Tournament :=
  {| tournament_date := tournament_date t; total_players := total_players t;
     awards := v; preparation_h_club := preparation_h_club t;
     player_stats := player_stats t |}.

Definition set_player_stats (v : list (string * Stats)) (t : Tournament)
  : Tournament :=
  {| tournament_date := tournament_date t; total_players := total_players t;
     awards := awards t; preparation_h_club := preparation_h_club t;
     player_stats := v |}.

(** [tournament.player_stats[knocker].knockouts++], after the entry has been
    created if it was missing. *)
Definition countKnockout (knocker : string) (stats : list (string * Stats))
  : list (string * Stats) :=
  let stats1 :=
    match lookup knocker stats with
    | Some _ => stats
    | None => assignKey knocker {| placement := 999; knockouts := 0 |} stats
    end in
  match lookup knocker stats1 with
  | Some s =>
      assignKey knocker
        {| placement := placement s; knockouts := knockouts s + 1 |} stats1
  | None => stats1
  end.

(** The body of the loop over the lines. *)
Definition lineStep (t : Tournament) (line : string) : Tournament :=
  let t1 :=
    if (includes line "Tournament" && includes line "Hold'em")%bool
    then set_tournament_date (orText (extractDate line) (tournament_date t)) t
    else t in
  let t2 :=
    match search playersRegex line with
    | Some playerMatch =>
        set_total_players (parseInt (group 1 playerMatch)) t1
    | None => t1
    end in
  let t3 :=
    match execAt finishedRegex line with
    | Some winnerMatch =>
        set_player_stats
          (assignKey (group 1 winnerMatch)
             {| placement := parseInt (group 2 winnerMatch); knockouts := 0 |}
             (player_stats t2)) t2
    | None => t2
    end in
  match search knockoutRegex line with
  | Some koMatch =>
      set_player_stats (countKnockout (group 1 koMatch) (player_stats t3)) t3
  | None => t3
  end.

(** The double nearest to 0.7 is [seven_tenths * 2^-53]. *)
Definition seven_tenths : Z := 6305039478318694.

(** [Math.floor(n * 0.7)] for an integer [0 <= n < 2^53]: the exact product
    [n * seven_tenths * 2^-53] is rounded to 53 significant bits, ties to
    even, and the result is rounded down to an integer. *)
Definition floor_times_seven_tenths (n : Z) : Z :=
  let product := n * seven_tenths in
  let drop := Z.max 0 (Z.log2 product - 52) in
  let q := product / 2 ^ drop in
  let r := product mod 2 ^ drop in
  let rounded :=
    if ((2 ^ drop <? 2 * r) || ((2 * r =? 2 ^ drop) && Z.odd q))%bool
    then q + 1 else q in
  rounded * 2 ^ drop / 2 ^ 53.

(** [players[i][0]]; reading [[0]] of [undefined] throws. *)
Definition nameAt (players : list (string * Stats)) (i : nat)
  : Thrown + string :=
  match nth_error players i with
  | Some e => inr (fst e)
  | None => inl TypeError
  end.

(** The [reduce] of the Most Aggressive award. *)
Definition mostKnockouts (players : list (string * Stats)) : string * Stats :=
  fold_left
    (fun max e =>
       if orElse (knockouts (snd max)) 0 <? knockouts (snd e) then e else max)
    players ("", {| placement := 0; knockouts := 0 |}).

(** Sequencing of a computation that may throw. *)
Definition andThen {A B : Type} (x : Thrown + A) (f : A -> Thrown + B)
  : Thrown + B :=
  match x with
  | inl e => inl e
  | inr a => f a
  end.

(** The award block of [parseTournament] for a non-empty [players]. *)
Definition awardsOf (players : list (string * Stats))
  : Thrown + list (string * Award) :=
  let n := List.length players in
  let awards0 : list (string * Award) := [] in
  let awards1 :=
    match find (fun e => placement (snd e) =? 1) players with
    | Some champion =>
        assignKey "Tournament Champion"
          {| winner := fst champion; stat := "1st Place" |} awards0
    | None => awards0
    end in
  let mostKOs := mostKnockouts players in
  let awards2 :=
    if 0 <? knockouts (snd mostKOs)
    then assignKey "Most Aggressive"
           {| winner := fst mostKOs;
              stat := numberToString (knockouts (snd mostKOs)) ++ " knockouts" |}
           awards1
    else awards1 in
  andThen (nameAt players (n - 1)) (fun participant =>
  let awards3 :=
    assignKey "Participation Award"
      {| winner := participant; stat := "Thanks for playing!" |} awards2 in
  andThen (nameAt players (Nat.div n 2)) (fun comeback =>
  let awards4 :=
    assignKey "Comeback Kid"
      {| winner := comeback; stat := "Never gave up!" |} awards3 in
  andThen (nameAt players 0) (fun yolo =>
  let awards5 :=
    assignKey "YOLO Award"
      {| winner := yolo; stat := "All-in mentality!" |} awards4 in
  andThen (match nth_error players 1 with
           | Some e => inr (fst e)
           | None => nameAt players 0
           end) (fun actor =>
  let awards6 :=
    assignKey "Hollywood Actor"
      {| winner := actor; stat := "Master of deception" |} awards5 in
  andThen (nameAt players (n - 1)) (fun caller =>
  let awards7 :=
    assignKey "Calling Station"
      {| winner := caller; stat := "Never folded a hand" |} awards6 in
  andThen (nameAt players
             (Z.to_nat (floor_times_seven_tenths (Z.of_nat n))))
    (fun paddler =>
  andThen (if String.eqb paddler "" then nameAt players (n - 1)
           else inr paddler) (fun paddler' =>
  inr (assignKey "Doggy Paddling Award"
         {| winner := paddler'; stat := "Swimming upstream" |} awards7)))))))).

(** [parseTournament]; [now] is the reading of the clock. *)
Definition parseTournament (now : Clock) (fileContent : string)
  : Thrown + Tournament :=
  let lines :=
    filter (fun line => Nat.ltb 0 (String.length line))
      (map trim (splitLines fileContent)) in
  match lines with
  | [] => inl EmptyFile
  | _ :: _ =>
      let tournament :=
        {| tournament_date := beforeFirst "T" (toISOString now);
           total_players := 0;
           awards := [];
           preparation_h_club := [];
           player_stats := [] |} in
      let tournament1 := fold_left lineStep lines tournament in
      let players := Object_entries (player_stats tournament1) in
      match players with
      | [] => inr tournament1
      | _ :: _ =>
          andThen (awardsOf players)
            (fun awards' => inr (set_awards awards' tournament1))
      end
  end.

(** Only white space. *)
Fixpoint blank (s : string) : bool :=
  match s with
  | EmptyString => true
  | String c s' => (isSpace c && blank s')%bool
  end.

(** The keys of the awards given whenever a player was found. *)
Definition unconditionalAwards : list string :=
  ["Participation Award"; "Comeback Kid"; "YOLO Award"; "Hollywood Actor";
   "Calling Station"; "Doggy Paddling Award"].

(** The form [dddd-dd-dd]. *)
Definition isoDay (s : string) : bool :=
  match s with
  | String y1 (String y2 (String y3 (String y4 (String d1
      (String m1 (String m2 (String d2 (String a1 (String a2 EmptyString)))))))))
    => (isDigit y1 && isDigit y2 && isDigit y3 && isDigit y4
        && Ascii.eqb d1 "-" && isDigit m1 && isDigit m2
        && Ascii.eqb d2 "-" && isDigit a1 && isDigit a2)%bool
  | _ => false
  end.

(** The points [saveTournamentToD1] credits to a player. *)
Definition pointsFor (stats : Stats) : Z :=
  let points :=
    if placement stats =? 1 then 10
    else if placement stats =? 2 then 8
    else if placement stats =? 3 then 6
    else 2 in
  points + orElse (knockouts stats) 0 * 2.

End Worker.

(** A results file of three players. *)
Definition resultsFile : string :=
  lines
    ["PokerStars Tournament #3928736979, No Limit Hold'em - 2025/03/02";
     "6 players";
     "";
     "Joe knocked out Bea";
     "Joe finished 1st";
     "Al finished 2nd";
     "Al knocked out Cy";
     "Al knocked out Dan"].

(* ================================================================== *)
(** ** The parser in its host

    The definitions above read and write the own properties of the player
    map.  In the source every lookup [players[name]] also finds what the map
    inherits from [Object.prototype], and every guard [if (players[name])]
    is entered for whatever truthy value is found there.  [Host] is the
    parser with these lookups: a name can denote a player record, an object
    of the host (a method of [Object.prototype], or [Object.prototype]
    itself for the name [__proto__]), a number that an earlier run left on
    [Object.prototype], or nothing.

    The bodies of the class are strict code: writing a property of a number
    throws a [TypeError].  A write on an object of the host succeeds and is
    invisible to the parser, with one exception: [final_position] written
    through [__proto__] is 1 or 2, a truthy value that every later lookup of
    the name [final_position] finds.  (All other values written on host
    objects are [NaN], which no guard tells from a missing property.) *)

(** The property names every object inherits from [Object.prototype]. *)
Definition inheritedNames : list string :=
  ["constructor"; "__defineGetter__"; "__defineSetter__"; "hasOwnProperty";
   "__lookupGetter__"; "__lookupSetter__"; "isPrototypeOf";
   "propertyIsEnumerable"; "toString"; "valueOf"; "__proto__";
   "toLocaleString"].

Definition inherited (name : string) : bool :=
  existsb (String.eqb name) inheritedNames.

(** Every character is below U+0080. *)
Fixpoint isAscii (s : string) : bool :=
  match s with
  | EmptyString => true
  | String c s' => (Nat.ltb (nat_of_ascii c) 128 && isAscii s')%bool
  end.

(** The names shown after the showdown marker of a hand. *)
Definition shownNames (handText : string) : list string :=
  map (group 1) (matchAll showdownRegex (showdownSection handText)).

(** The names [parseHand] looks up in the player map. *)
Definition lookedUp (handText : string) : list string :=
  (seatedNames handText
   ++ shownNames handText
   ++ flat_map
        (fun a =>
           map (group 1) (matchAll (actionRegex (actionKeyword a)) handText))
        actionPatterns
   ++ voluntaryPlayers handText
   ++ map (group 1) (matchAll showdownResultRegex handText)
   ++ map (group 1) (matchAll collectedRegex handText))%list.

(** The names [determineFinalPositions] looks up in the player map. *)
Definition finalNames (text : string) : list string :=
  match lastHand text with
  | Some finalHand =>
      match finalCollector finalHand with
      | Some w => w :: finalists finalHand
      | None => finalists finalHand
      end
  | None => []
  end.

Module Host.

(** What the runs of the parser leave in the host: whether
    [Object.prototype] has been given a [final_position]. *)
Record Realm : Type := mkRealm {
  leaked : bool
}.

(** The host before any run. *)
Definition pristine : Realm := {| leaked := false |}.

(** A statement returns or throws a [TypeError]. *)
Inductive Outcome (A : Type) : Type :=
| Returned (a : A)
| Threw.

Arguments Returned {A} a.
Arguments Threw {A}.

Definition andThen {A B : Type} (x : Outcome A) (f : A -> Outcome B)
  : Outcome B :=
  match x with
  | Returned a => f a
  | Threw => Threw
  end.

(** A loop whose body may throw. *)
Fixpoint foldRun {A B : Type} (step : A -> B -> Outcome A) (l : list B)
  (a : A) : Outcome A :=
  match l with
  | [] => Returned a
  | x :: l' =>
      match step a x with
      | Returned a' => foldRun step l' a'
      | Threw => Threw
      end
  end.

(** What [players[name]] evaluates to. *)
Inductive Slot : Type :=
| Own (p : PlayerStat)   (** a player record *)
| HostObject             (** a method of [Object.prototype], or the prototype *)
| HostNumber             (** the position left on [Object.prototype] *)
| Missing.               (** [undefined] (or [NaN]) *)

(** [name] is a property of [Object.prototype] with a truthy value. *)
Definition hostName (realm : Realm) (name : string) : bool :=
  (inherited name || (leaked realm && String.eqb name "final_position"))%bool.

Definition slot (realm : Realm) (name : string) (players : Players) : Slot :=
  match get name players with
  | Some p => Own p
  | None =>
      if inherited name then HostObject
      else if (leaked realm && String.eqb name "final_position")%bool
           then HostNumber
           else Missing
  end.

(** [if (players[name]) { players[name].field = ...; }] *)
Definition whenPlayer (realm : Realm) (name : string)
  (f : PlayerStat -> PlayerStat) (players : Players) : Outcome Players :=
  match slot realm name players with
  | Own _ => Returned (modify name f players)
  | HostObject => Returned players
  | HostNumber => Threw
  | Missing => Returned players
  end.

(** One iteration of the seat loop: a truthy [players[playerName]] is not
    replaced, and the two writes that follow go to whatever it is. *)
Definition seatStep (realm : Realm) (players : Players) (m : Match)
  : Outcome Players :=
  match slot realm (group 1 m) players with
  | Own _ | Missing => Returned (seatStep players m)
  | HostObject => Returned players
  | HostNumber => Threw
  end.

(** Body of the [losingHands.forEach] callback, inside its [try]:
    [bad_beats] and [suckouts] of a host value are [undefined], [push] on
    them throws, and the [catch] of the callback ends the iteration. *)
Definition recordBadBeat (realm : Realm) (winner : string)
  (winningHand : ShownHand) (players : Players) (losingHand : ShownHand)
  : Players :=
  if isGenuineBadBeat losingHand winningHand then
    let victimName := player losingHand in
    let pushed :=
      modify victimName
        (fun p => set_bad_beats
                    (bad_beats p ++ [badBeatInfo winner losingHand winningHand])%list
                    p)
        players in
    let credit (players1 : Players) : Players :=
      match slot realm winner players1 with
      | Own _ =>
          modify winner
            (fun p => set_suckouts
                        (suckouts p ++ [suckoutInfo losingHand winningHand])%list
                        p)
            players1
      | HostObject | HostNumber | Missing => players1
      end in
    match slot realm victimName players with
    | Own _ => credit pushed
    | Missing => credit players
    | HostObject | HostNumber => players
    end
  else players.

(** [analyzeShowdownForBadBeats]; nothing leaves its [try] blocks. *)
Definition analyzeShowdownForBadBeats (realm : Realm) (handText : string)
  (players : Players) : Players :=
  if negb (includes handText SHOW_DOWN) then players
  else
    match splitSecond SHOW_DOWN handText with
    | None => players
    | Some showdownSection =>
        let showdownMatches := matchAll showdownRegex showdownSection in
        let winnerMatches := matchAll collectedRegex handText in
        if Nat.ltb 1 (List.length winnerMatches) then players
        else
          let winner :=
            match winnerMatches with
            | m :: _ => Some (group 1 m)
            | [] => None
            end in
          if existsb (fun phrase => includes (toLowerCase handText) phrase)
               splitPotPhrases
          then players
          else
            match winner with
            | Some winner =>
                if (Nat.leb 2 (List.length showdownMatches) &&
                    negb (String.eqb winner "") &&
                    Nat.eqb (List.length winnerMatches) 1)%bool
                then
                  let playerHands := map (shownHand winner) showdownMatches in
                  let losingHands :=
                    filter (fun h => negb (won h)) playerHands in
                  match find won playerHands with
                  | Some winningHand =>
                      if Nat.ltb 0 (List.length losingHands)
                      then fold_left (recordBadBeat realm winner winningHand)
                             losingHands players
                      else players
                  | None => players
                  end
                else players
            | None => players
            end
    end.

Definition actionStep (realm : Realm) (a : ActionType) (players : Players)
  (m : Match) : Outcome Players :=
  whenPlayer realm (group 1 m) (countAction a) players.

Definition countActions (realm : Realm) (handText : string)
  (players : Players) (a : ActionType) : Outcome Players :=
  foldRun (actionStep realm a)
    (matchAll (actionRegex (actionKeyword a)) handText) players.

Definition voluntaryStep (realm : Realm) (players : Players)
  (playerName : string) : Outcome Players :=
  whenPlayer realm playerName
    (fun p => set_hands_voluntarily_played (hands_voluntarily_played p + 1) p)
    players.

Definition showdownStep (realm : Realm) (players : Players) (m : Match)
  : Outcome Players :=
  whenPlayer realm (group 1 m)
    (fun p =>
       let p1 := set_showdowns (showdowns p + 1) p in
       if String.eqb (group 2 m) "won"
       then set_showdown_wins (showdown_wins p1 + 1) p1 else p1)
    players.

Definition collectStep (realm : Realm) (players : Players) (m : Match)
  : Outcome Players :=
  whenPlayer realm (group 1 m)
    (fun p => set_total_won (total_won p + parseInt (group 2 m)) p)
    players.

(** [parseHand] *)
Definition parseHand (realm : Realm) (handText : string) (players : Players)
  : Outcome Players :=
  andThen (foldRun (seatStep realm) (matchAll seatRegex handText) players)
    (fun players1 =>
  let players2 :=
    if includes handText SHOW_DOWN
    then analyzeShowdownForBadBeats realm handText players1 else players1 in
  andThen (foldRun (countActions realm handText) actionPatterns players2)
    (fun players3 =>
  andThen (foldRun (voluntaryStep realm) (voluntaryPlayers handText) players3)
    (fun players4 =>
  andThen
    (if includes handText SHOW_DOWN
     then foldRun (showdownStep realm)
            (matchAll showdownResultRegex handText) players4
     else Returned players4)
    (fun players5 =>
  foldRun (collectStep realm) (matchAll collectedRegex handText) players5)))).

(** [if (players[name]) { players[name].final_position = position; }]:
    through [__proto__] the write lands on [Object.prototype]. *)
Definition setPosition (realm : Realm) (name : string) (position : Z)
  (players : Players) : Outcome Players * Realm :=
  match slot realm name players with
  | Own _ =>
      (Returned (modify name (set_final_position (Some position)) players),
       realm)
  | HostObject =>
      (Returned players,
       if String.eqb name "__proto__" then {| leaked := true |} else realm)
  | HostNumber => (Threw, realm)
  | Missing => (Returned players, realm)
  end.

(** [for (const finalist of finalists) {
       if (finalist !== winner && players[finalist]) {
         players[finalist].final_position = 2; break; } }] *)
Fixpoint rankSecond (realm : Realm) (winner : string)
  (finalists : list string) (players : Players) : Outcome Players * Realm :=
  match finalists with
  | [] => (Returned players, realm)
  | finalist :: rest =>
      if String.eqb finalist winner then rankSecond realm winner rest players
      else
        match slot realm finalist players with
        | Missing => rankSecond realm winner rest players
        | Own _ | HostObject | HostNumber =>
            setPosition realm finalist 2 players
        end
  end.

(** First and second place, read from the final hand. *)
Definition rankFinalHand (realm : Realm) (finalHand : string)
  (players : Players) : Outcome Players * Realm :=
  let winnerMatch := search finalWinnerRegex finalHand in
  let finalists := map (group 1) (matchAll finalistRegex finalHand) in
  match winnerMatch, finalists with
  | Some wm, _ :: _ =>
      let winner := group 1 wm in
      match setPosition realm winner 1 players with
      | (Returned players1, realm1) =>
          rankSecond realm1 winner finalists players1
      | (Threw, realm1) => (Threw, realm1)
      end
  | _, _ => (Returned players, realm)
  end.

Definition rankLastHand (realm : Realm) (fullText : string)
  (players : Players) : Outcome Players * Realm :=
  match handsOf fullText with
  | [] => (Returned players, realm)
  | h :: hs => rankFinalHand realm (last (h :: hs) "") players
  end.

(** [determineFinalPositions] *)
Definition determineFinalPositions (realm : Realm) (players : Players)
  (fullText : string) : Outcome Players * Realm :=
  let players0 := map clearPosition players in
  match rankLastHand realm fullText players0 with
  | (Returned players1, realm1) => (Returned (rankThird players1), realm1)
  | (Threw, realm1) => (Threw, realm1)
  end.

(** [extractFromTxt] *)
Definition extractFromTxt (realm : Realm) (text : string)
  : Outcome (Players * TournamentInfo) * Realm :=
  let id := option_map (group 1) (search tournamentRegex text) in
  let date := option_map (group 1) (search dateRegex text) in
  let hands := handsOf text in
  match foldRun (fun ps handText => parseHand realm handText ps) hands [] with
  | Returned players =>
      match determineFinalPositions realm players text with
      | (Returned players', realm1) =>
          (Returned
             (players',
              {| ti_id := id; ti_date := date;
                 ti_player_count :=
                   Z.of_nat (List.length (Object_keys players')) |}),
           realm1)
      | (Threw, realm1) => (Threw, realm1)
      end
  | Threw => (Threw, realm)
  end.

Section HostLimits.

(** The longest argument list the host accepts in a call; a longer one is
    a [RangeError]. *)
Variable maxArguments : nat.

(** The reading of the clock made by [generateSampleData]:
    [toLocaleDateString('en-US', { year: 'numeric', month: 'long',
    day: 'numeric', hour: 'numeric', minute: '2-digit' })]. *)
Variable longDate : Clock -> string.

(** The arguments of [Math.min(...allChips)]. *)
Definition allChips (players : Players) : list Z :=
  filter (fun chips => 0 <? chips)
    (map (fun e => orElse (max_chips (snd e)) 0) (Object_entries players)).

(** [calculateAwards]: the only call that can fail is the spread into
    [Math.min], made when a player is left after the filter. *)
Definition calculateAwards (playersData : Players) : Outcome Awards :=
  let players := withoutTournamentInfo playersData in
  match Object_keys players with
  | [] => Returned PokerAwardsParser.getSampleAwards
  | _ :: _ =>
      if Nat.ltb maxArguments (List.length (allChips players)) then Threw
      else Returned (PokerAwardsParser.calculateAwards playersData)
  end.

(** [generateSampleData] *)
Definition generateSampleData (now : Clock) : TournamentSummary :=
  {| tournament_date := longDate now;
     tournament_id := "3928736979";
     total_players := 6;
     summary_awards := PokerAwardsParser.getSampleAwards;
     preparation_h_club := [];
     last_updated := toISOString now |}.

(** [parseTxt], with its [catch] branch. *)
Definition parseTxt (realm : Realm) (now : Clock) (content : string)
  : TournamentSummary * Realm :=
  match extractFromTxt realm content with
  | (Returned (playersData, tournamentInfo), realm1) =>
      let playerCount :=
        Z.of_nat
          (List.length
             (filter (fun k => negb (String.eqb k TOURNAMENT_INFO))
                (Object_keys playersData))) in
      match calculateAwards playersData with
      | Returned awards =>
          ({| tournament_date :=
                orText (ti_date tournamentInfo) (toLocaleDateString now);
              tournament_id := orText (ti_id tournamentInfo) "Unknown";
              total_players :=
                orElse (ti_player_count tournamentInfo) playerCount;
              summary_awards := awards;
              preparation_h_club := extractPreparationHClub playersData;
              last_updated := toISOString now |},
           realm1)
      | Threw => (generateSampleData now, realm1)
      end
  | (Threw, realm1) => (generateSampleData now, realm1)
  end.

End HostLimits.


(** No name the parser looks up while it processes [text] is a truthy
    property of [Object.prototype]. *)
Definition plain (realm : Realm) (text : string) : bool :=
  (forallb (fun handText =>
              forallb (fun n => negb (hostName realm n)) (lookedUp handText))
     (handsOf text)
   && forallb (fun n => negb (hostName realm n)) (finalNames text))%bool.

End Host.

(* ================================================================== *)
(** ** Further vocabulary *)





(** The lines [parseTournament] processes. *)
Definition resultLines (fileContent : string) : list string :=
  filter (fun line => Nat.ltb 0 (String.length line))
    (map Worker.trim (Worker.splitLines fileContent)).

(** The names a line makes [parseTournament] look up in [player_stats]. *)
Definition namesOfLine (line : string) : list string :=
  (match execAt Worker.finishedRegex line with
   | Some winnerMatch => [group 1 winnerMatch]
   | None => []
   end
   ++ match search Worker.knockoutRegex line with
      | Some koMatch => [group 1 koMatch]
      | None => []
      end)%list.

(** No line of the file names a player after a property that objects
    inherit. *)
Definition ordinaryResults (fileContent : string) : bool :=
  forallb (fun line => forallb (fun n => negb (inherited n)) (namesOfLine line))
    (resultLines fileContent).


(** A seat entry and a showdown under the name of an inherited method. *)
Definition borrowedNameHand : string :=
  lines
    ["PokerStars Hand #4: Tournament #3928736979, $5.00+$0.50 USD Hold'em No Limit - Level I (10/20) - 2025/03/02 20:05:00 ET";
     "Seat 1: constructor (1500 in chips)";
     "Seat 2: Al (900 in chips)";
     "constructor: raises 60 to 90";
     "Al: calls 75";
     "*** SHOW DOWN ***";
     "constructor: shows [Ah Kh] (a full house, Aces full of Kings)";
     "Al: shows [Jc Jd] (four of a kind, Jacks)";
     "Al collected 450 from pot";
     "*** SUMMARY ***"].

(** The pot of the only hand goes to the name [__proto__]. *)
Definition prototypeWinsHand : string :=
  lines
    ["PokerStars Hand #5: Tournament #3928736979, $5.00+$0.50 USD Hold'em No Limit - Level I (10/20) - 2025/03/02 20:06:00 ET";
     "Seat 1: __proto__ (1500 in chips)";
     "Seat 2: Al (900 in chips)";
     "*** SHOW DOWN ***";
     "__proto__: shows [Ah Kh] (a flush, Ace high)";
     "Al: shows [Jc 4d] (two pair, Jacks and Fours)";
     "__proto__ collected 450 from pot";
     "*** SUMMARY ***"].

(** A player named [final_position]. *)
Definition positionNameHand : string :=
  lines
    ["PokerStars Hand #6: Tournament #3928736979, $5.00+$0.50 USD Hold'em No Limit - Level I (10/20) - 2025/03/02 20:07:00 ET";
     "Seat 1: final_position (1500 in chips)";
     "Seat 2: Al (900 in chips)";
     "Al collected 450 from pot"].

(* ================================================================== *)
(** * Properties *)

Open Scope list_scope.

(** ** Strings *)

Lemma dropPrefix_app (p q s r : string) :
  dropPrefix (p ++ q) s = Some r -> exists r', dropPrefix p s = Some r'.
Proof.
  revert s; induction p as [|a p IH]; intros s H; simpl in *.
  - eauto.
  - destruct s as [|b s]; [discriminate|].
    destruct (Ascii.eqb a b); [eauto | discriminate].
Qed.

Lemma startsWith_app (s p q : string) :
  startsWith s (p ++ q) = true -> startsWith s p = true.
Proof.
  unfold startsWith; intros H.
  destruct (dropPrefix (p ++ q) s) as [r|] eqn:E; [|discriminate].
  apply dropPrefix_app in E as [r' ->]; reflexivity.
Qed.

(** A text that includes a phrase includes every prefix of the phrase. *)
Lemma includes_app (s p q : string) :
  includes s (p ++ q) = true -> includes s p = true.
Proof.
  induction s as [|c s IH]; simpl; intros H.
  - apply orb_true_iff in H as [H|H]; [|discriminate].
    now rewrite (startsWith_app _ _ _ H).
  - apply orb_true_iff in H as [H|H].
    + now rewrite (startsWith_app _ _ _ H).
    + rewrite (IH H); apply orb_true_r.
Qed.

Lemma includes_app_false (s p q : string) :
  includes s p = false -> includes s (p ++ q) = false.
Proof.
  intros H; destruct (includes s (p ++ q)) eqn:E; [|reflexivity].
  apply includes_app in E; congruence.
Qed.

(* ------------------------------------------------------------------ *)
(** ** The matcher *)

Lemma dropPrefix_length (p s r : string) :
  dropPrefix p s = Some r ->
  String.length s = (String.length p + String.length r)%nat.
Proof.
  revert s; induction p as [|a p IH]; intros s; simpl.
  - now intros [= ->].
  - destruct s as [|b s]; [discriminate|].
    destruct (Ascii.eqb a b); [|discriminate].
    intros H; simpl; now rewrite (IH _ H).
Qed.

Section StarLoop.

Variable body : string -> Caps -> Cont -> option (string * Caps).
Variable P : nat -> Prop.
Hypothesis body_continues :
  forall s c k x,
    body s c k = Some x ->
    exists s' c',
      k s' c' = Some x
      /\ (String.length s' <= String.length s)%nat
      /\ forall i, P i -> capture i c' = capture i c.

Lemma starLoop_continues (g : bool) (k : Cont) (x : string * Caps) :
  forall fuel s c,
    starLoop body g k fuel s c = Some x ->
    exists s' c',
      k s' c' = Some x
      /\ (String.length s' <= String.length s)%nat
      /\ forall i, P i -> capture i c' = capture i c.
Proof.
  induction fuel as [|f IHf]; intros s c H; simpl in H.
  - exists s, c; auto.
  - assert (Hagain :
             body s c
               (fun s' c' =>
                  if Nat.ltb (String.length s') (String.length s)
                  then starLoop body g k f s' c' else None) = Some x ->
             exists s' c',
               k s' c' = Some x
               /\ (String.length s' <= String.length s)%nat
               /\ forall i, P i -> capture i c' = capture i c).
    { intros Hy.
      apply body_continues in Hy as (s1 & c1 & Hy & Hle1 & Hc1).
      destruct (Nat.ltb (String.length s1) (String.length s)); [|discriminate].
      apply IHf in Hy as (s2 & c2 & Hy & Hle2 & Hc2).
      exists s2, c2; repeat split; auto; [lia|].
      intros i Hi; rewrite (Hc2 i Hi); apply Hc1, Hi. }
    destruct g.
    + match type of H with
      | match ?m with _ => _ end = _ => destruct m eqn:E
      end.
      * injection H as ->; now apply Hagain.
      * exists s, c; auto.
    + destruct (k s c) eqn:E.
      * injection H as ->; exists s, c; auto.
      * now apply Hagain.
Qed.

End StarLoop.

(** A successful match hands the continuation a suffix no longer than the
    input, strictly shorter if the expression cannot match the empty string,
    and with the captures of every group it does not contain untouched. *)
Lemma rmatch_continues (r : regex) :
  forall (s : string) (c : Caps) (k : Cont) (x : string * Caps),
    rmatch r s c k = Some x ->
    exists s' c',
      k s' c' = Some x
      /\ (String.length s' <= String.length s)%nat
      /\ (nonNull r = true -> (String.length s' < String.length s)%nat)
      /\ forall i, unbound i r = true -> capture i c' = capture i c.
Proof.
  induction r as [p|l|r1 IH1 r2 IH2|r1 IH1 r2 IH2|g r1 IH1|r1 IH1|j r1 IH1
                 |pos r1 IH1|]; intros s c k x H; cbn [rmatch] in H.
  - destruct s as [|a s']; [discriminate|].
    destruct (p a); [|discriminate].
    exists s', c; simpl; repeat split; auto.
  - destruct (dropPrefix l s) as [s'|] eqn:E; [|discriminate].
    apply dropPrefix_length in E.
    exists s', c; repeat split; auto; [lia|].
    simpl; intros Hl; destruct l; [discriminate|simpl in E; lia].
  - apply IH1 in H as (s1 & c1 & H & Hle1 & Hlt1 & Hc1).
    apply IH2 in H as (s2 & c2 & H & Hle2 & Hlt2 & Hc2).
    exists s2, c2; repeat split; auto; [lia| |].
    + simpl; intros Hn; apply orb_true_iff in Hn as [Hn|Hn];
        [specialize (Hlt1 Hn) | specialize (Hlt2 Hn)]; lia.
    + simpl; intros i Hi; apply andb_true_iff in Hi as [Hi1 Hi2].
      now rewrite Hc2, Hc1.
  - destruct (rmatch r1 s c k) eqn:E.
    + injection H as ->.
      apply IH1 in E as (s1 & c1 & H & Hle1 & Hlt1 & Hc1).
      exists s1, c1; repeat split; auto.
      * simpl; intros Hn; apply andb_true_iff in Hn as [Hn _]; auto.
      * simpl; intros i Hi; apply andb_true_iff in Hi as [Hi _]; auto.
    + apply IH2 in H as (s2 & c2 & H & Hle2 & Hlt2 & Hc2).
      exists s2, c2; repeat split; auto.
      * simpl; intros Hn; apply andb_true_iff in Hn as [_ Hn]; auto.
      * simpl; intros i Hi; apply andb_true_iff in Hi as [_ Hi]; auto.
  - apply starLoop_continues with (P := fun i => unbound i r1 = true) in H.
    + destruct H as (s' & c' & H & Hle & Hc).
      exists s', c'; repeat split; auto; intros Hd; discriminate Hd.
    + intros s0 c0 k0 x0 H0.
      apply IH1 in H0 as (s1 & c1 & H0 & Hle1 & _ & Hc1); eauto.
  - destruct (rmatch r1 s c k) eqn:E.
    + injection H as ->.
      apply IH1 in E as (s1 & c1 & H & Hle1 & _ & Hc1).
      exists s1, c1; repeat split; auto; intros Hd; discriminate Hd.
    + exists s, c; repeat split; auto; intros Hd; discriminate Hd.
  - apply IH1 in H as (s1 & c1 & H & Hle1 & Hlt1 & Hc1).
    exists s1, ((j, takeChars (String.length s - String.length s1) s) :: c1).
    split; [exact H|]; split; [auto|]; split; [auto|].
    simpl; intros i Hi; apply andb_true_iff in Hi as [Hij Hi].
    rewrite <- (Hc1 i Hi).
    now destruct (Nat.eqb i j).
  - destruct (rmatch r1 s c (fun s' c' => Some (s', c'))) as [[s1 c1]|] eqn:E.
    + destruct pos; [|discriminate].
      apply IH1 in E as (s2 & c2 & [= <- <-] & _ & _ & Hc).
      exists s, c2; repeat split; auto; intros Hd; discriminate Hd.
    + destruct pos; [discriminate|].
      exists s, c; repeat split; auto; intros Hd; discriminate Hd.
  - destruct s; [|discriminate].
    exists "", c; repeat split; auto; intros Hd; discriminate Hd.
Qed.

(** A group around an expression that consumes input captures a non-empty
    string. *)
Lemma rmatch_group_nonempty (j : nat) (r : regex) (s : string) (c : Caps)
  (k : Cont) (x : string * Caps) :
  nonNull r = true ->
  rmatch (Group j r) s c k = Some x ->
  exists s' c', k s' c' = Some x /\ capture j c' <> "".
Proof.
  intros Hn H; cbn [rmatch] in H.
  apply rmatch_continues in H as (s1 & c1 & H & _ & Hlt & _).
  specialize (Hlt Hn).
  exists s1, ((j, takeChars (String.length s - String.length s1) s) :: c1).
  split; [exact H|].
  simpl; rewrite Nat.eqb_refl.
  destruct s as [|a s]; [simpl in Hlt; lia|].
  destruct (String.length (String a s) - String.length s1)%nat eqn:E;
    [lia | simpl; discriminate].
Qed.

(** Every element of [matchAll] is the result of an attempt at some
    position. *)
Lemma scan_execAt (r : regex) (m : Match) :
  forall s skip, In m (scan r s skip) -> exists s', execAt r s' = Some m.
Proof.
  induction s as [|a s IH]; intros skip H.
  - destruct skip; simpl in H; [|contradiction].
    destruct (execAt r "") eqn:E; simpl in H; [|contradiction].
    destruct H as [<-|[]]; eauto.
  - destruct skip; simpl in H; [|eauto].
    destruct (execAt r (String a s)) eqn:E.
    + destruct H as [<-|H]; eauto.
    + eauto.
Qed.

(** The name captured by a pot-collection match is not empty. *)
Lemma collector_nonempty (handText : string) (m : Match) :
  In m (matchAll collectedRegex handText) -> group 1 m <> "".
Proof.
  intros H; apply scan_execAt in H as (s & H).
  unfold execAt in H.
  destruct (rmatch collectedRegex s [] (fun s' c => Some (s', c)))
    as [[s' c]|] eqn:E; [|discriminate].
  injection H as <-; unfold group; simpl.
  unfold collectedRegex in E; cbn [seqs] in E.
  cbn [rmatch] in E; fold (rmatch (Group 1 playerName)) in E.
  change (rmatch (Group 1 playerName) s []
            (fun s1 c1 =>
               rmatch (Seq (Lit " collected ")
                         (Seq (Group 2 digits) (Lit " from pot")))
                 s1 c1 (fun s' c => Some (s', c))) = Some (s', c)) in E.
  apply rmatch_group_nonempty in E as (s1 & c1 & E & Hne); [|reflexivity].
  apply rmatch_continues in E as (s2 & c2 & [= <- <-] & _ & _ & Hc).
  now rewrite (Hc 1%nat eq_refl).
Qed.

(* ------------------------------------------------------------------ *)
(** ** Hand-strength classifier *)

(** Case analysis along a chain of [if]s over [includes] tests. *)
Ltac split_ifs :=
  repeat match goal with
         | |- context [if ?c then _ else _] =>
             lazymatch c with
             | context [includes ?s ?n] =>
                 destruct (includes s n) eqn:?; cbn [andb orb negb]
             end
         end.

Lemma strength_in_range (d : string) :
  In (evaluateMadeHandStrength d) strengths.
Proof.
  unfold evaluateMadeHandStrength, strengths; cbn [existsb].
  split_ifs; simpl; tauto.
Qed.

(** The two functions read the same class off a description. *)
Lemma strength_label_agree (d : string) :
  strengthClass (evaluateMadeHandStrength d)
  = labelClass (getSimpleHandDescription d).
Proof.
  unfold evaluateMadeHandStrength, getSimpleHandDescription; cbn [existsb].
  destruct (includes (toLowerCase d) "pair of") eqn:Hp;
    [| pose proof (includes_app_false _ "pair of" " aces" Hp) as Ha;
       pose proof (includes_app_false _ "pair of" " kings" Hp) as Hk;
       pose proof (includes_app_false _ "pair of" " queens" Hp) as Hq;
       pose proof (includes_app_false _ "pair of" " jacks" Hp) as Hj;
       cbn [append] in Ha, Hk, Hq, Hj; rewrite ?Ha, ?Hk, ?Hq, ?Hj ];
    split_ifs; reflexivity.
Qed.

Lemma strengthClass_mono (a b : Z) :
  In a strengths -> In b strengths ->
  (classRank (strengthClass a) < classRank (strengthClass b))%nat -> a < b.
Proof.
  unfold strengths; simpl; intros Ha Hb.
  repeat (destruct Ha as [<-|Ha]; [|]); try contradiction;
    repeat (destruct Hb as [<-|Hb]; [|]); try contradiction;
    cbn; lia.
Qed.

Lemma two_pair_strength (d : string) :
  getSimpleHandDescription d = "two pair" ->
  evaluateMadeHandStrength d = if premiumRanks d then 300 else 200.
Proof.
  unfold evaluateMadeHandStrength, getSimpleHandDescription, premiumRanks;
    cbn [existsb].
  split_ifs; intros H; try discriminate H; reflexivity.
Qed.

Lemma trips_strength (d : string) :
  labelClass (getSimpleHandDescription d) = ThreeOfAKind ->
  evaluateMadeHandStrength d = 400.
Proof.
  unfold evaluateMadeHandStrength, getSimpleHandDescription; cbn [existsb].
  split_ifs; intros H; try discriminate H; reflexivity.
Qed.

Lemma unrecognized_high_card (d : string) :
  recognized d = false ->
  evaluateMadeHandStrength d = 50 /\ getSimpleHandDescription d = "high card".
Proof.
  unfold recognized, evaluateMadeHandStrength, getSimpleHandDescription;
    cbn [existsb].
  destruct (includes (toLowerCase d) "pair of") eqn:Hp;
    [| pose proof (includes_app_false _ "pair of" " aces" Hp) as Ha;
       pose proof (includes_app_false _ "pair of" " kings" Hp) as Hk;
       pose proof (includes_app_false _ "pair of" " queens" Hp) as Hq;
       pose proof (includes_app_false _ "pair of" " jacks" Hp) as Hj;
       cbn [append] in Ha, Hk, Hq, Hj; rewrite ?Ha, ?Hk, ?Hq, ?Hj ];
    split_ifs; intros H; try discriminate H; split; reflexivity.
Qed.

(** C5. The classifier is a total function into the fixed list of
    strengths; its strength is strictly monotone in the class order high
    card < pair < two pair < three of a kind < straight < flush < full house
    < four of a kind < straight flush < royal flush read off the canonical
    label (sample descriptions of the ten classes evaluate to 50, 100, 200,
    400, ..., 1000); two pair of aces, kings or queens evaluates strictly
    above any other two pair and strictly below three of a kind; and a
    description that no rule recognizes evaluates to the high-card strength
    50 with label "high card". *)
Theorem C5_classifier_tiers :
  (forall d, In (evaluateMadeHandStrength d) strengths) /\
  (forall d1 d2,
      (classRank (labelClass (getSimpleHandDescription d1))
       < classRank (labelClass (getSimpleHandDescription d2)))%nat ->
      evaluateMadeHandStrength d1 < evaluateMadeHandStrength d2) /\
  map evaluateMadeHandStrength sampleDescriptions
  = [50; 100; 200; 400; 500; 600; 700; 800; 900; 1000] /\
  (forall generic premium trips,
      getSimpleHandDescription generic = "two pair" ->
      premiumRanks generic = false ->
      getSimpleHandDescription premium = "two pair" ->
      premiumRanks premium = true ->
      labelClass (getSimpleHandDescription trips) = ThreeOfAKind ->
      evaluateMadeHandStrength generic < evaluateMadeHandStrength premium
      /\ evaluateMadeHandStrength premium < evaluateMadeHandStrength trips) /\
  (forall d,
      recognized d = false ->
      evaluateMadeHandStrength d = 50
      /\ getSimpleHandDescription d = "high card").
Proof.
  split; [exact strength_in_range|].
  split.
  { intros d1 d2 H.
    apply strengthClass_mono; try apply strength_in_range.
    now rewrite !strength_label_agree. }
  split; [reflexivity|].
  split; [|exact unrecognized_high_card].
  intros g p t Hg Hg' Hp Hp' Ht.
  rewrite (two_pair_strength _ Hg), (two_pair_strength _ Hp),
    (trips_strength _ Ht), Hg', Hp'.
  lia.
Qed.

(** The monotonicity, premium two pair and fallback clauses of C5 at
    concrete descriptions. *)
Lemma C5_classifier_tiers_witness :
  evaluateMadeHandStrength "a pair of Sevens"
  < evaluateMadeHandStrength "a flush, Ace high"
  /\ (evaluateMadeHandStrength "two pair, Jacks and Fours"
      < evaluateMadeHandStrength "two pair, Aces and Kings"
      /\ evaluateMadeHandStrength "two pair, Aces and Kings"
         < evaluateMadeHandStrength "three of a kind, Deuces")
  /\ (evaluateMadeHandStrength "Ace high" = 50
      /\ getSimpleHandDescription "Ace high" = "high card").
Proof.
  destruct C5_classifier_tiers as (_ & Hmono & _ & Hprem & Hfall).
  split; [|split].
  - apply Hmono; vm_compute; lia.
  - apply Hprem; reflexivity.
  - apply Hfall; reflexivity.
Defined.


(* ------------------------------------------------------------------ *)
(** ** The player map *)

Lemma modify_absent (name : string) (f : PlayerStat -> PlayerStat)
  (players : Players) :
  get name players = None -> modify name f players = players.
Proof.
  induction players as [|[k v] rest IH]; simpl; [reflexivity|].
  destruct (String.eqb k name); [discriminate|].
  intros H; now rewrite IH.
Qed.

Lemma whenPlayer_modify (name : string) (f : PlayerStat -> PlayerStat)
  (players : Players) :
  whenPlayer name f players = modify name f players.
Proof.
  unfold whenPlayer; destruct (get name players) eqn:E; [reflexivity|].
  now rewrite modify_absent.
Qed.

Lemma get_modify (n m : string) (f : PlayerStat -> PlayerStat)
  (players : Players) :
  get n (modify m f players)
  = if String.eqb m n then option_map f (get n players) else get n players.
Proof.
  induction players as [|[k v] rest IH]; simpl.
  - now destruct (String.eqb m n).
  - destruct (String.eqb k m) eqn:Ekm; simpl.
    + apply String.eqb_eq in Ekm; subst k.
      destruct (String.eqb m n); reflexivity.
    + rewrite IH.
      destruct (String.eqb k n) eqn:Ekn; [|reflexivity].
      apply String.eqb_eq in Ekn; subst k.
      now rewrite String.eqb_sym, Ekm.
Qed.

Lemma get_app (n : string) (ps qs : Players) :
  get n (ps ++ qs) = match get n ps with Some p => Some p | None => get n qs end.
Proof.
  induction ps as [|[k v] rest IH]; simpl; [reflexivity|].
  now destruct (String.eqb k n).
Qed.

Lemma keys_modify (m : string) (f : PlayerStat -> PlayerStat)
  (players : Players) :
  map fst (modify m f players) = map fst players.
Proof.
  induction players as [|[k v] rest IH]; simpl; [reflexivity|].
  destruct (String.eqb k m); simpl; [reflexivity | now rewrite IH].
Qed.

Lemma get_In (n : string) (p : PlayerStat) (players : Players) :
  get n players = Some p -> In (n, p) players.
Proof.
  induction players as [|[k v] rest IH]; simpl; [discriminate|].
  destruct (String.eqb k n) eqn:E.
  - apply String.eqb_eq in E; subst; intros [= ->]; now left.
  - intros H; right; auto.
Qed.

Lemma In_get (n : string) (p : PlayerStat) (players : Players) :
  NoDup (map fst players) -> In (n, p) players -> get n players = Some p.
Proof.
  induction players as [|[k v] rest IH]; simpl; [tauto|].
  intros Hnd [H|H]; inversion Hnd as [|? ? Hk Hrest]; subst.
  - injection H as -> ->; now rewrite String.eqb_refl.
  - destruct (String.eqb k n) eqn:E; [|auto].
    apply String.eqb_eq in E; subst k.
    exfalso; apply Hk; change n with (fst (n, p)); now apply in_map.
Qed.

Section Frame.

Context {A : Type} (proj : PlayerStat -> A) (d : A).

Lemma viewOr_modify (f : PlayerStat -> PlayerStat) (m n : string)
  (players : Players) :
  (forall p, proj (f p) = proj p) ->
  viewOr proj d n (modify m f players) = viewOr proj d n players.
Proof.
  intros Hf; unfold viewOr; rewrite get_modify.
  destruct (String.eqb m n); [|reflexivity].
  destruct (get n players); simpl; [now rewrite Hf | reflexivity].
Qed.

Lemma viewOr_whenPlayer (f : PlayerStat -> PlayerStat) (m n : string)
  (players : Players) :
  (forall p, proj (f p) = proj p) ->
  viewOr proj d n (whenPlayer m f players) = viewOr proj d n players.
Proof.
  rewrite whenPlayer_modify; apply viewOr_modify.
Qed.

Lemma viewOr_fold {X : Type} (step : Players -> X -> Players) :
  (forall players x n,
      viewOr proj d n (step players x) = viewOr proj d n players) ->
  forall xs players n,
    viewOr proj d n (fold_left step xs players) = viewOr proj d n players.
Proof.
  intros Hstep xs; induction xs as [|x xs IH]; intros players n; simpl.
  - reflexivity.
  - now rewrite IH, Hstep.
Qed.

(** Registering a player shows the default. *)
Lemma viewOr_register (n m : string) (p : PlayerStat) (players : Players) :
  get m players = None -> proj p = d ->
  viewOr proj d n (players ++ [(m, p)]) = viewOr proj d n players.
Proof.
  intros Hm Hp; unfold viewOr; rewrite get_app.
  destruct (get n players) eqn:E; [reflexivity|]; simpl.
  destruct (String.eqb m n); [assumption | reflexivity].
Qed.

Hypothesis proj_hands_played :
  forall v p, proj (set_hands_played v p) = proj p.
Hypothesis proj_max_chips : forall v p, proj (set_max_chips v p) = proj p.
Hypothesis proj_newPlayer : forall chips, proj (newPlayer chips) = d.

Lemma viewOr_seatStep (players : Players) (m : Match) (n : string) :
  viewOr proj d n (seatStep players m) = viewOr proj d n players.
Proof.
  unfold seatStep.
  rewrite viewOr_modify
    by (intros p; now rewrite proj_max_chips, proj_hands_played).
  destruct (get (group 1 m) players) eqn:E; [reflexivity|].
  now apply viewOr_register.
Qed.

Lemma viewOr_seats (ms : list Match) (players : Players) (n : string) :
  viewOr proj d n (fold_left seatStep ms players) = viewOr proj d n players.
Proof. apply viewOr_fold, viewOr_seatStep. Qed.

End Frame.

(** Each stage of [parseHand] is invisible through a projection that ignores
    the fields the stage writes. *)
Section Stages.

Context {A : Type} (proj : PlayerStat -> A) (d : A) (handText : string).

Lemma viewOr_analyze (players : Players) (n : string) :
  (forall v p, proj (set_bad_beats v p) = proj p) ->
  (forall v p, proj (set_suckouts v p) = proj p) ->
  viewOr proj d n (analyzeShowdownForBadBeats handText players)
  = viewOr proj d n players.
Proof.
  intros Hb Hs; unfold analyzeShowdownForBadBeats.
  repeat match goal with
         | |- viewOr _ _ _ (if ?c then _ else _) = _ => destruct c
         | |- viewOr _ _ _ (match ?c with _ => _ end) = _ => destruct c
         end; try reflexivity.
  apply viewOr_fold; intros ps l m; unfold recordBadBeat.
  destruct (isGenuineBadBeat _ _); [|reflexivity].
  rewrite !viewOr_whenPlayer; auto.
Qed.

Lemma viewOr_actions (players : Players) (n : string) :
  (forall a p, proj (countAction a p) = proj p) ->
  viewOr proj d n (fold_left (countActions handText) actionPatterns players)
  = viewOr proj d n players.
Proof.
  intros H; apply viewOr_fold; intros; unfold countActions.
  apply viewOr_fold; intros; unfold actionStep.
  apply viewOr_whenPlayer; auto.
Qed.

Lemma viewOr_voluntary (ns : list string) (players : Players) (n : string) :
  (forall v p, proj (set_hands_voluntarily_played v p) = proj p) ->
  viewOr proj d n (fold_left voluntaryStep ns players)
  = viewOr proj d n players.
Proof.
  intros H; apply viewOr_fold; intros; unfold voluntaryStep.
  apply viewOr_whenPlayer; auto.
Qed.

Lemma viewOr_showdowns (ms : list Match) (players : Players) (n : string) :
  (forall v p, proj (set_showdowns v p) = proj p) ->
  (forall v p, proj (set_showdown_wins v p) = proj p) ->
  viewOr proj d n (fold_left showdownStep ms players)
  = viewOr proj d n players.
Proof.
  intros H1 H2; apply viewOr_fold; intros; unfold showdownStep.
  apply viewOr_whenPlayer; intros p.
  destruct (String.eqb (group 2 x) "won"); now rewrite ?H2, H1.
Qed.

Lemma viewOr_collect (ms : list Match) (players : Players) (n : string) :
  (forall v p, proj (set_total_won v p) = proj p) ->
  viewOr proj d n (fold_left collectStep ms players)
  = viewOr proj d n players.
Proof.
  intros H; apply viewOr_fold; intros; unfold collectStep.
  apply viewOr_whenPlayer; auto.
Qed.

End Stages.

(** Discharges "the projection ignores this setter". *)
Ltac ignores :=
  intros;
  try match goal with a : ActionType |- _ => destruct a end;
  reflexivity.

(** The stages of [parseHand] after the detector leave the bad-beat and
    suckout lists alone, and so does the seat loop. *)
Lemma badBeatsOf_parseHand (handText : string) (players : Players)
  (n : string) :
  badBeatsOf n (parseHand handText players)
  = badBeatsOf n
      (if includes handText SHOW_DOWN
       then analyzeShowdownForBadBeats handText
              (fold_left seatStep (matchAll seatRegex handText) players)
       else fold_left seatStep (matchAll seatRegex handText) players).
Proof.
  unfold badBeatsOf, parseHand.
  rewrite viewOr_collect by ignores.
  destruct (includes handText SHOW_DOWN);
    rewrite ?viewOr_showdowns, viewOr_voluntary, viewOr_actions by ignores;
    reflexivity.
Qed.

Lemma suckoutsOf_parseHand (handText : string) (players : Players)
  (n : string) :
  suckoutsOf n (parseHand handText players)
  = suckoutsOf n
      (if includes handText SHOW_DOWN
       then analyzeShowdownForBadBeats handText
              (fold_left seatStep (matchAll seatRegex handText) players)
       else fold_left seatStep (matchAll seatRegex handText) players).
Proof.
  unfold suckoutsOf, parseHand.
  rewrite viewOr_collect by ignores.
  destruct (includes handText SHOW_DOWN);
    rewrite ?viewOr_showdowns, viewOr_voluntary, viewOr_actions by ignores;
    reflexivity.
Qed.

(* ------------------------------------------------------------------ *)
(** ** Split pots *)

Lemma analyze_split (handText : string) (players : Players) :
  (2 <= List.length (potCollections handText))%nat
  \/ splitLanguage handText = true ->
  analyzeShowdownForBadBeats handText players = players.
Proof.
  unfold potCollections, splitLanguage, analyzeShowdownForBadBeats.
  intros H.
  destruct (includes handText SHOW_DOWN); [|reflexivity]; cbn [negb].
  destruct (splitSecond SHOW_DOWN handText); [|reflexivity].
  destruct (Nat.ltb 1 (List.length (matchAll collectedRegex handText))) eqn:E;
    [reflexivity|].
  apply Nat.ltb_ge in E.
  destruct H as [H|H]; [lia|].
  now rewrite H.
Qed.

(** C6. A hand whose text has two or more pot-collection events, or one of
    the phrases "split pot", "divided", "tied" (in any letter case), is left
    alone by the bad-beat detector: [analyzeShowdownForBadBeats] returns the
    player map unchanged, and after the whole of [parseHand] every player's
    [bad_beats] and [suckouts] lists are what they were before the hand
    (empty for a player first seen in this hand), whatever hands were
    shown. *)
Theorem C6_split_pot_frame (handText : string) (players : Players) :
  (2 <= List.length (potCollections handText))%nat
  \/ splitLanguage handText = true ->
  analyzeShowdownForBadBeats handText players = players
  /\ forall name,
      badBeatsOf name (parseHand handText players) = badBeatsOf name players
      /\ suckoutsOf name (parseHand handText players)
         = suckoutsOf name players.
Proof.
  intros H; split; [now apply analyze_split|].
  intros name.
  rewrite badBeatsOf_parseHand, suckoutsOf_parseHand, (analyze_split _ _ H).
  unfold badBeatsOf, suckoutsOf.
  destruct (includes handText SHOW_DOWN);
    rewrite !viewOr_seats by ignores; auto.
Qed.

(* ------------------------------------------------------------------ *)
(** ** Genuine bad beats *)

Lemma includes_afterFirst (s sep : string) :
  includes s sep = true -> exists rest, afterFirst sep s = Some rest.
Proof.
  induction s as [|a s IH]; simpl; unfold startsWith.
  - destruct (dropPrefix sep ""); [eauto | discriminate].
  - destruct (dropPrefix sep (String a s)); [eauto | exact IH].
Qed.

Lemma isGenuineBadBeat_iff (losingHand winningHand : ShownHand) :
  isGenuineBadBeat losingHand winningHand = true <->
  400 <= made_hand_strength losingHand
  \/ (300 <= made_hand_strength losingHand
      /\ made_hand_strength losingHand < made_hand_strength winningHand).
Proof.
  unfold isGenuineBadBeat.
  destruct (400 <=? made_hand_strength losingHand) eqn:E4;
    destruct (300 <=? made_hand_strength losingHand) eqn:E3;
    destruct (made_hand_strength losingHand
              <? made_hand_strength winningHand) eqn:El;
    cbn; split; intros H; try reflexivity; try discriminate; lia.
Qed.

(** With a single collector who is among the revealed hands, the detector
    runs [recordBadBeat] over the losing hands. *)
Lemma analyze_single_winner (handText winner : string) (players : Players)
  (winningHand : ShownHand) :
  includes handText SHOW_DOWN = true ->
  map (group 1) (potCollections handText) = [winner] ->
  splitLanguage handText = false ->
  (2 <= List.length (revealedHands handText winner))%nat ->
  find won (revealedHands handText winner) = Some winningHand ->
  analyzeShowdownForBadBeats handText players
  = fold_left (recordBadBeat winner winningHand)
      (losingHands handText winner) players.
Proof.
  unfold potCollections, splitLanguage, losingHands, revealedHands,
    showdownSection, analyzeShowdownForBadBeats.
  intros Hsd Hwm Hsplit Hlen Hfind.
  assert (Hw : group 1 (hd (mkMatch 0 []) (matchAll collectedRegex handText))
               <> "").
  { apply (collector_nonempty handText).
    destruct (matchAll collectedRegex handText); [discriminate|now left]. }
  destruct (matchAll collectedRegex handText) as [|wm [|? ?]];
    try discriminate Hwm.
  injection Hwm as <-; cbn [hd] in Hw.
  rewrite Hsd; cbn [negb].
  destruct (includes_afterFirst _ _ Hsd) as (rest & Hrest).
  unfold splitSecond in *; rewrite Hrest in *.
  apply String.eqb_neq in Hw.
  rewrite length_map in Hlen; apply Nat.leb_le in Hlen.
  rewrite Hsplit, Hw, Hlen, Hfind.
  cbn [List.length Nat.ltb Nat.leb Nat.eqb negb andb].
  destruct (filter _ _); reflexivity.
Qed.

Section RecordBadBeat.

Variables (winner : string) (winningHand : ShownHand).

Lemma registered_recordBadBeat (players : Players) (l : ShownHand)
  (name : string) :
  registered name (recordBadBeat winner winningHand players l)
  = registered name players.
Proof.
  unfold recordBadBeat, registered.
  destruct (isGenuineBadBeat l winningHand); [|reflexivity].
  rewrite !whenPlayer_modify, !get_modify.
  destruct (String.eqb winner name), (String.eqb (player l) name),
    (get name players); reflexivity.
Qed.

Lemma badBeatsOf_recordBadBeat (players : Players) (l : ShownHand)
  (name : string) :
  badBeatsOf name (recordBadBeat winner winningHand players l)
  = badBeatsOf name players
    ++ (if (registered name players && isGenuineBadBeat l winningHand
            && String.eqb (player l) name)%bool
        then [badBeatInfo winner l winningHand] else []).
Proof.
  unfold recordBadBeat, registered, badBeatsOf, viewOr.
  destruct (isGenuineBadBeat l winningHand);
    [|now rewrite andb_false_r, app_nil_r].
  rewrite !whenPlayer_modify, !get_modify.
  destruct (String.eqb winner name), (String.eqb (player l) name),
    (get name players); cbn; now rewrite ?app_nil_r.
Qed.

Lemma suckoutsOf_recordBadBeat (players : Players) (l : ShownHand)
  (name : string) :
  suckoutsOf name (recordBadBeat winner winningHand players l)
  = suckoutsOf name players
    ++ (if (registered name players && isGenuineBadBeat l winningHand
            && String.eqb winner name)%bool
        then [suckoutInfo l winningHand] else []).
Proof.
  unfold recordBadBeat, registered, suckoutsOf, viewOr.
  destruct (isGenuineBadBeat l winningHand);
    [|now rewrite andb_false_r, app_nil_r].
  rewrite !whenPlayer_modify, !get_modify.
  destruct (String.eqb winner name), (String.eqb (player l) name),
    (get name players); cbn; now rewrite ?app_nil_r.
Qed.

(** The entries appended to a victim's list: one for each of their losing
    hands that is a genuine bad beat, in showdown order. *)
Lemma badBeatsOf_recorded (ls : list ShownHand) (players : Players)
  (name : string) :
  badBeatsOf name (fold_left (recordBadBeat winner winningHand) ls players)
  = badBeatsOf name players
    ++ (if registered name players
        then map (fun l => badBeatInfo winner l winningHand)
               (filter (fun l => (isGenuineBadBeat l winningHand
                                  && String.eqb (player l) name)%bool) ls)
        else []).
Proof.
  revert players; induction ls as [|l ls IH]; intros players; simpl.
  - destruct (registered name players); now rewrite app_nil_r.
  - rewrite IH, registered_recordBadBeat, badBeatsOf_recordBadBeat.
    rewrite <- app_assoc; f_equal.
    destruct (registered name players); [|reflexivity]; cbn [andb].
    destruct (isGenuineBadBeat l winningHand && String.eqb (player l) name)%bool;
      reflexivity.
Qed.

(** The mirrored entries appended to the winner's list. *)
Lemma suckoutsOf_recorded (ls : list ShownHand) (players : Players)
  (name : string) :
  suckoutsOf name (fold_left (recordBadBeat winner winningHand) ls players)
  = suckoutsOf name players
    ++ (if (registered name players && String.eqb winner name)%bool
        then map (fun l => suckoutInfo l winningHand)
               (filter (fun l => isGenuineBadBeat l winningHand) ls)
        else []).
Proof.
  revert players; induction ls as [|l ls IH]; intros players; simpl.
  - destruct (registered name players && String.eqb winner name)%bool;
      now rewrite app_nil_r.
  - rewrite IH, registered_recordBadBeat, suckoutsOf_recordBadBeat.
    rewrite <- app_assoc; f_equal.
    destruct (registered name players); [|reflexivity]; cbn [andb].
    destruct (isGenuineBadBeat l winningHand), (String.eqb winner name);
      reflexivity.
Qed.

End RecordBadBeat.

(** What the detector appends, on the own properties of the player map:
    in a hand with the showdown marker, exactly one pot-collection event, no
    split/tie phrase, at least two revealed hands and the collector among
    them, every registered player gets one [BadBeatInfo] for each of their
    losing revealed hands that is a genuine bad beat, and the collector the
    mirrored [SuckoutInfo]s. *)
Lemma genuine_bad_beats_recorded (handText winner : string)
  (winningHand : ShownHand) (players : Players) :
  includes handText SHOW_DOWN = true ->
  map (group 1) (potCollections handText) = [winner] ->
  splitLanguage handText = false ->
  (2 <= List.length (revealedHands handText winner))%nat ->
  find won (revealedHands handText winner) = Some winningHand ->
  let players' := analyzeShowdownForBadBeats handText players in
  let genuine l :=
    orb (400 <=? made_hand_strength l)
        ((300 <=? made_hand_strength l)
         && (made_hand_strength l <? made_hand_strength winningHand)) in
  (forall l,
      isGenuineBadBeat l winningHand = true <->
      400 <= made_hand_strength l
      \/ (300 <= made_hand_strength l
          /\ made_hand_strength l < made_hand_strength winningHand))
  /\ (forall name,
      registered name players = true ->
      badBeatsOf name players'
      = badBeatsOf name players
        ++ map (fun l => badBeatInfo winner l winningHand)
             (filter (fun l => (genuine l && String.eqb (player l) name)%bool)
                (losingHands handText winner))
      /\ suckoutsOf name players'
         = suckoutsOf name players
           ++ (if String.eqb winner name
               then map (fun l => suckoutInfo l winningHand)
                      (filter genuine (losingHands handText winner))
               else []))
  /\ (forall l,
         In l (losingHands handText winner) ->
         700 <= made_hand_strength l ->
         registered (player l) players = true ->
         registered winner players = true ->
         In (badBeatInfo winner l winningHand)
           (badBeatsOf (player l) players')
         /\ In (suckoutInfo l winningHand) (suckoutsOf winner players')).
Proof.
  intros Hsd Hwin Hsplit Hlen Hfind players' genuine.
  assert (Hgen : forall l, isGenuineBadBeat l winningHand = genuine l).
  { intros l; unfold isGenuineBadBeat, genuine.
    destruct (400 <=? made_hand_strength l); [reflexivity|].
    now destruct ((300 <=? made_hand_strength l)
                  && (made_hand_strength l <? made_hand_strength winningHand))%bool. }
  assert (Hbb : forall name,
             registered name players = true ->
             badBeatsOf name players'
             = badBeatsOf name players
               ++ map (fun l => badBeatInfo winner l winningHand)
                    (filter (fun l => (genuine l
                                       && String.eqb (player l) name)%bool)
                       (losingHands handText winner))
             /\ suckoutsOf name players'
                = suckoutsOf name players
                  ++ (if String.eqb winner name
                      then map (fun l => suckoutInfo l winningHand)
                             (filter genuine (losingHands handText winner))
                      else [])).
  { intros name Hreg; unfold players'.
    rewrite (analyze_single_winner _ _ Hsd Hwin Hsplit Hlen Hfind).
    rewrite badBeatsOf_recorded, suckoutsOf_recorded, Hreg; cbn [andb].
    split; f_equal.
    - f_equal; apply filter_ext; intros l; now rewrite Hgen.
    - destruct (String.eqb winner name); [|reflexivity].
      f_equal; apply filter_ext; intros l; now rewrite Hgen. }
  split; [intros l; apply isGenuineBadBeat_iff|].
  split; [exact Hbb|].
  intros l Hl Hstrong Hregl Hregw.
  assert (Hg : genuine l = true).
  { unfold genuine; apply orb_true_iff; left; apply Z.leb_le; lia. }
  destruct (Hbb _ Hregl) as [-> _]; destruct (Hbb _ Hregw) as [_ ->].
  rewrite String.eqb_refl; split; apply in_or_app; right.
  - apply (in_map (fun l => badBeatInfo winner l winningHand)).
    apply filter_In; split; [assumption|].
    now rewrite Hg, String.eqb_refl.
  - apply (in_map (fun l => suckoutInfo l winningHand)).
    apply filter_In; split; assumption.
Qed.

(** Two pair of lower ranks is not recorded: at [twoPairHand] the loser's
    two pair (of jacks and fours) is strictly below the winner's flush, with
    one collection event and two revealed hands, and nothing is recorded. *)
Lemma C1_counterexample :
  includes twoPairHand SHOW_DOWN = true
  /\ map (group 1) (potCollections twoPairHand) = ["Joe"]
  /\ splitLanguage twoPairHand = false
  /\ map (fun h => (player h, strengthClass (made_hand_strength h),
                    made_hand_strength h, won h))
       (revealedHands twoPairHand "Joe")
     = [("Joe", Flush, 600, true); ("Al", TwoPair, 200, false)]
  /\ badBeatsOf "Al" (parseHand twoPairHand []) = []
  /\ suckoutsOf "Joe" (parseHand twoPairHand []) = []
  /\ registered "Al" (parseHand twoPairHand []) = true
  /\ registered "Joe" (parseHand twoPairHand []) = true.
Proof. vm_compute; repeat split. Qed.

(** C6 at [splitPotHand], where two full houses split the pot against a
    flush. *)
Lemma C6_split_pot_frame_witness :
  analyzeShowdownForBadBeats splitPotHand (seated splitPotHand)
  = seated splitPotHand
  /\ forall name,
      badBeatsOf name (parseHand splitPotHand (seated splitPotHand))
      = badBeatsOf name (seated splitPotHand)
      /\ suckoutsOf name (parseHand splitPotHand (seated splitPotHand))
         = suckoutsOf name (seated splitPotHand).
Proof.
  apply C6_split_pot_frame; left; vm_compute; lia.
Defined.

(* ------------------------------------------------------------------ *)
(** ** Voluntary play *)

Lemma registered_modify (n m : string) (f : PlayerStat -> PlayerStat)
  (players : Players) :
  registered n (modify m f players) = registered n players.
Proof.
  unfold registered; rewrite get_modify.
  destruct (String.eqb m n), (get n players); reflexivity.
Qed.

Lemma registered_whenPlayer (n m : string) (f : PlayerStat -> PlayerStat)
  (players : Players) :
  registered n (whenPlayer m f players) = registered n players.
Proof. rewrite whenPlayer_modify; apply registered_modify. Qed.

Lemma registered_fold {X : Type} (step : Players -> X -> Players) :
  (forall players x n, registered n (step players x) = registered n players) ->
  forall xs players n,
    registered n (fold_left step xs players) = registered n players.
Proof.
  intros Hstep xs; induction xs as [|x xs IH]; intros players n; simpl.
  - reflexivity.
  - now rewrite IH, Hstep.
Qed.

Lemma registered_analyze (handText : string) (players : Players) (n : string) :
  registered n (analyzeShowdownForBadBeats handText players)
  = registered n players.
Proof.
  unfold analyzeShowdownForBadBeats.
  repeat match goal with
         | |- registered _ (if ?c then _ else _) = _ => destruct c
         | |- registered _ (match ?c with _ => _ end) = _ => destruct c
         end; try reflexivity.
  apply registered_fold; intros; apply registered_recordBadBeat.
Qed.

Lemma registered_actions (handText : string) (players : Players) (n : string) :
  registered n (fold_left (countActions handText) actionPatterns players)
  = registered n players.
Proof.
  apply registered_fold; intros; unfold countActions.
  apply registered_fold; intros; apply registered_whenPlayer.
Qed.

(** The seat loop adds one to [hands_played] for each seat entry of the
    player. *)
Lemma handsPlayedOf_seatStep (players : Players) (m : Match) (n : string) :
  handsPlayedOf n (seatStep players m)
  = handsPlayedOf n players + (if String.eqb (group 1 m) n then 1 else 0).
Proof.
  unfold handsPlayedOf, viewOr, seatStep.
  rewrite get_modify.
  destruct (String.eqb (group 1 m) n) eqn:E.
  - apply String.eqb_eq in E; subst n.
    destruct (get (group 1 m) players) eqn:G.
    + rewrite G; reflexivity.
    + rewrite get_app, G; simpl; now rewrite String.eqb_refl.
  - destruct (get (group 1 m) players) eqn:G.
    + destruct (get n players); lia.
    + rewrite get_app; destruct (get n players); [lia|].
      simpl; rewrite E; reflexivity.
Qed.

Lemma handsPlayedOf_seats (ms : list Match) (players : Players) (n : string) :
  handsPlayedOf n (fold_left seatStep ms players)
  = handsPlayedOf n players
    + Z.of_nat (List.length
                  (filter (fun m => String.eqb (group 1 m) n) ms)).
Proof.
  revert players; induction ms as [|m ms IH]; intros players; simpl.
  - lia.
  - rewrite IH, handsPlayedOf_seatStep.
    destruct (String.eqb (group 1 m) n); simpl List.length; lia.
Qed.

Lemma registered_seatStep (players : Players) (m : Match) (n : string) :
  registered n (seatStep players m)
  = (registered n players || String.eqb (group 1 m) n)%bool.
Proof.
  unfold seatStep; rewrite registered_modify; unfold registered.
  destruct (get (group 1 m) players) eqn:G.
  - destruct (String.eqb (group 1 m) n) eqn:E; [|now rewrite orb_false_r].
    apply String.eqb_eq in E; subst n; now rewrite G.
  - rewrite get_app; destruct (get n players); [reflexivity|]; simpl.
    now destruct (String.eqb (group 1 m) n).
Qed.

Lemma registered_seats (ms : list Match) (players : Players) (n : string) :
  registered n (fold_left seatStep ms players)
  = (registered n players
     || existsb (String.eqb n) (map (group 1) ms))%bool.
Proof.
  revert players; induction ms as [|m ms IH]; intros players; simpl.
  - now rewrite orb_false_r.
  - rewrite IH, registered_seatStep, (String.eqb_sym n), orb_assoc.
    reflexivity.
Qed.

Lemma handsPlayedOf_parseHand (handText : string) (players : Players)
  (n : string) :
  handsPlayedOf n (parseHand handText players)
  = handsPlayedOf n players
    + Z.of_nat (List.length
                  (filter (fun m => String.eqb (group 1 m) n)
                     (matchAll seatRegex handText))).
Proof.
  rewrite <- handsPlayedOf_seats.
  unfold handsPlayedOf, parseHand.
  rewrite viewOr_collect by ignores.
  destruct (includes handText SHOW_DOWN);
    rewrite ?viewOr_showdowns, viewOr_voluntary, viewOr_actions,
      ?viewOr_analyze by ignores;
    reflexivity.
Qed.

(** The set of voluntary players has no repetition. *)
Lemma setAdd_NoDup (s : list string) (x : string) :
  NoDup s -> NoDup (setAdd s x).
Proof.
  unfold setAdd; intros H.
  destruct (existsb (String.eqb x) s) eqn:E; [assumption|].
  apply NoDup_app; [assumption | repeat constructor; simpl; tauto |].
  intros a Ha [->|[]].
  assert (existsb (String.eqb a) s = true); [|congruence].
  apply existsb_exists; exists a; split; [assumption|apply String.eqb_refl].
Qed.

Lemma voluntaryPlayers_NoDup (handText : string) :
  NoDup (voluntaryPlayers handText).
Proof.
  unfold voluntaryPlayers.
  generalize (matchAll voluntaryRegex handText) as ms.
  assert (H : NoDup (@nil string)) by constructor; revert H.
  generalize (@nil string) as s.
  intros s H ms; revert s H; induction ms as [|m ms IH]; intros s H; simpl.
  - assumption.
  - apply IH, setAdd_NoDup, H.
Qed.

Lemma voluntaryOf_step (players : Players) (m n : string) :
  voluntaryOf n (voluntaryStep players m)
  = voluntaryOf n players
    + (if (registered n players && String.eqb m n)%bool then 1 else 0).
Proof.
  unfold voluntaryOf, viewOr, voluntaryStep, registered.
  rewrite whenPlayer_modify, get_modify.
  destruct (String.eqb m n), (get n players); simpl; lia.
Qed.

(** Over a set of names the voluntary-play counter of a registered player
    goes up by one exactly when the player is in the set. *)
Lemma voluntaryOf_steps (ns : list string) (players : Players) (n : string) :
  NoDup ns ->
  voluntaryOf n (fold_left voluntaryStep ns players)
  = voluntaryOf n players
    + (if (registered n players && existsb (String.eqb n) ns)%bool
       then 1 else 0).
Proof.
  intros Hnd; revert players; induction Hnd as [|m ns Hm Hnd IH];
    intros players; simpl.
  - rewrite andb_false_r; lia.
  - rewrite IH, voluntaryOf_step.
    unfold voluntaryStep; rewrite registered_whenPlayer.
    destruct (registered n players); cbn [andb]; [|lia].
    rewrite (String.eqb_sym n m).
    destruct (String.eqb m n) eqn:E; cbn [orb]; [|lia].
    apply String.eqb_eq in E; subst m.
    destruct (existsb (String.eqb n) ns) eqn:Ex; [|lia].
    apply existsb_exists in Ex as (y & Hy & Ey).
    apply String.eqb_eq in Ey; subst y; contradiction.
Qed.

Lemma voluntaryOf_parseHand (handText : string) (players : Players)
  (n : string) :
  voluntaryOf n (parseHand handText players)
  = voluntaryOf n players
    + (if ((registered n players
            || existsb (String.eqb n) (seatedNames handText))
           && existsb (String.eqb n) (voluntaryPlayers handText))%bool
       then 1 else 0).
Proof.
  unfold seatedNames; rewrite <- registered_seats.
  set (players1 := fold_left seatStep (matchAll seatRegex handText) players).
  assert (H1 : voluntaryOf n players1 = voluntaryOf n players)
    by (apply viewOr_seats; ignores).
  rewrite <- H1; clear H1.
  unfold parseHand; fold players1.
  set (players2 := if includes handText SHOW_DOWN
                   then analyzeShowdownForBadBeats handText players1
                   else players1).
  assert (H2 : voluntaryOf n players2 = voluntaryOf n players1
               /\ registered n players2 = registered n players1).
  { unfold players2, voluntaryOf; destruct (includes handText SHOW_DOWN);
      [|tauto].
    split; [apply viewOr_analyze; ignores | apply registered_analyze]. }
  destruct H2 as [<- <-].
  set (players3 := fold_left (countActions handText) actionPatterns players2).
  assert (H3 : voluntaryOf n players3 = voluntaryOf n players2
               /\ registered n players3 = registered n players2).
  { split; [apply viewOr_actions; ignores | apply registered_actions]. }
  destruct H3 as [<- <-].
  rewrite <- (voluntaryOf_steps _ _ (voluntaryPlayers_NoDup handText)).
  unfold voluntaryOf.
  rewrite viewOr_collect by ignores.
  destruct (includes handText SHOW_DOWN);
    rewrite ?viewOr_showdowns by ignores; reflexivity.
Qed.

(** The final-position resolver writes [final_position] only. *)
Lemma get_clearPosition (n : string) (players : Players) :
  get n (map clearPosition players)
  = option_map (fun p => snd (clearPosition (n, p))) (get n players).
Proof.
  induction players as [|[k v] rest IH]; simpl; [reflexivity|].
  assert (Hk : fst (clearPosition (k, v)) = k)
    by (unfold clearPosition; now destruct (notTournamentInfo (k, v))).
  destruct (clearPosition (k, v)) as [k' v'] eqn:E; simpl in Hk; subst k'.
  destruct (String.eqb k n) eqn:Ekn; [|exact IH].
  apply String.eqb_eq in Ekn; subst k; simpl; now rewrite E.
Qed.

Section Positions.

Context {A : Type} (proj : PlayerStat -> A) (d : A).
Hypothesis proj_position : forall v p, proj (set_final_position v p) = proj p.

Lemma viewOr_clearPosition (players : Players) (n : string) :
  viewOr proj d n (map clearPosition players) = viewOr proj d n players.
Proof.
  unfold viewOr; rewrite get_clearPosition.
  destruct (get n players); [|reflexivity]; simpl.
  unfold clearPosition; destruct (notTournamentInfo _); simpl; auto.
Qed.

Lemma viewOr_rankFinalHand (finalHand : string) (players : Players)
  (n : string) :
  viewOr proj d n (rankFinalHand finalHand players) = viewOr proj d n players.
Proof.
  unfold rankFinalHand.
  destruct (search finalWinnerRegex finalHand); [|reflexivity].
  destruct (map (group 1) (matchAll finalistRegex finalHand));
    [reflexivity|].
  destruct (find _ _);
    rewrite ?viewOr_modify, viewOr_whenPlayer; auto.
Qed.



End Positions.

Lemma seated_count (n : string) (ms : list Match) :
  existsb (String.eqb n) (map (group 1) ms) = true ->
  (1 <= List.length (filter (fun m => String.eqb (group 1 m) n) ms))%nat.
Proof.
  induction ms as [|m ms IH]; simpl; [discriminate|].
  rewrite (String.eqb_sym n).
  destruct (String.eqb (group 1 m) n); simpl; [lia | exact IH].
Qed.

(** One hand keeps the invariant when its voluntary players are seated. *)
Lemma parseHand_bounded (handText : string) (players : Players) :
  actorsSeated handText = true ->
  (forall n, voluntaryOf n players <= handsPlayedOf n players) ->
  forall n,
    voluntaryOf n (parseHand handText players)
    <= handsPlayedOf n (parseHand handText players).
Proof.
  intros Hseated Hinv n.
  rewrite voluntaryOf_parseHand, handsPlayedOf_parseHand.
  specialize (Hinv n).
  destruct (existsb (String.eqb n) (voluntaryPlayers handText)) eqn:Ev;
    [|rewrite andb_false_r; lia].
  apply existsb_exists in Ev as (y & Hy & Ey).
  apply String.eqb_eq in Ey; subst y.
  unfold actorsSeated in Hseated.
  rewrite forallb_forall in Hseated; specialize (Hseated n Hy).
  apply seated_count in Hseated.
  destruct (_ && _)%bool; lia.
Qed.


(* ------------------------------------------------------------------ *)
(** ** Enumeration order and sorting *)

Lemma In_insertIndexed {A : Type} (x y : Z * (string * A))
  (l : list (Z * (string * A))) :
  In x (insertIndexed y l) <-> x = y \/ In x l.
Proof.
  induction l as [|z l IH]; simpl.
  - intuition congruence.
  - destruct (fst y <=? fst z); simpl; [intuition congruence|].
    rewrite IH; intuition congruence.
Qed.

Lemma In_indexedEntries {A : Type} (i : Z) (e : string * A)
  (o : list (string * A)) :
  In (i, e) (indexedEntries o) <-> In e o /\ arrayIndex (fst e) = Some i.
Proof.
  induction o as [|[k v] o IH]; simpl; [tauto|].
  destruct (arrayIndex k) as [j|] eqn:E.
  - rewrite In_insertIndexed, IH; split.
    + intros [[= -> ->]|[H1 H2]]; auto.
    + intros [[<-|H1] H2]; simpl in *; [left; congruence | auto].
  - rewrite IH; split; [tauto|].
    intros [[<-|H1] H2]; simpl in *; [congruence|auto].
Qed.

(** [Object.entries] enumerates exactly the entries of the object. *)
Lemma In_Object_entries {A : Type} (e : string * A) (o : list (string * A)) :
  In e (Object_entries o) <-> In e o.
Proof.
  unfold Object_entries; rewrite in_app_iff, in_map_iff, filter_In.
  unfold isNamedKey; split.
  - intros [([i e'] & <- & H)|[H _]]; [|assumption].
    now apply In_indexedEntries in H.
  - intros H; destruct (arrayIndex (fst e)) as [i|] eqn:E; [left|now right].
    exists (i, e); split; [reflexivity|].
    now apply In_indexedEntries.
Qed.

Lemma orElse_zero (x : Z) : orElse x 0 = x.
Proof. unfold orElse; destruct (Z.eqb_spec x 0); congruence. Qed.

Section SortIn.

Context {A : Type} (cmpLe : A -> A -> bool).

Lemma In_insertSorted (x y : A) (l : list A) :
  In y (insertSorted cmpLe x l) <-> y = x \/ In y l.
Proof.
  induction l as [|z l IH]; simpl.
  - intuition congruence.
  - destruct (cmpLe x z); simpl; [intuition congruence|].
    rewrite IH; intuition congruence.
Qed.

Lemma In_sortBy (y : A) (l : list A) : In y (sortBy cmpLe l) <-> In y l.
Proof.
  induction l as [|x l IH]; simpl; [tauto|].
  rewrite In_insertSorted, IH; intuition congruence.
Qed.

Lemma sortBy_nil (l : list A) : sortBy cmpLe l = [] -> l = [].
Proof.
  destruct l as [|x l]; [reflexivity|]; intros H.
  assert (Hx : In x (sortBy cmpLe (x :: l))) by (apply In_sortBy; now left).
  rewrite H in Hx; contradiction.
Qed.

End SortIn.

Section SortByKey.

Context {A : Type} (key : A -> Z).

(** The first element of an array sorted in descending order of [key] is an
    element with the highest key. *)
Lemma sortBy_head (l : list A) (h : A) (t : list A) :
  sortBy (descending key) l = h :: t ->
  In h l /\ forall e, In e l -> key e <= key h.
Proof.
  revert h t; induction l as [|x l IH]; intros h t; simpl; [discriminate|].
  destruct (sortBy (descending key) l) as [|y r] eqn:E; simpl.
  - intros [= <- <-]; split; [now left|].
    intros e [<-|He]; [lia|].
    apply (proj2 (In_sortBy (descending key) e l)) in He.
    rewrite E in He; contradiction.
  - destruct (IH y r eq_refl) as [Hy Hmax].
    unfold descending at 1.
    destruct (key y - key x <=? 0) eqn:C; intros [= <- <-].
    + apply Z.leb_le in C; split; [now left|].
      intros e [<-|He]; [lia|]; specialize (Hmax e He); lia.
    + apply Z.leb_gt in C; split; [now right|].
      intros e [<-|He]; [lia|]; auto.
Qed.

End SortByKey.

(* ------------------------------------------------------------------ *)
(** ** Final positions *)

Lemma find_ext {A : Type} (f g : A -> bool) (l : list A) :
  (forall x, f x = g x) -> find f l = find g l.
Proof.
  intros H; induction l as [|x l IH]; simpl; [reflexivity|].
  now rewrite H, IH.
Qed.

Lemma registered_clearPosition (n : string) (players : Players) :
  registered n (map clearPosition players) = registered n players.
Proof.
  unfold registered; rewrite get_clearPosition.
  now destruct (get n players).
Qed.

Lemma keys_clearPosition (players : Players) :
  map fst (map clearPosition players) = map fst players.
Proof.
  rewrite map_map; apply map_ext; intros e.
  unfold clearPosition; now destruct (notTournamentInfo e).
Qed.

Lemma positionOf_cleared (n : string) (players : Players) :
  n <> TOURNAMENT_INFO -> positionOf n (map clearPosition players) = None.
Proof.
  intros Hn; unfold positionOf, viewOr; rewrite get_clearPosition.
  destruct (get n players); [|reflexivity]; simpl.
  unfold clearPosition, notTournamentInfo; simpl.
  apply String.eqb_neq in Hn; now rewrite Hn.
Qed.

(** After the last hand has been read, the collector holds position 1 and
    the first other registered player shown holds position 2. *)
Lemma positionOf_rankLastHand (text : string) (players : Players)
  (n : string) :
  n <> TOURNAMENT_INFO ->
  positionOf n (rankLastHand text (map clearPosition players))
  = if isName (secondPlace text players) n then Some 2
    else if isName (firstPlace text players) n then Some 1
    else None.
Proof.
  intros Hn.
  unfold rankLastHand, firstPlace, secondPlace, lastHand.
  destruct (handsOf text) as [|h hs]; [now apply positionOf_cleared|].
  set (fh := last (h :: hs) "").
  unfold rankFinalHand, finalCollector, finalists.
  destruct (search finalWinnerRegex fh) as [wm|]; cbn [option_map];
    [|now apply positionOf_cleared].
  destruct (map (group 1) (matchAll finalistRegex fh)) as [|f fs];
    [now apply positionOf_cleared|].
  set (w := group 1 wm).
  rewrite (find_ext _
             (fun x => (negb (String.eqb x w) && registered x players)%bool))
    by (intros x; f_equal; etransitivity;
        [apply (registered_whenPlayer x w) | apply registered_clearPosition]).
  pose proof (positionOf_cleared players Hn) as Hclear.
  unfold positionOf, viewOr in *.
  destruct (find _ (f :: fs)) as [r|] eqn:Er; cbn [isName].
  - apply find_some in Er as [_ Hr].
    apply andb_true_iff in Hr as [Hrw Hr]; unfold registered in Hr.
    rewrite get_modify, whenPlayer_modify, get_modify.
    destruct (String.eqb r n) eqn:Ern.
    + apply String.eqb_eq in Ern; subst r.
      apply negb_true_iff in Hrw; rewrite String.eqb_sym in Hrw.
      rewrite Hrw, get_clearPosition.
      destruct (get n players); [reflexivity | discriminate].
    + unfold registered.
      destruct (String.eqb w n) eqn:Ewn.
      * apply String.eqb_eq in Ewn; subst n.
        rewrite get_clearPosition.
        destruct (get w players); cbn; [now rewrite String.eqb_refl|].
        reflexivity.
      * destruct (isSome (get w players)); cbn [isName];
          rewrite ?Ewn; exact Hclear.
  - rewrite whenPlayer_modify, get_modify.
    unfold registered.
    destruct (String.eqb w n) eqn:Ewn.
    + apply String.eqb_eq in Ewn; subst n.
      rewrite get_clearPosition.
      destruct (get w players); cbn; [now rewrite String.eqb_refl|].
      reflexivity.
    + destruct (isSome (get w players)); cbn [isName];
        rewrite ?Ewn; exact Hclear.
Qed.

Lemma isName_true (o : option string) (n : string) :
  isName o n = true <-> o = Some n.
Proof.
  destruct o as [m|]; simpl; [|split; discriminate].
  rewrite String.eqb_eq; split; congruence.
Qed.

Lemma isName_false (o : option string) (n : string) :
  isName o n = false <-> o <> Some n.
Proof.
  rewrite <- isName_true; destruct (isName o n); split; congruence.
Qed.

Lemma rankLastHand_lastHand (text : string) (players : Players) :
  rankLastHand text players
  = match lastHand text with
    | Some finalHand => rankFinalHand finalHand players
    | None => players
    end.
Proof. unfold rankLastHand, lastHand; now destruct (handsOf text). Qed.

Lemma keys_rankLastHand (text : string) (players : Players) :
  map fst (rankLastHand text players) = map fst players.
Proof.
  rewrite rankLastHand_lastHand;
    destruct (lastHand text) as [fh|]; [|reflexivity].
  unfold rankFinalHand.
  destruct (search _ _); [|reflexivity].
  destruct (map (group 1) (matchAll finalistRegex fh)); [reflexivity|].
  destruct (find _ _); now rewrite ?keys_modify, whenPlayer_modify, keys_modify.
Qed.

Lemma registered_rankLastHand (text : string) (players : Players) (n : string) :
  registered n (rankLastHand text players) = registered n players.
Proof.
  rewrite rankLastHand_lastHand;
    destruct (lastHand text) as [fh|]; [|reflexivity].
  unfold rankFinalHand.
  destruct (search _ _); [|reflexivity].
  destruct (map (group 1) (matchAll finalistRegex fh)); [reflexivity|].
  destruct (find _ _);
    now rewrite ?registered_modify, registered_whenPlayer.
Qed.

(** Third place goes to an unassigned player with the highest chip count,
    if there is an unassigned player at all. *)
Lemma rankThird_cases (players : Players) :
  NoDup (map fst players) ->
  (rankThird players = players
   /\ forall n p,
       get n players = Some p -> n <> TOURNAMENT_INFO ->
       final_position p <> None)
  \/ exists t q,
      rankThird players = modify t (set_final_position (Some 3)) players
      /\ get t players = Some q
      /\ t <> TOURNAMENT_INFO
      /\ final_position q = None
      /\ forall m qm,
          get m players = Some qm -> m <> TOURNAMENT_INFO ->
          final_position qm = None -> max_chips qm <= max_chips q.
Proof.
  intros Hnd; unfold rankThird.
  set (unassigned := filter _ (Object_entries players)).
  assert (Hin : forall m qm,
             In (m, qm) unassigned <->
             get m players = Some qm /\ m <> TOURNAMENT_INFO
             /\ final_position qm = None).
  { intros m qm; unfold unassigned.
    rewrite filter_In, In_Object_entries, andb_true_iff.
    unfold notTournamentInfo; cbn [fst snd].
    rewrite negb_true_iff, String.eqb_neq.
    assert (Hpos : isNone (final_position qm) = true
                   <-> final_position qm = None)
      by (destruct (final_position qm); simpl; split; congruence).
    rewrite Hpos; split.
    - intros (H & ? & ?); auto using In_get.
    - intros (H & ? & ?); auto using get_In. }
  change (sortBy _ unassigned)
    with (sortBy (descending (fun e : string * PlayerStat =>
                                orElse (max_chips (snd e)) 0)) unassigned).
  destruct (sortBy _ unassigned) as [|[t q] rest] eqn:E.
  - left; split; [reflexivity|].
    apply sortBy_nil in E.
    intros n p Hget Hn Hp.
    assert (H : In (n, p) unassigned) by (apply Hin; auto).
    rewrite E in H; contradiction.
  - right; exists t, q.
    apply sortBy_head in E as [Ht Hmax].
    apply Hin in Ht as (Hget & Hti & Hpos).
    repeat split; auto.
    intros m qm Hm Hmti Hmpos.
    assert (H : In (m, qm) unassigned) by (apply Hin; auto).
    specialize (Hmax _ H); cbn [snd] in Hmax.
    now rewrite !orElse_zero in Hmax.
Qed.

Lemma viewOr_rankLastHand {A : Type} (proj : PlayerStat -> A) (d : A)
  (text : string) (players : Players) (n : string) :
  (forall v p, proj (set_final_position v p) = proj p) ->
  viewOr proj d n (rankLastHand text players) = viewOr proj d n players.
Proof.
  intros H; unfold rankLastHand; destruct (handsOf text); [reflexivity|].
  now apply viewOr_rankFinalHand.
Qed.

(** The resolver on the own properties of the player map.  It reads the
    transcript through its last hand record only; the players it ranks
    first and second are [firstPlace] and [secondPlace]; then, if some
    player is still unranked, exactly one of them, with the highest
    [max_chips] among them, gets position 3. *)
Lemma final_positions_resolved (players : Players) (text : string) :
  NoDup (map fst players) ->
  (forall text',
      lastHand text' = lastHand text ->
      determineFinalPositions players text'
      = determineFinalPositions players text)
  /\ exists third : option string,
      (forall n,
          n <> TOURNAMENT_INFO ->
          positionOf n (determineFinalPositions players text)
          = if isName (secondPlace text players) n then Some 2
            else if isName (firstPlace text players) n then Some 1
            else if isName third n then Some 3
            else None)
      /\ match third with
         | Some t =>
             unranked text players t
             /\ forall m,
                 unranked text players m ->
                 maxChipsOf m players <= maxChipsOf t players
         | None => forall m, ~ unranked text players m
         end.
Proof.
  intros Hnd; split.
  { intros text' Hlast; unfold determineFinalPositions.
    now rewrite !rankLastHand_lastHand, Hlast. }
  unfold determineFinalPositions.
  set (players1 := rankLastHand text (map clearPosition players)).
  assert (Hnd1 : NoDup (map fst players1))
    by (unfold players1; now rewrite keys_rankLastHand, keys_clearPosition).
  assert (Hreg : forall n, registered n players1 = registered n players)
    by (intros n; unfold players1;
        now rewrite registered_rankLastHand, registered_clearPosition).
  assert (Hpos : forall n,
             n <> TOURNAMENT_INFO ->
             positionOf n players1
             = if isName (secondPlace text players) n then Some 2
               else if isName (firstPlace text players) n then Some 1
               else None)
    by (intros n Hn; now apply positionOf_rankLastHand).
  assert (Hchips : forall n, maxChipsOf n players1 = maxChipsOf n players).
  { intros n; unfold maxChipsOf, players1.
    rewrite viewOr_rankLastHand by reflexivity.
    now apply viewOr_clearPosition. }
  assert (Hun : forall m,
             unranked text players m ->
             exists qm, get m players1 = Some qm
                        /\ final_position qm = None).
  { intros m (Hm & Hti & H1 & H2).
    rewrite <- Hreg in Hm; unfold registered in Hm.
    destruct (get m players1) as [qm|] eqn:G; [|discriminate].
    exists qm; split; [reflexivity|].
    specialize (Hpos m Hti); unfold positionOf, viewOr in Hpos.
    rewrite G in Hpos; rewrite Hpos.
    apply isName_false in H1, H2; now rewrite H1, H2. }
  destruct (@rankThird_cases players1 Hnd1) as [[-> Hnone]|(t & q & -> & Hq & Hti & Hqp & Hmax)].
  - exists None; split.
    + intros n Hn; now rewrite Hpos.
    + intros m Hm; destruct (Hun m Hm) as (qm & G & Hqm).
      destruct Hm as (_ & Hmti & _); exact (Hnone m qm G Hmti Hqm).
  - assert (Ht : positionOf t players1 = None)
      by (unfold positionOf, viewOr; now rewrite Hq).
    rewrite (Hpos t Hti) in Ht.
    destruct (isName (secondPlace text players) t) eqn:E2; [discriminate|].
    destruct (isName (firstPlace text players) t) eqn:E1; [discriminate|].
    exists (Some t); split; [|split].
    + intros n Hn; cbn [isName].
      unfold positionOf, viewOr; rewrite get_modify.
      destruct (String.eqb t n) eqn:Etn.
      * apply String.eqb_eq in Etn; subst n.
        now rewrite E2, E1, Hq.
      * specialize (Hpos n Hn); unfold positionOf, viewOr in Hpos.
        rewrite Hpos.
        destruct (isName (secondPlace text players) n); [reflexivity|].
        now destruct (isName (firstPlace text players) n).
    + repeat split; [|assumption| now apply isName_false
                     | now apply isName_false].
      rewrite <- Hreg; unfold registered; now rewrite Hq.
    + intros m Hm; destruct (Hun m Hm) as (qm & G & Hqm).
      rewrite <- !Hchips; unfold maxChipsOf, viewOr; rewrite G, Hq.
      destruct Hm as (_ & Hmti & _); exact (Hmax m qm G Hmti Hqm).
Qed.

(** A last hand without a showdown ranks nobody first: at
    [foldedFinalTranscript] Joe collects the pot of the last hand, nobody
    shows a hand, and Joe is given position 3 (highest chip count) while
    nobody is given position 1. *)
Lemma C7_counterexample :
  option_map finalCollector (lastHand foldedFinalTranscript)
  = Some (Some "Joe")
  /\ map (fun e => (fst e, final_position (snd e)))
       (fst (extractFromTxt foldedFinalTranscript))
     = [("Joe", Some 3); ("Al", None); ("Bea", None)].
Proof. vm_compute; split; reflexivity. Qed.

(* ------------------------------------------------------------------ *)
(** ** Award assignment *)

Lemma AwardName_eqb_eq (a b : AwardName) : AwardName_eqb a b = true <-> a = b.
Proof. destruct a, b; simpl; split; congruence. Qed.

Lemma AwardName_eqb_neq (a b : AwardName) :
  a <> b -> AwardName_eqb a b = false.
Proof.
  intros H; destruct (AwardName_eqb a b) eqn:E; [|reflexivity].
  now apply AwardName_eqb_eq in E.
Qed.

Lemma awardOf_assign (c c' : AwardName) (r : AwardRecord) (a : Awards) :
  awardOf c (assign c' r a)
  = if AwardName_eqb c' c then Some r else awardOf c a.
Proof.
  induction a as [|[k v] a IH]; simpl.
  - reflexivity.
  - destruct (AwardName_eqb k c') eqn:Ek; simpl.
    + apply AwardName_eqb_eq in Ek; subst k.
      now destruct (AwardName_eqb c' c).
    + rewrite IH.
      destruct (AwardName_eqb k c) eqn:Ekc; [|reflexivity].
      apply AwardName_eqb_eq in Ekc; subst k.
      destruct (AwardName_eqb c' c) eqn:E; [|reflexivity].
      apply AwardName_eqb_eq in E; subst c'; now destruct c.
Qed.

Lemma has_In (s : list string) (x : string) : has s x = true <-> In x s.
Proof.
  unfold has; rewrite existsb_exists; split.
  - intros (y & Hy & E); apply String.eqb_eq in E; now subst.
  - intros H; exists x; split; [assumption|apply String.eqb_refl].
Qed.

Lemma In_setAdd (s : list string) (x y : string) :
  In y (setAdd s x) <-> y = x \/ In y s.
Proof.
  unfold setAdd; destruct (existsb (String.eqb x) s) eqn:E.
  - apply (has_In s x) in E; intuition congruence.
  - rewrite in_app_iff; simpl; intuition congruence.
Qed.

(** An award block touches its own category only. *)
Lemma AwardStep_other (c c' : AwardName) (st st' : AwardState) :
  AwardStep c st st' -> c' <> c ->
  awardOf c' (awards st') = awardOf c' (awards st).
Proof.
  intros [->|[(r & -> & _)|(r & -> & _)]] Hc; [reflexivity| |];
    simpl; rewrite awardOf_assign, AwardName_eqb_neq; congruence.
Qed.

(** An award block keeps the awards exclusive. *)
Lemma AwardStep_exclusive (c : AwardName) (st st' : AwardState) :
  AwardStep c st st' -> exclusive st -> exclusive st'.
Proof.
  intros [->|[(r & -> & Hp)|(r & -> & Hw)]] [H1 H2]; [now split| |].
  - assert (Hb : forall c', isBehavioral c' = true ->
                            awardOf c' (assign c r (awards st))
                            = awardOf c' (awards st)).
    { intros c' Hc'; rewrite awardOf_assign, AwardName_eqb_neq; auto.
      intros ->; unfold isBehavioral in Hc'; rewrite Hp in Hc'; discriminate. }
    split; simpl.
    + intros c' r' Hc'; rewrite Hb by assumption; now apply H1.
    + intros c1 c2 r1 r2 Hc1 Hc2; rewrite !Hb by assumption; now apply H2.
  - assert (Hnew : forall c' r',
               isBehavioral c' = true -> c' <> c ->
               awardOf c' (awards st) = Some r' ->
               aw_winner r' <> aw_winner r).
    { intros c' r' Hc' _ Hr' E.
      apply H1 in Hr'; [|assumption].
      rewrite E in Hr'; apply has_In in Hr'; congruence. }
    split; simpl.
    + intros c' r'; rewrite awardOf_assign, In_setAdd.
      destruct (AwardName_eqb c c') eqn:E.
      * intros _ [= <-]; now left.
      * intros Hc' Hr'; right; eauto.
    + intros c1 c2 r1 r2 Hc1 Hc2 Hne; rewrite !awardOf_assign.
      destruct (AwardName_eqb c c1) eqn:E1, (AwardName_eqb c c2) eqn:E2.
      * apply AwardName_eqb_eq in E1, E2; congruence.
      * apply AwardName_eqb_eq in E1; subst c1.
        intros [= <-] Hr2; apply not_eq_sym; eauto.
      * apply AwardName_eqb_eq in E2; subst c2.
        intros Hr1 [= <-]; eauto.
      * now apply H2.
Qed.

(** The running-extremum loop returns one of the candidates, and one whose
    metric beats the initial bound. *)
Lemma bestBy_spec {V : Type} (metric : PlayerStat -> V) (init : V)
  (better : V -> V -> bool) (cands : list (string * PlayerStat)) (n : string) :
  (forall x y z, better x y = true -> better y z = true -> better x z = true) ->
  bestBy metric init better cands = Some n ->
  exists d, In (n, d) cands /\ better (metric d) init = true.
Proof.
  intros Htrans; unfold bestBy.
  set (P := fun acc : option string * V =>
              (fst acc = None /\ snd acc = init)
              \/ exists m d, fst acc = Some m /\ In (m, d) cands
                             /\ snd acc = metric d
                             /\ better (metric d) init = true).
  assert (H : forall l acc,
             (forall e, In e l -> In e cands) -> P acc ->
             P (fold_left (bestStep metric better) l acc)).
  { induction l as [|[m d] l IH]; intros acc Hl Hacc; simpl; [assumption|].
    apply IH; [intros e He; apply Hl; now right|].
    unfold bestStep; cbn [fst snd].
    destruct (better (metric d) (snd acc)) eqn:E; [|assumption].
    right; exists m, d; cbn [fst snd].
    repeat split; [apply Hl; now left|].
    destruct Hacc as [[_ Hi]|(m' & d' & _ & _ & Hv & Hb)].
    - now rewrite <- Hi.
    - rewrite Hv in E; eauto. }
  specialize (H cands (None, init) (fun e He => He)
                (or_introl (conj eq_refl eq_refl))).
  intros Hn; destruct H as [[Hnone _]|(m & d & Hm & Hin & _ & Hb)].
  - rewrite Hn in Hnone; discriminate.
  - rewrite Hn in Hm; injection Hm as <-; eauto.
Qed.

Lemma truthy_Some (best : option string) (n : string) :
  truthy best = Some n -> best = Some n.
Proof.
  destruct best as [m|]; simpl; [|discriminate].
  destruct (String.eqb m ""); [discriminate|auto].
Qed.

Lemma Qgtb_lt (x y : Q) : Qgtb x y = true <-> (y < x)%Q.
Proof.
  unfold Qgtb; rewrite negb_true_iff.
  destruct (Qle_bool x y) eqn:E.
  - apply Qle_bool_iff in E; split; [discriminate|].
    intros H; exfalso; exact (Qlt_not_le _ _ H E).
  - split; [intros _|reflexivity].
    apply Qnot_le_lt; intros H; apply Qle_bool_iff in H; congruence.
Qed.

Lemma Qltb_lt (x y : Q) : Qltb x y = true <-> (x < y)%Q.
Proof. apply Qgtb_lt. Qed.

Lemma Qgtb_trans (x y z : Q) :
  Qgtb x y = true -> Qgtb y z = true -> Qgtb x z = true.
Proof. rewrite !Qgtb_lt; intros H1 H2; exact (Qlt_trans _ _ _ H2 H1). Qed.

Lemma Qltb_trans (x y z : Q) :
  Qltb x y = true -> Qltb y z = true -> Qltb x z = true.
Proof. rewrite !Qltb_lt; apply Qlt_trans. Qed.

Lemma Zgtb_trans (x y z : Z) :
  Z.gtb x y = true -> Z.gtb y z = true -> Z.gtb x z = true.
Proof. rewrite !Z.gtb_lt; lia. Qed.

(** A ratio over a positive count is positive exactly when the numerator
    is. *)
Lemma ratio_pos (a b : Z) : (0 < ratio a b)%Q -> 0 < b -> 0 < a.
Proof.
  unfold ratio, Qlt, Qdiv, Qmult, Qinv, inject_Z.
  destruct b as [|b|b]; try lia; simpl; lia.
Qed.

Lemma ratio_lt_1 (a b : Z) : (ratio a b < 1)%Q -> 0 < b -> a < b.
Proof.
  unfold ratio, Qlt, Qdiv, Qmult, Qinv, inject_Z.
  destruct b as [|b|b]; try lia; simpl; lia.
Qed.

Lemma bestBy_In {V : Type} (metric : PlayerStat -> V) (init : V)
  (better : V -> V -> bool) (cands : list (string * PlayerStat)) (n : string) :
  bestBy metric init better cands = Some n -> exists d, In (n, d) cands.
Proof.
  unfold bestBy.
  assert (H : forall l acc,
             fst (fold_left (bestStep metric better) l acc) = Some n ->
             fst acc = Some n \/ exists d, In (n, d) l).
  { induction l as [|[m d] l IH]; intros acc Hacc; simpl in *; [now left|].
    apply IH in Hacc as [Hacc|(d' & Hd')]; [|right; eauto].
    unfold bestStep in Hacc; cbn [fst snd] in Hacc.
    destruct (better (metric d) (snd acc)); [|now left].
    injection Hacc as ->; right; eauto. }
  intros Hn; apply H in Hn as [Hn|Hn]; [discriminate|assumption].
Qed.

Module AwardBlocks.

Import PokerAwardsParser.

(** Closes a block that does nothing in this branch. *)
Ltac skipped := left; reflexivity.

(** A block that grants to the winner of a running-extremum loop over
    filtered candidates. *)
Ltac granted_best :=
  match goal with
  | |- AwardStep _ ?st (match ?cands with [] => _ | _ :: _ => _ end) =>
      let E := fresh "E" in
      destruct cands eqn:E; [skipped|]; rewrite <- E; clear E
  end;
  match goal with
  | |- AwardStep _ ?st (match truthy ?b with _ => _ end) =>
      let T := fresh "T" in
      let d := fresh "d" in
      let Hin := fresh "Hin" in
      let Hf := fresh "Hf" in
      let Hh := fresh "Hh" in
      destruct (truthy b) as [w|] eqn:T; [|skipped];
      right; right; eexists; split; [reflexivity|]; cbn [aw_winner];
      apply truthy_Some, bestBy_In in T as (d & Hin);
      apply filter_In in Hin as [_ Hf]; cbn [fst snd] in Hf;
      destruct (has (awardedPlayers st) w) eqn:Hh; [|reflexivity];
      exfalso; revert Hf; cbn; rewrite ?andb_false_r; discriminate
  end.

Section Blocks.

Variables (players : Players) (st : AwardState).

Lemma champion_step : AwardStep TournamentChampion st (champion players st).
Proof.
  unfold champion; destruct (filter _ _) as [|[n ?] ?]; [skipped|].
  right; left; eexists; split; reflexivity.
Qed.

Lemma runnerUp_step : AwardStep RunnerUp st (runnerUp players st).
Proof.
  unfold runnerUp; destruct (filter _ _) as [|[n ?] ?]; [skipped|].
  right; left; eexists; split; reflexivity.
Qed.

Lemma bubbleBoy_step : AwardStep BubbleBoy st (bubbleBoy players st).
Proof.
  unfold bubbleBoy; destruct (4 <=? playerCount players); [|skipped].
  destruct (filter _ _) as [|[n ?] ?]; [skipped|].
  right; left; eexists; split; reflexivity.
Qed.

Lemma mostAggressive_step :
  AwardStep MostAggressive st (mostAggressive players st).
Proof. unfold mostAggressive; granted_best. Qed.

Lemma callingStation_step :
  AwardStep CallingStation st (callingStation players st).
Proof. unfold callingStation; granted_best. Qed.

Lemma tightestPlayer_step :
  AwardStep TightestPlayer st (tightestPlayer players st).
Proof. unfold tightestPlayer; granted_best. Qed.

Lemma doggyPaddling_step :
  AwardStep DoggyPaddlingAward st (doggyPaddling players st).
Proof. unfold doggyPaddling; granted_best. Qed.

Lemma hollywoodActor_step :
  AwardStep HollywoodActor st (hollywoodActor players st).
Proof. unfold hollywoodActor; granted_best. Qed.

Lemma abcPlayer_step : AwardStep AbcPlayer st (abcPlayer players st).
Proof. unfold abcPlayer; granted_best. Qed.

Lemma comebackCandidates_fresh (n : string) (score : Q) :
  In (n, score) (comebackCandidates players st) ->
  has (awardedPlayers st) n = false.
Proof.
  unfold comebackCandidates; destruct (filter _ _); [contradiction|].
  intros H; apply in_flat_map in H as (e & _ & H).
  destruct (has (awardedPlayers st) (fst e)) eqn:Hh; [contradiction|].
  destruct (final_position (snd e)); [|contradiction].
  destruct (_ && _)%bool; [|contradiction].
  destruct H as [[= <- _]|[]]; assumption.
Qed.

Lemma comebackKid_step : AwardStep ComebackKid st (comebackKid players st).
Proof.
  unfold comebackKid.
  destruct (sortBy _ _) as [|[king score] rest] eqn:E; [skipped|].
  right; right; eexists; split; [reflexivity|]; cbn [aw_winner].
  apply (comebackCandidates_fresh king score).
  eapply In_sortBy; rewrite E; now left.
Qed.

Lemma yoloAward_step : AwardStep YoloAward st (yoloAward players st).
Proof.
  unfold yoloAward.
  destruct (yoloCandidates players st) as [|[w so] rest] eqn:E; [skipped|].
  right; right; eexists; split; [reflexivity|]; cbn [aw_winner].
  assert (H : In (w, so) (yoloCandidates players st))
    by (rewrite E; now left).
  unfold yoloCandidates in H; apply in_flat_map in H as (e & _ & H).
  destruct (has (awardedPlayers st) (fst e)) eqn:Hh; [contradiction|].
  apply in_map_iff in H as (so' & [= <- _] & _); assumption.
Qed.

Lemma sevenTwoHero_step : AwardStep SevenTwoHero st (sevenTwoHero players st).
Proof.
  unfold sevenTwoHero.
  destruct (badHandWinners players st) as [|[w so] rest] eqn:E; [skipped|].
  right; right; eexists; split; [reflexivity|]; cbn [aw_winner].
  assert (H : In (w, so) (badHandWinners players st))
    by (rewrite E; now left).
  unfold badHandWinners in H; apply in_flat_map in H as (e & _ & H).
  destruct (has (awardedPlayers st) (fst e)) eqn:Hh; [contradiction|].
  apply in_map_iff in H as (so' & [= <- _] & _); assumption.
Qed.

Lemma donkeyCandidates_fresh (c : string * Q * Q) :
  In c (donkeyCandidates players st) ->
  has (awardedPlayers st) (fst (fst c)) = false.
Proof.
  unfold donkeyCandidates; intros H.
  apply in_flat_map in H as (e & _ & H).
  destruct (has (awardedPlayers st) (fst e)) eqn:Hh; [contradiction|].
  destruct (10 <? _); [|contradiction].
  destruct (_ && _)%bool; [|contradiction].
  destruct H as [<-|[]]; assumption.
Qed.

Lemma donkey_step :
  AwardStep Donkey st
    match donkeyCandidates players st with
    | [] => st
    | _ :: _ => donkeyAward (donkeyCandidates players st) st
    end.
Proof.
  destruct (donkeyCandidates players st) eqn:E; [skipped|].
  rewrite <- E; clear E; unfold donkeyAward.
  destruct (sortBy _ _) as [|worst rest] eqn:E; [skipped|].
  destruct (Qgtb _ _); [|skipped].
  right; right; eexists; split; [reflexivity|]; cbn [aw_winner].
  apply donkeyCandidates_fresh.
  eapply In_sortBy; rewrite E; now left.
Qed.

(** What the four metric-maximizing blocks of C10 require of a winner. *)

Lemma eligible_hands (x : Z) : (5 <? orElse x 0) = true -> 5 < x.
Proof. rewrite orElse_zero; apply Z.ltb_lt. Qed.

Lemma eligible_max (x : Z) : 5 < x -> Z.max (orElse x 1) 1 = x.
Proof. intros H; unfold orElse; destruct (Z.eqb_spec x 0); lia. Qed.

Lemma mostAggressive_winner (r : AwardRecord) :
  awardOf MostAggressive (awards st) = None ->
  awardOf MostAggressive (awards (mostAggressive players st)) = Some r ->
  exists d,
    In (aw_winner r, d) (Object_entries players)
    /\ 5 < hands_played d /\ 0 < aggressive_actions d.
Proof.
  intros Hnone; unfold mostAggressive.
  destruct (filter _ _) eqn:E; [congruence|]; rewrite <- E; clear E.
  destruct (truthy _) as [w|] eqn:T; [|congruence].
  cbn [awards grant]; rewrite awardOf_assign; cbn [AwardName_eqb].
  intros [= <-]; cbn [aw_winner].
  apply truthy_Some, bestBy_spec in T as (d & Hin & Hb);
    [|exact Qgtb_trans].
  apply filter_In in Hin as [Hin Hf]; cbn [fst snd] in Hf.
  apply andb_true_iff in Hf as [Hf _]; apply eligible_hands in Hf.
  exists d; repeat split; try assumption.
  apply Qgtb_lt in Hb; unfold aggroRatio in Hb; cbv zeta in Hb.
  rewrite (eligible_max Hf), orElse_zero in Hb.
  apply (ratio_pos Hb); lia.
Qed.

Lemma callingStation_winner (r : AwardRecord) :
  awardOf CallingStation (awards st) = None ->
  awardOf CallingStation (awards (callingStation players st)) = Some r ->
  exists d,
    In (aw_winner r, d) (Object_entries players)
    /\ 5 < hands_played d /\ 0 < calls d.
Proof.
  intros Hnone; unfold callingStation.
  destruct (filter _ _) eqn:E; [congruence|]; rewrite <- E; clear E.
  destruct (truthy _) as [w|] eqn:T; [|congruence].
  cbn [awards grant]; rewrite awardOf_assign; cbn [AwardName_eqb].
  intros [= <-]; cbn [aw_winner].
  apply truthy_Some, bestBy_spec in T as (d & Hin & Hb);
    [|exact Qgtb_trans].
  apply filter_In in Hin as [Hin Hf]; cbn [fst snd] in Hf.
  apply andb_true_iff in Hf as [_ Hf]; apply eligible_hands in Hf.
  exists d; repeat split; try assumption.
  apply Qgtb_lt in Hb; unfold callRatio in Hb; cbv zeta in Hb.
  rewrite (eligible_max Hf), orElse_zero in Hb.
  apply (ratio_pos Hb); lia.
Qed.

Lemma tightestPlayer_winner (r : AwardRecord) :
  awardOf TightestPlayer (awards st) = None ->
  awardOf TightestPlayer (awards (tightestPlayer players st)) = Some r ->
  exists d,
    In (aw_winner r, d) (Object_entries players)
    /\ 5 < hands_played d
    /\ hands_voluntarily_played d < hands_played d.
Proof.
  intros Hnone; unfold tightestPlayer.
  destruct (filter _ _) eqn:E; [congruence|]; rewrite <- E; clear E.
  destruct (truthy _) as [w|] eqn:T; [|congruence].
  cbn [awards grant]; rewrite awardOf_assign; cbn [AwardName_eqb].
  intros [= <-]; cbn [aw_winner].
  apply truthy_Some, bestBy_spec in T as (d & Hin & Hb);
    [|exact Qltb_trans].
  apply filter_In in Hin as [Hin Hf]; cbn [fst snd] in Hf.
  apply andb_true_iff in Hf as [_ Hf]; apply eligible_hands in Hf.
  exists d; repeat split; try assumption.
  apply Qltb_lt in Hb; unfold vpipRatio in Hb; cbv zeta in Hb.
  rewrite (eligible_max Hf), orElse_zero in Hb.
  apply (ratio_lt_1 Hb); lia.
Qed.

Lemma abcPlayer_winner (r : AwardRecord) :
  awardOf AbcPlayer (awards st) = None ->
  awardOf AbcPlayer (awards (abcPlayer players st)) = Some r ->
  exists d,
    In (aw_winner r, d) (Object_entries players)
    /\ 5 < hands_played d /\ 0 < showdown_wins d.
Proof.
  intros Hnone; unfold abcPlayer.
  destruct (filter _ _) eqn:E; [congruence|]; rewrite <- E; clear E.
  destruct (truthy _) as [w|] eqn:T; [|congruence].
  cbn [awards grant]; rewrite awardOf_assign; cbn [AwardName_eqb].
  intros [= <-]; cbn [aw_winner].
  apply truthy_Some, bestBy_spec in T as (d & Hin & Hb);
    [|exact Zgtb_trans].
  apply filter_In in Hin as [Hin Hf]; cbn [fst snd] in Hf.
  exists d; repeat split; try assumption.
  - destruct (has _ _); [discriminate|]; cbn [orb] in Hf.
    rewrite orElse_zero in Hf.
    destruct (hands_played d <=? 5) eqn:Hh; [discriminate|].
    now apply Z.leb_gt in Hh.
  - rewrite orElse_zero in Hb; apply Z.gtb_lt in Hb; lia.
Qed.

End Blocks.

End AwardBlocks.

Import PokerAwardsParser AwardBlocks.

(** Moves a lookup of another category across an award block. *)
Ltac peel :=
  repeat first
    [ rewrite (AwardStep_other (bubbleBoy_step _ _)) by discriminate
    | rewrite (AwardStep_other (abcPlayer_step _ _)) by discriminate
    | rewrite (AwardStep_other (donkey_step _ _)) by discriminate
    | rewrite (AwardStep_other (sevenTwoHero_step _ _)) by discriminate
    | rewrite (AwardStep_other (hollywoodActor_step _ _)) by discriminate
    | rewrite (AwardStep_other (doggyPaddling_step _ _)) by discriminate
    | rewrite (AwardStep_other (yoloAward_step _ _)) by discriminate
    | rewrite (AwardStep_other (comebackKid_step _ _)) by discriminate
    | rewrite (AwardStep_other (tightestPlayer_step _ _)) by discriminate
    | rewrite (AwardStep_other (callingStation_step _ _)) by discriminate
    | rewrite (AwardStep_other (mostAggressive_step _ _)) by discriminate
    | rewrite (AwardStep_other (runnerUp_step _ _)) by discriminate
    | rewrite (AwardStep_other (champion_step _ _)) by discriminate ].

Lemma runAwards_exclusive (players : Players) : exclusive (runAwards players).
Proof.
  unfold runAwards; cbv zeta.
  repeat first
    [ apply (AwardStep_exclusive (bubbleBoy_step _ _))
    | apply (AwardStep_exclusive (abcPlayer_step _ _))
    | apply (AwardStep_exclusive (donkey_step _ _))
    | apply (AwardStep_exclusive (sevenTwoHero_step _ _))
    | apply (AwardStep_exclusive (hollywoodActor_step _ _))
    | apply (AwardStep_exclusive (doggyPaddling_step _ _))
    | apply (AwardStep_exclusive (yoloAward_step _ _))
    | apply (AwardStep_exclusive (comebackKid_step _ _))
    | apply (AwardStep_exclusive (tightestPlayer_step _ _))
    | apply (AwardStep_exclusive (callingStation_step _ _))
    | apply (AwardStep_exclusive (mostAggressive_step _ _))
    | apply (AwardStep_exclusive (runnerUp_step _ _))
    | apply (AwardStep_exclusive (champion_step _ _)) ].
  split; simpl; intros; discriminate.
Qed.

(** C3. In every award mapping computed by [calculateAwards], two distinct
    behavioral awards never name the same winner: every winner of a
    behavioral block is put in [awardedPlayers], and each behavioral block
    only grants to a player outside that set.  A placement award may name a
    player who also holds a behavioral award: after [twoPairHand], Joe is
    both Tournament Champion and Comeback Kid. *)
Theorem C3_behavioral_awards_exclusive :
  (forall playersData c1 c2 w,
      isBehavioral c1 = true -> isBehavioral c2 = true -> c1 <> c2 ->
      winnerOf c1 (calculateAwards playersData) = Some w ->
      winnerOf c2 (calculateAwards playersData) <> Some w)
  /\ (forall players c w,
         isBehavioral c = true ->
         winnerOf c (awards (runAwards players)) = Some w ->
         In w (awardedPlayers (runAwards players)))
  /\ (winnerOf TournamentChampion
        (calculateAwards (fst (extractFromTxt twoPairHand))) = Some "Joe"
      /\ winnerOf ComebackKid
           (calculateAwards (fst (extractFromTxt twoPairHand))) = Some "Joe").
Proof.
  split; [|split; [|vm_compute; split; reflexivity]].
  2:{ intros players c w Hc; unfold winnerOf.
      destruct (awardOf c _) as [r|] eqn:E; [|discriminate].
      intros [= <-].
      exact (proj1 (runAwards_exclusive players) c r Hc E). }
  intros pd c1 c2 w Hc1 Hc2 Hne; unfold calculateAwards, winnerOf.
  destruct (Object_keys (withoutTournamentInfo pd)).
  - destruct c1, c2; simpl; try discriminate; try congruence.
  - destruct (runAwards_exclusive (withoutTournamentInfo pd)) as [_ H].
    destruct (awardOf c1 _) as [r1|] eqn:E1; [|discriminate].
    destruct (awardOf c2 _) as [r2|] eqn:E2; [|discriminate].
    simpl; intros [= <-] [= E].
    exact (H c1 c2 r1 r2 Hc1 Hc2 Hne E1 E2 (eq_sym E)).
Qed.

(** C3 at the players of [twoPairHand], for Comeback Kid and Doggy
    Paddling. *)
Lemma C3_behavioral_awards_exclusive_witness :
  winnerOf DoggyPaddlingAward
    (calculateAwards (fst (extractFromTxt twoPairHand))) <> Some "Joe".
Proof.
  apply (proj1 C3_behavioral_awards_exclusive
           (fst (extractFromTxt twoPairHand)) ComebackKid DoggyPaddlingAward);
    [reflexivity | reflexivity | discriminate | vm_compute; reflexivity].
Defined.

(** C10. Running the award blocks of [calculateAwards] from the empty
    [awards] object, Most Aggressive, Calling Station and ABC Player are only
    issued to a player with more than five hands whose metric is strictly
    positive (at least one aggressive action, one call, one showdown win),
    and Tightest Player only to a player with more than five hands who
    played strictly fewer hands voluntarily than hands dealt (ratio strictly
    below 1.0); [calculateAwards] returns the awards of these blocks on
    every non-empty player map.  When all eligible players sit at the
    initial bound the category is skipped although candidates exist: for
    [passivePlayers] (eight hands each, no aggressive action, no call, every
    hand voluntary) the only award is Doggy Paddling, and for
    [textbookPlayers] (ten hands, two raises, no showdown win each) Cat holds
    no award and ABC Player is not issued. *)
Theorem C10_awards_need_beaten_bound :
  (forall players w,
      (winnerOf MostAggressive (awards (runAwards players)) = Some w ->
       exists d, In (w, d) players
                 /\ 5 < hands_played d /\ 1 <= aggressive_actions d)
      /\ (winnerOf CallingStation (awards (runAwards players)) = Some w ->
          exists d, In (w, d) players
                    /\ 5 < hands_played d /\ 1 <= calls d)
      /\ (winnerOf AbcPlayer (awards (runAwards players)) = Some w ->
          exists d, In (w, d) players
                    /\ 5 < hands_played d /\ 1 <= showdown_wins d)
      /\ (winnerOf TightestPlayer (awards (runAwards players)) = Some w ->
          exists d, In (w, d) players
                    /\ 5 < hands_played d
                    /\ hands_voluntarily_played d < hands_played d))
  /\ (forall playersData,
         Object_keys (withoutTournamentInfo playersData) <> [] ->
         calculateAwards playersData
         = awards (runAwards (withoutTournamentInfo playersData)))
  /\ map (fun a => (fst a, aw_winner (snd a))) (calculateAwards passivePlayers)
     = [(DoggyPaddlingAward, "Ann")]
  /\ map (fun a => (fst a, aw_winner (snd a))) (calculateAwards textbookPlayers)
     = [(MostAggressive, "Ann"); (DoggyPaddlingAward, "Bob")].
Proof.
  split; [|split; [|vm_compute; split; reflexivity]].
  - intros players w; unfold winnerOf, runAwards; cbv zeta.
    repeat split;
      (destruct (awardOf _ _) as [r|] eqn:E; [|discriminate];
       simpl; intros [= <-]; revert E; peel; intros E).
    + apply mostAggressive_winner in E as (d & Hin & Hh & Ha);
        [|peel; reflexivity].
      exists d; repeat split; [now apply In_Object_entries|lia|lia].
    + apply callingStation_winner in E as (d & Hin & Hh & Ha);
        [|peel; reflexivity].
      exists d; repeat split; [now apply In_Object_entries|lia|lia].
    + apply abcPlayer_winner in E as (d & Hin & Hh & Ha);
        [|peel; reflexivity].
      exists d; repeat split; [now apply In_Object_entries|lia|lia].
    + apply tightestPlayer_winner in E as (d & Hin & Hh & Ha);
        [|peel; reflexivity].
      exists d; repeat split; [now apply In_Object_entries|lia|lia].
  - intros pd Hne; unfold calculateAwards.
    destruct (Object_keys (withoutTournamentInfo pd)); [contradiction|].
    reflexivity.
Qed.

(** C10 at [activePlayers]: Ann (six raises) is Most Aggressive, Bob (five
    calls) Calling Station, Cat (two of ten hands voluntary) Tightest Player
    and Dan (one showdown win) ABC Player. *)
Lemma C10_awards_need_beaten_bound_witness :
  (exists d, In ("Ann", d) activePlayers
             /\ 5 < hands_played d /\ 1 <= aggressive_actions d)
  /\ (exists d, In ("Bob", d) activePlayers
                /\ 5 < hands_played d /\ 1 <= calls d)
  /\ (exists d, In ("Dan", d) activePlayers
                /\ 5 < hands_played d /\ 1 <= showdown_wins d)
  /\ (exists d, In ("Cat", d) activePlayers
                /\ 5 < hands_played d
                /\ hands_voluntarily_played d < hands_played d).
Proof.
  repeat split.
  - apply (proj1 C10_awards_need_beaten_bound activePlayers "Ann").
    vm_compute; reflexivity.
  - apply (proj1 C10_awards_need_beaten_bound activePlayers "Bob").
    vm_compute; reflexivity.
  - apply (proj1 C10_awards_need_beaten_bound activePlayers "Dan").
    vm_compute; reflexivity.
  - apply (proj1 C10_awards_need_beaten_bound activePlayers "Cat").
    vm_compute; reflexivity.
Defined.

(* ------------------------------------------------------------------ *)
(** ** The two copies of the award engine *)

(** The blocks of the two copies are the same functions. *)
Lemma same_blocks :
  champion = Standalone.champion
  /\ runnerUp = Standalone.runnerUp
  /\ mostAggressive = Standalone.mostAggressive
  /\ callingStation = Standalone.callingStation
  /\ tightestPlayer = Standalone.tightestPlayer
  /\ comebackKid = Standalone.comebackKid
  /\ yoloAward = Standalone.yoloAward
  /\ doggyPaddling = Standalone.doggyPaddling
  /\ hollywoodActor = Standalone.hollywoodActor
  /\ sevenTwoHero = Standalone.sevenTwoHero
  /\ donkeyCandidates = Standalone.donkeyCandidates
  /\ donkeyAward = Standalone.donkeyAward
  /\ abcPlayer = Standalone.abcPlayer
  /\ bubbleBoy = Standalone.bubbleBoy.
Proof. repeat split. Qed.

(** Block for block, the method runs the blocks of the standalone copy. *)
Lemma standalone_blocks (players : Players) :
  runAwards players
  = Standalone.bubbleBoy players
      (Standalone.abcPlayer players
         match Standalone.donkeyCandidates players
                 (Standalone.beforeDonkey players) with
         | [] => Standalone.beforeDonkey players
         | _ :: _ =>
             Standalone.donkeyAward
               (Standalone.donkeyCandidates players
                  (Standalone.beforeDonkey players))
               (Standalone.beforeDonkey players)
         end).
Proof.
  unfold runAwards, Standalone.beforeDonkey; cbv zeta.
  destruct same_blocks
    as (-> & -> & -> & -> & -> & -> & -> & -> & -> & -> & -> & -> & -> & ->).
  reflexivity.
Qed.

(** C4. On every non-empty player map for which the standalone
    copy reaches its [return] (its Donkey guard holds: some player not yet
    awarded has more than ten hands, a voluntary-play ratio above 0.4 and a
    showdown win rate below 0.3), the standalone function and the method
    return the same award mapping. *)
Theorem C4_copies_agree (playersData : Players) :
  Object_keys (withoutTournamentInfo playersData) <> [] ->
  Standalone.donkeyCandidates (withoutTournamentInfo playersData)
    (Standalone.beforeDonkey (withoutTournamentInfo playersData)) <> [] ->
  Standalone.calculateAwards playersData
  = Some (calculateAwards playersData).
Proof.
  intros Hne Hdonkey; unfold Standalone.calculateAwards, calculateAwards.
  destruct (Object_keys (withoutTournamentInfo playersData));
    [contradiction|].
  rewrite standalone_blocks; cbv zeta.
  destruct (Standalone.donkeyCandidates _ _); [contradiction|reflexivity].
Qed.

(** C4 at [donkeyPlayers], where Fay is a Donkey candidate. *)
Lemma C4_copies_agree_witness :
  Standalone.calculateAwards donkeyPlayers
  = Some (calculateAwards donkeyPlayers).
Proof.
  apply C4_copies_agree; vm_compute; discriminate.
Defined.

(** The two copies differ on the empty player map: the standalone function
    returns the empty mapping, the method the three sample awards. *)
Lemma C4_counterexample :
  Standalone.calculateAwards [] = Some []
  /\ calculateAwards [] = getSampleAwards
  /\ Standalone.calculateAwards [] <> Some (calculateAwards []).
Proof. repeat split; discriminate. Qed.

(** Without a Donkey candidate the standalone copy falls off its end. *)
Lemma standalone_without_candidate (playersData : Players) :
  Object_keys (withoutTournamentInfo playersData) <> [] ->
  Standalone.donkeyCandidates (withoutTournamentInfo playersData)
    (Standalone.beforeDonkey (withoutTournamentInfo playersData)) = [] ->
  Standalone.calculateAwards playersData = None.
Proof.
  intros Hne Hdonkey; unfold Standalone.calculateAwards.
  destruct (Object_keys (withoutTournamentInfo playersData));
    [contradiction|].
  cbv zeta; now rewrite Hdonkey.
Qed.

(* ------------------------------------------------------------------ *)
(** ** The parser facade *)

Lemma search_execAt (r : regex) (m : Match) (s : string) :
  search r s = Some m -> exists s', execAt r s' = Some m.
Proof.
  induction s as [|a s IH]; simpl.
  - destruct (execAt r "") eqn:E; [intros [= <-]; eauto | discriminate].
  - destruct (execAt r (String a s)) eqn:E; [intros [= <-]; eauto | exact IH].
Qed.


Lemma extract_no_hands (content : string) :
  handsOf content = [] -> fst (extractFromTxt content) = [].
Proof.
  intros H; unfold extractFromTxt, determineFinalPositions, rankLastHand.
  now rewrite H.
Qed.

(** C2. Parsing a transcript with no hand record returns (and
    cannot throw) a summary with [total_players = 0] and an empty bad-beat
    log, whose awards are the three sample awards of [getSampleAwards]
    (Tournament Champion Player1, Most Aggressive Player2, Calling Station
    Player3). *)
Theorem C2_no_hands_summary (now : Clock) (content : string) :
  handsOf content = [] ->
  total_players (parseTxt now content) = 0
  /\ summary_awards (parseTxt now content) = getSampleAwards
  /\ map (fun a => (fst a, aw_winner (snd a)))
       (summary_awards (parseTxt now content))
     = [(TournamentChampion, "Player1"); (MostAggressive, "Player2");
        (CallingStation, "Player3")]
  /\ preparation_h_club (parseTxt now content) = [].
Proof.
  intros H; unfold parseTxt.
  assert (Hps : fst (extractFromTxt content) = [])
    by now apply extract_no_hands.
  assert (Hcount : ti_player_count (snd (extractFromTxt content)) = 0).
  { unfold extractFromTxt in *; cbn [fst snd ti_player_count] in *.
    now rewrite Hps. }
  cbn [total_players summary_awards preparation_h_club].
  rewrite Hps, Hcount; repeat split.
Qed.

(** C2 at a transcript without any hand header. *)
Lemma C2_no_hands_summary_witness :
  total_players (parseTxt firstOfMarch "no hands were played") = 0
  /\ summary_awards (parseTxt firstOfMarch "no hands were played")
     = getSampleAwards
  /\ map (fun a => (fst a, aw_winner (snd a)))
       (summary_awards (parseTxt firstOfMarch "no hands were played"))
     = [(TournamentChampion, "Player1"); (MostAggressive, "Player2");
        (CallingStation, "Player3")]
  /\ preparation_h_club (parseTxt firstOfMarch "no hands were played") = [].
Proof.
  apply C2_no_hands_summary; reflexivity.
Defined.

(** The awards of the summary of the empty transcript are not empty. *)
Lemma C2_counterexample :
  handsOf "" = []
  /\ total_players (parseTxt firstOfMarch "") = 0
  /\ summary_awards (parseTxt firstOfMarch "") <> [].
Proof. repeat split; discriminate. Qed.


(* ================================================================== *)
(** * The parser in its host *)

(** ** Lookups that stay within the player map *)

Lemma slot_plain (realm : Host.Realm) (name : string) (players : Players) :
  Host.hostName realm name = false ->
  Host.slot realm name players
  = match get name players with
    | Some p => Host.Own p
    | None => Host.Missing
    end.
Proof.
  unfold Host.hostName, Host.slot; intros H.
  apply orb_false_iff in H as [-> ->].
  now destruct (get name players).
Qed.

Lemma whenPlayer_plain (realm : Host.Realm) (name : string)
  (f : PlayerStat -> PlayerStat) (players : Players) :
  Host.hostName realm name = false ->
  Host.whenPlayer realm name f players = Host.Returned (whenPlayer name f players).
Proof.
  intros H; unfold Host.whenPlayer, whenPlayer; rewrite (@slot_plain _ _ players H).
  now destruct (get name players).
Qed.

Lemma foldRun_plain {A B : Type} (step : A -> B -> Host.Outcome A)
  (f : A -> B -> A) (l : list B) :
  Forall (fun x => forall a, step a x = Host.Returned (f a x)) l ->
  forall a, Host.foldRun step l a = Host.Returned (fold_left f l a).
Proof.
  induction 1 as [|x l Hx _ IH]; intros a; simpl; [reflexivity|].
  now rewrite Hx.
Qed.

(** A loop over matches whose names are not names of the host. *)
Lemma foldRun_names {B : Type} (realm : Host.Realm) (name : B -> string)
  (step : Players -> B -> Host.Outcome Players) (f : Players -> B -> Players)
  (l : list B) :
  (forall x ps,
      Host.hostName realm (name x) = false ->
      step ps x = Host.Returned (f ps x)) ->
  forallb (fun n => negb (Host.hostName realm n)) (map name l) = true ->
  forall ps, Host.foldRun step l ps = Host.Returned (fold_left f l ps).
Proof.
  intros Hstep Hl; apply foldRun_plain.
  rewrite forallb_forall in Hl; apply Forall_forall; intros x Hx ps.
  apply Hstep.
  specialize (Hl (name x) (in_map name _ _ Hx)).
  now apply negb_true_iff in Hl.
Qed.

Lemma seatStep_plain (realm : Host.Realm) (m : Match) (players : Players) :
  Host.hostName realm (group 1 m) = false ->
  Host.seatStep realm players m = Host.Returned (seatStep players m).
Proof.
  intros H; unfold Host.seatStep; rewrite (@slot_plain _ _ players H).
  now destruct (get (group 1 m) players).
Qed.

Lemma recordBadBeat_plain (realm : Host.Realm) (winner : string)
  (winningHand losingHand : ShownHand) (players : Players) :
  Host.hostName realm winner = false ->
  Host.hostName realm (player losingHand) = false ->
  Host.recordBadBeat realm winner winningHand players losingHand
  = recordBadBeat winner winningHand players losingHand.
Proof.
  intros Hw Hl; unfold Host.recordBadBeat, recordBadBeat.
  destruct (isGenuineBadBeat losingHand winningHand); [|reflexivity].
  rewrite (@slot_plain _ _ players Hl); unfold whenPlayer at 2.
  destruct (get (player losingHand) players);
    rewrite (@slot_plain _ _ _ Hw); unfold whenPlayer;
    now destruct (get winner _).
Qed.

Lemma fold_left_agree {A B : Type} (f g : A -> B -> A) (l : list B) :
  Forall (fun x => forall a, f a x = g a x) l ->
  forall a, fold_left f l a = fold_left g l a.
Proof.
  induction 1 as [|x l Hx _ IH]; intros a; simpl; [reflexivity|].
  now rewrite Hx.
Qed.

Lemma forallb_names_app (realm : Host.Realm) (l1 l2 : list string) :
  forallb (fun n => negb (Host.hostName realm n)) (l1 ++ l2) = true ->
  forallb (fun n => negb (Host.hostName realm n)) l1 = true
  /\ forallb (fun n => negb (Host.hostName realm n)) l2 = true.
Proof. intros H; rewrite forallb_app in H; now apply andb_true_iff in H. Qed.

Lemma forallb_name (realm : Host.Realm) (l : list string) (n : string) :
  forallb (fun n => negb (Host.hostName realm n)) l = true ->
  In n l -> Host.hostName realm n = false.
Proof.
  intros H Hn; rewrite forallb_forall in H.
  now apply negb_true_iff, H.
Qed.

(** The detector on a hand whose shown names and pot collectors are not
    names of the host. *)
Lemma analyze_plain (realm : Host.Realm) (handText : string)
  (players : Players) :
  forallb (fun n => negb (Host.hostName realm n)) (shownNames handText) = true ->
  forallb (fun n => negb (Host.hostName realm n))
    (map (group 1) (matchAll collectedRegex handText)) = true ->
  Host.analyzeShowdownForBadBeats realm handText players
  = analyzeShowdownForBadBeats handText players.
Proof.
  intros Hshown Hcoll.
  unfold Host.analyzeShowdownForBadBeats, analyzeShowdownForBadBeats.
  destruct (negb (includes handText SHOW_DOWN)); [reflexivity|].
  unfold shownNames, showdownSection in Hshown.
  destruct (splitSecond SHOW_DOWN handText) as [section|]; [|reflexivity].
  destruct (Nat.ltb 1 _); [reflexivity|].
  destruct (existsb _ splitPotPhrases); [reflexivity|].
  destruct (matchAll collectedRegex handText) as [|wm wms] eqn:Ew;
    [reflexivity|].
  destruct (_ && _)%bool; [|reflexivity].
  destruct (find won _); [|reflexivity].
  destruct (Nat.ltb 0 _); [|reflexivity].
  apply fold_left_agree, Forall_forall; intros l Hl ps.
  apply recordBadBeat_plain.
  - apply (@forallb_name realm _ _ Hcoll); simpl; now left.
  - apply filter_In in Hl as [Hl _].
    apply in_map_iff in Hl as (m & <- & Hm); cbn [player shownHand].
    apply (@forallb_name realm _ _ Hshown), in_map, Hm.
Qed.

Lemma countActions_plain (realm : Host.Realm) (handText : string)
  (a : ActionType) (players : Players) :
  forallb (fun n => negb (Host.hostName realm n))
    (map (group 1) (matchAll (actionRegex (actionKeyword a)) handText)) = true ->
  Host.countActions realm handText players a
  = Host.Returned (countActions handText players a).
Proof.
  intros H; unfold Host.countActions, countActions.
  apply (foldRun_names realm (group 1)); [|exact H].
  intros m ps Hm; unfold Host.actionStep, actionStep.
  now apply whenPlayer_plain.
Qed.

(** [parseHand] on a hand that looks up no name of the host. *)
Lemma parseHand_plain (realm : Host.Realm) (handText : string)
  (players : Players) :
  forallb (fun n => negb (Host.hostName realm n)) (lookedUp handText) = true ->
  Host.parseHand realm handText players
  = Host.Returned (parseHand handText players).
Proof.
  unfold lookedUp; intros H.
  apply forallb_names_app in H as [Hseat H].
  apply forallb_names_app in H as [Hshown H].
  apply forallb_names_app in H as [Hact H].
  apply forallb_names_app in H as [Hvol H].
  apply forallb_names_app in H as [Hres Hcoll].
  unfold Host.parseHand, parseHand.
  rewrite (foldRun_names realm (group 1) (Host.seatStep realm) seatStep);
    [|intros m ps Hm; now apply seatStep_plain | exact Hseat].
  cbn [Host.andThen].
  rewrite (@analyze_plain realm handText _ Hshown Hcoll).
  rewrite (@foldRun_plain _ _ (Host.countActions realm handText)
             (countActions handText)).
  2:{ apply Forall_forall; intros a Ha ps; apply countActions_plain.
      rewrite forallb_forall in Hact |- *; intros n Hn.
      apply Hact, in_flat_map; exists a; split; assumption. }
  cbn [Host.andThen].
  rewrite (foldRun_names realm (fun n : string => n)
             (Host.voluntaryStep realm) voluntaryStep);
    [|intros n ps Hn; now apply whenPlayer_plain | now rewrite map_id].
  cbn [Host.andThen].
  assert (Hfive :
            (if includes handText SHOW_DOWN
             then Host.foldRun (Host.showdownStep realm)
                    (matchAll showdownResultRegex handText)
                    (fold_left voluntaryStep (voluntaryPlayers handText)
                       (fold_left (countActions handText) actionPatterns
                          (if includes handText SHOW_DOWN
                           then analyzeShowdownForBadBeats handText
                                  (fold_left seatStep
                                     (matchAll seatRegex handText) players)
                           else fold_left seatStep
                                  (matchAll seatRegex handText) players)))
             else Host.Returned
                    (fold_left voluntaryStep (voluntaryPlayers handText)
                       (fold_left (countActions handText) actionPatterns
                          (if includes handText SHOW_DOWN
                           then analyzeShowdownForBadBeats handText
                                  (fold_left seatStep
                                     (matchAll seatRegex handText) players)
                           else fold_left seatStep
                                  (matchAll seatRegex handText) players))))
            = Host.Returned
                (if includes handText SHOW_DOWN
                 then fold_left showdownStep
                        (matchAll showdownResultRegex handText)
                        (fold_left voluntaryStep (voluntaryPlayers handText)
                           (fold_left (countActions handText) actionPatterns
                              (analyzeShowdownForBadBeats handText
                                 (fold_left seatStep
                                    (matchAll seatRegex handText) players))))
                 else fold_left voluntaryStep (voluntaryPlayers handText)
                        (fold_left (countActions handText) actionPatterns
                           (fold_left seatStep
                              (matchAll seatRegex handText) players)))).
  { destruct (includes handText SHOW_DOWN); [|reflexivity].
    apply (foldRun_names realm (group 1)); [|exact Hres].
    intros m ps Hm; now apply whenPlayer_plain. }
  rewrite Hfive; cbn [Host.andThen].
  rewrite (foldRun_names realm (group 1) (Host.collectStep realm) collectStep);
    [|intros m ps Hm; now apply whenPlayer_plain | exact Hcoll].
  now destruct (includes handText SHOW_DOWN).
Qed.

(** ** The resolver *)

Lemma setPosition_plain (realm : Host.Realm) (name : string) (position : Z)
  (players : Players) :
  Host.hostName realm name = false ->
  Host.setPosition realm name position players
  = (Host.Returned
       (whenPlayer name (set_final_position (Some position)) players),
     realm).
Proof.
  intros H; unfold Host.setPosition, whenPlayer; rewrite (@slot_plain _ _ players H).
  now destruct (get name players).
Qed.

Lemma rankSecond_plain (realm : Host.Realm) (winner : string)
  (finalists : list string) (players : Players) :
  forallb (fun n => negb (Host.hostName realm n)) finalists = true ->
  Host.rankSecond realm winner finalists players
  = (Host.Returned
       match find (fun finalist =>
                     (negb (String.eqb finalist winner) &&
                      isSome (get finalist players))%bool) finalists with
       | Some finalist => modify finalist (set_final_position (Some 2)) players
       | None => players
       end,
     realm).
Proof.
  induction finalists as [|f fs IH]; intros H; simpl; [reflexivity|].
  simpl in H; apply andb_true_iff in H as [Hf Hfs].
  apply negb_true_iff in Hf.
  destruct (String.eqb f winner); cbn [negb andb]; [now apply IH|].
  rewrite (@slot_plain _ _ players Hf).
  destruct (get f players) as [p|] eqn:G; cbn [isSome isNone negb].
  - rewrite (@setPosition_plain _ _ 2 players Hf); unfold whenPlayer; now rewrite G.
  - now apply IH.
Qed.

Lemma rankFinalHand_plain (realm : Host.Realm) (finalHand : string)
  (players : Players) :
  forallb (fun n => negb (Host.hostName realm n))
    match finalCollector finalHand with
    | Some w => w :: finalists finalHand
    | None => finalists finalHand
    end = true ->
  Host.rankFinalHand realm finalHand players
  = (Host.Returned (rankFinalHand finalHand players), realm).
Proof.
  unfold Host.rankFinalHand, rankFinalHand, finalCollector, finalists.
  destruct (search finalWinnerRegex finalHand) as [wm|]; cbn [option_map];
    [|reflexivity].
  destruct (map (group 1) (matchAll finalistRegex finalHand)) as [|f fs] eqn:E;
    [reflexivity|].
  intros H.
  assert (Hw : Host.hostName realm (group 1 wm) = false)
    by (apply (@forallb_name realm _ _ H); now left).
  assert (Hfs : forallb (fun n => negb (Host.hostName realm n)) (f :: fs)
                = true)
    by (exact (proj2 (andb_prop _ _ H))).
  rewrite (@setPosition_plain _ _ 1 players Hw).
  now rewrite (@rankSecond_plain realm (group 1 wm) (f :: fs) _ Hfs).
Qed.

(** [determineFinalPositions] on a transcript whose last hand names no
    name of the host: it returns what the resolver of the player map
    returns and leaves the host as it was. *)
Lemma determineFinalPositions_plain (realm : Host.Realm) (players : Players)
  (text : string) :
  forallb (fun n => negb (Host.hostName realm n)) (finalNames text) = true ->
  Host.determineFinalPositions realm players text
  = (Host.Returned (determineFinalPositions players text), realm).
Proof.
  unfold finalNames, lastHand, Host.determineFinalPositions,
    determineFinalPositions, Host.rankLastHand, rankLastHand.
  destruct (handsOf text) as [|h hs]; [reflexivity|].
  intros H; now rewrite (@rankFinalHand_plain realm _ _ H).
Qed.

(** ** The whole parse *)

Lemma plain_hands (realm : Host.Realm) (text : string) :
  Host.plain realm text = true ->
  Forall (fun handText =>
            forallb (fun n => negb (Host.hostName realm n))
              (lookedUp handText) = true)
    (handsOf text)
  /\ forallb (fun n => negb (Host.hostName realm n)) (finalNames text) = true.
Proof.
  unfold Host.plain; intros H; apply andb_true_iff in H as [Hh Hf].
  split; [|exact Hf].
  rewrite forallb_forall in Hh; now apply Forall_forall.
Qed.

(** On a plain transcript [extractFromTxt] returns, gives what the parser of
    the player map gives, and leaves the host as it was. *)
Lemma extractFromTxt_plain (realm : Host.Realm) (text : string) :
  Host.plain realm text = true ->
  Host.extractFromTxt realm text
  = (Host.Returned (extractFromTxt text), realm).
Proof.
  intros H; apply plain_hands in H as [Hh Hf].
  unfold Host.extractFromTxt, extractFromTxt.
  rewrite (@foldRun_plain _ _ (fun ps handText => Host.parseHand realm handText ps)
             (fun ps handText => parseHand handText ps)).
  2:{ eapply Forall_impl; [|exact Hh].
      intros h Hp ps; now apply parseHand_plain. }
  now rewrite (@determineFinalPositions_plain realm _ text Hf).
Qed.

Lemma calculateAwards_within (maxArguments : nat) (playersData : Players) :
  (List.length (Host.allChips (withoutTournamentInfo playersData))
   <= maxArguments)%nat ->
  Host.calculateAwards maxArguments playersData
  = Host.Returned (calculateAwards playersData).
Proof.
  intros H; unfold Host.calculateAwards, calculateAwards.
  destruct (Object_keys (withoutTournamentInfo playersData)); [reflexivity|].
  apply Nat.ltb_ge in H; now rewrite H.
Qed.

(** On a plain transcript whose players fit an argument list, [parseTxt]
    takes no [catch] branch and leaves the host as it was. *)
Lemma parseTxt_plain (maxArguments : nat) (longDate : Clock -> string)
  (realm : Host.Realm) (now : Clock) (content : string) :
  Host.plain realm content = true ->
  (List.length
     (Host.allChips (withoutTournamentInfo (fst (extractFromTxt content))))
   <= maxArguments)%nat ->
  Host.parseTxt maxArguments longDate realm now content
  = (parseTxt now content, realm).
Proof.
  intros Hp Hlen; unfold Host.parseTxt, parseTxt.
  rewrite (@extractFromTxt_plain realm content Hp).
  destruct (extractFromTxt content) as [playersData tournamentInfo] eqn:E.
  cbn [fst snd] in *.
  now rewrite (@calculateAwards_within maxArguments playersData Hlen).
Qed.

(* ================================================================== *)
(** * Further properties of the parser *)

(** ** Invariants of the parse *)

Lemma parseDigits_nonneg (s : string) :
  forall acc, 0 <= acc -> 0 <= parseDigits acc s.
Proof.
  induction s as [|c s IH]; intros acc H; cbn [parseDigits]; [assumption|].
  destruct (isDigit c); [apply IH; lia | assumption].
Qed.

Lemma parseInt_nonneg (s : string) : 0 <= parseInt s.
Proof. apply parseDigits_nonneg; lia. Qed.

Lemma modify_app_absent (n : string) (f : PlayerStat -> PlayerStat)
  (ps qs : Players) :
  get n ps = None -> modify n f (ps ++ qs) = ps ++ modify n f qs.
Proof.
  induction ps as [|[k v] ps IH]; simpl; [reflexivity|].
  destruct (String.eqb k n); [discriminate|].
  intros H; now rewrite IH.
Qed.

(** Sequencing, read off the matcher. *)
Lemma rmatch_Seq_eq (r1 r2 : regex) (s : string) (c : Caps) (k : Cont) :
  rmatch (Seq r1 r2) s c k = rmatch r1 s c (fun s' c' => rmatch r2 s' c' k).
Proof. reflexivity. Qed.

Lemma rmatch_Seq (r1 r2 : regex) (s : string) (c : Caps) (k : Cont)
  (x : string * Caps) :
  rmatch (Seq r1 r2) s c k = Some x ->
  exists s1 c1,
    rmatch r2 s1 c1 k = Some x
    /\ (String.length s1 <= String.length s)%nat
    /\ forall i, unbound i r1 = true -> capture i c1 = capture i c.
Proof.
  rewrite rmatch_Seq_eq; intros H.
  apply rmatch_continues in H as (s1 & c1 & H & Hle & _ & Hc); eauto.
Qed.

Lemma rmatch_Seq_Lit (l : string) (r : regex) (s : string) (c : Caps)
  (k : Cont) (x : string * Caps) :
  rmatch (Seq (Lit l) r) s c k = Some x ->
  exists s0, dropPrefix l s = Some s0 /\ rmatch r s0 c k = Some x.
Proof.
  cbn [rmatch]; destruct (dropPrefix l s) as [s0|]; [eauto | discriminate].
Qed.

(** The name captured by a seat entry is not empty. *)
Lemma seat_name_nonempty (handText : string) (m : Match) :
  In m (matchAll seatRegex handText) -> group 1 m <> "".
Proof.
  intros H; apply scan_execAt in H as (s & H).
  unfold execAt in H.
  destruct (rmatch seatRegex s [] (fun s' c => Some (s', c)))
    as [[s' c]|] eqn:E; [|discriminate].
  injection H as <-; unfold group; simpl.
  change seatRegex
    with (Seq (Lit "Seat ")
            (Seq digits
               (Seq (Lit ": ")
                  (Seq (Group 1 playerName)
                     (seqs [Star true (Chr isSpace); Lit "("; Group 2 digits;
                            Lit " in chips)"]))))) in E.
  apply rmatch_Seq_Lit in E as (s0 & _ & E).
  apply rmatch_Seq in E as (s1 & c1 & E & _).
  apply rmatch_Seq_Lit in E as (s2 & _ & E).
  rewrite rmatch_Seq_eq in E.
  apply rmatch_group_nonempty in E as (s3 & c3 & E & Hne); [|reflexivity].
  apply rmatch_continues in E as (s4 & c4 & [= <- <-] & _ & _ & Hc).
  now rewrite (Hc 1%nat eq_refl).
Qed.

Section EveryPlayer.

Variable J : string -> PlayerStat -> Prop.

Lemma everyPlayer_modify (m : string) (f : PlayerStat -> PlayerStat)
  (players : Players) :
  (forall p, J m p -> J m (f p)) ->
  everyPlayer J players -> everyPlayer J (modify m f players).
Proof.
  intros Hf; unfold everyPlayer.
  induction players as [|[k v] rest IH]; simpl; [auto|].
  intros H; inversion H as [|? ? Hk Hrest]; subst.
  destruct (String.eqb k m) eqn:E.
  - apply String.eqb_eq in E; subst k.
    constructor; [apply Hf, Hk | assumption].
  - constructor; auto.
Qed.

Lemma everyPlayer_whenPlayer (m : string) (f : PlayerStat -> PlayerStat)
  (players : Players) :
  (forall p, J m p -> J m (f p)) ->
  everyPlayer J players -> everyPlayer J (whenPlayer m f players).
Proof. rewrite whenPlayer_modify; apply everyPlayer_modify. Qed.

Lemma everyPlayer_fold {X : Type} (P : X -> Prop)
  (step : Players -> X -> Players) :
  (forall ps x, P x -> everyPlayer J ps -> everyPlayer J (step ps x)) ->
  forall xs ps,
    Forall P xs -> everyPlayer J ps -> everyPlayer J (fold_left step xs ps).
Proof.
  intros Hstep xs; induction xs as [|x xs IH]; intros ps Hxs Hps; simpl.
  - assumption.
  - inversion Hxs; subst; apply IH; auto.
Qed.

Lemma everyPlayer_get (n : string) (p : PlayerStat) (players : Players) :
  everyPlayer J players -> get n players = Some p -> J n p.
Proof.
  intros H Hget; apply get_In in Hget.
  unfold everyPlayer in H; rewrite Forall_forall in H.
  exact (H _ Hget).
Qed.

End EveryPlayer.

Lemma Forall_True {X : Type} (xs : list X) : Forall (fun _ => True) xs.
Proof. induction xs; constructor; auto. Qed.

(** A property of the player records that every write of the hand loop
    keeps, and that the first seat entry of a player establishes, holds of
    every player of the parse. *)
Section ParseInvariant.

Variable J : string -> PlayerStat -> Prop.

Hypothesis J_new :
  forall n chips,
    n <> "" -> 0 <= chips -> J n (seatUpdate chips (newPlayer chips)).
Hypothesis J_seat :
  forall n chips p, 0 <= chips -> J n p -> J n (seatUpdate chips p).
Hypothesis J_bad_beat :
  forall n b p,
    recordedBadBeat n b -> J n p -> J n (set_bad_beats (bad_beats p ++ [b]) p).
Hypothesis J_suckout :
  forall n s p,
    recordedSuckout n s -> J n p -> J n (set_suckouts (suckouts p ++ [s]) p).
Hypothesis J_action : forall n a p, J n p -> J n (countAction a p).
Hypothesis J_voluntary :
  forall n p,
    J n p ->
    J n (set_hands_voluntarily_played (hands_voluntarily_played p + 1) p).
Hypothesis J_showdown :
  forall n result p, J n p -> J n (showdownUpdate result p).
Hypothesis J_collect :
  forall n amount p,
    0 <= amount -> J n p -> J n (set_total_won (total_won p + amount) p).

Lemma seatStep_keeps (handText : string) (players : Players) (m : Match) :
  In m (matchAll seatRegex handText) ->
  everyPlayer J players -> everyPlayer J (seatStep players m).
Proof.
  intros Hm H; unfold seatStep.
  change (fun p : PlayerStat =>
            let p1 := set_hands_played (hands_played p + 1) p in
            set_max_chips (Z.max (max_chips p1) (parseInt (group 2 m))) p1)
    with (seatUpdate (parseInt (group 2 m))).
  destruct (get (group 1 m) players) as [p0|] eqn:G.
  - apply everyPlayer_modify; [|assumption].
    intros p; apply J_seat, parseInt_nonneg.
  - rewrite modify_app_absent by assumption; simpl.
    rewrite String.eqb_refl.
    apply Forall_app; split; [assumption|].
    constructor; [|constructor]; cbn [fst snd].
    apply J_new; [now apply seat_name_nonempty with handText
                 | apply parseInt_nonneg].
Qed.

Lemma recordBadBeat_keeps (winner : string) (l wh : ShownHand)
  (players : Players) :
  winner <> "" -> player wh = winner -> player l <> winner ->
  classified l -> classified wh ->
  everyPlayer J players ->
  everyPlayer J (recordBadBeat winner wh players l).
Proof.
  intros Hw Hwh Hl Cl Cwh H; unfold recordBadBeat.
  destruct (isGenuineBadBeat l wh) eqn:G; [|assumption].
  apply everyPlayer_whenPlayer.
  - intros p; apply J_suckout.
    exists l, wh; repeat split; auto.
  - apply everyPlayer_whenPlayer; [|assumption].
    intros p; apply J_bad_beat.
    exists l, wh; rewrite Hwh; repeat split; auto.
Qed.

Lemma analyze_keeps (handText : string) (players : Players) :
  everyPlayer J players ->
  everyPlayer J (analyzeShowdownForBadBeats handText players).
Proof.
  intros H; unfold analyzeShowdownForBadBeats.
  destruct (negb (includes handText SHOW_DOWN)); [assumption|].
  destruct (splitSecond SHOW_DOWN handText) as [section|]; [|assumption].
  destruct (Nat.ltb 1 _); [assumption|].
  destruct (existsb _ splitPotPhrases); [assumption|].
  destruct (matchAll collectedRegex handText) as [|wm wms]; [assumption|].
  set (winner := group 1 wm).
  destruct (Nat.leb 2 _ && negb (String.eqb winner "") && _)%bool eqn:C;
    [|assumption].
  apply andb_true_iff in C as [C _]; apply andb_true_iff in C as [_ C].
  apply negb_true_iff, String.eqb_neq in C.
  destruct (find won _) as [wh|] eqn:Hwh; [|assumption].
  destruct (Nat.ltb 0 _); [|assumption].
  apply find_some in Hwh as [Hin Hwon].
  apply in_map_iff in Hin as (m0 & <- & _).
  cbn [won shownHand] in Hwon; apply String.eqb_eq in Hwon.
  apply everyPlayer_fold
    with (P := fun l => player l <> winner /\ classified l); [| |assumption].
  - intros ps l [Hl Cl]; apply recordBadBeat_keeps; auto; reflexivity.
  - apply Forall_forall; intros l Hl.
    apply filter_In in Hl as [Hl Hlost].
    apply in_map_iff in Hl as (m1 & <- & _).
    cbn [won shownHand player] in *; split; [|reflexivity].
    apply negb_true_iff in Hlost; now apply String.eqb_neq.
Qed.

Lemma parseHand_keeps (handText : string) (players : Players) :
  everyPlayer J players -> everyPlayer J (parseHand handText players).
Proof.
  intros H; unfold parseHand.
  apply everyPlayer_fold with (P := fun _ => True);
    [ intros ps m _; apply everyPlayer_whenPlayer;
      intros p; apply J_collect, parseInt_nonneg
    | apply Forall_True |].
  assert (H4 : everyPlayer J
                 (fold_left voluntaryStep (voluntaryPlayers handText)
                    (fold_left (countActions handText) actionPatterns
                       (if includes handText SHOW_DOWN
                        then analyzeShowdownForBadBeats handText
                               (fold_left seatStep
                                  (matchAll seatRegex handText) players)
                        else fold_left seatStep
                               (matchAll seatRegex handText) players)))).
  { apply everyPlayer_fold with (P := fun _ => True);
      [ intros ps m _; apply everyPlayer_whenPlayer; intros p; apply J_voluntary
      | apply Forall_True |].
    apply everyPlayer_fold with (P := fun _ => True);
      [ intros ps a _; unfold countActions;
        apply everyPlayer_fold with (P := fun _ => True);
        [ intros ps' m _; apply everyPlayer_whenPlayer; intros p; apply J_action
        | apply Forall_True ]
      | apply Forall_True |].
    assert (H1 : everyPlayer J
                   (fold_left seatStep (matchAll seatRegex handText) players)).
    { apply everyPlayer_fold
        with (P := fun m => In m (matchAll seatRegex handText));
        [ intros ps m Hm; now apply seatStep_keeps with handText
        | now apply Forall_forall | assumption ]. }
    destruct (includes handText SHOW_DOWN); [now apply analyze_keeps|assumption]. }
  destruct (includes handText SHOW_DOWN); [|assumption].
  apply everyPlayer_fold with (P := fun _ => True);
    [ intros ps m _; apply everyPlayer_whenPlayer; intros p;
      exact (@J_showdown (group 1 m) (group 2 m) p)
    | apply Forall_True | assumption ].
Qed.

Lemma parsedPlayers_keep (text : string) : everyPlayer J (parsedPlayers text).
Proof.
  unfold parsedPlayers.
  apply everyPlayer_fold with (P := fun _ => True);
    [ intros ps h _; apply parseHand_keeps | apply Forall_True | constructor ].
Qed.

End ParseInvariant.

(** The final-position resolver: what it establishes from [J0]. *)
Section ResolverInvariant.

Variables J0 J : string -> PlayerStat -> Prop.

Hypothesis J_clear :
  forall n p,
    J0 n p -> n <> TOURNAMENT_INFO -> J n (set_final_position None p).
Hypothesis J_info : forall p, J0 TOURNAMENT_INFO p -> J TOURNAMENT_INFO p.
Hypothesis J_rank :
  forall n k p,
    In k [1; 2; 3] -> J n p -> J n (set_final_position (Some k) p).

Lemma clearPosition_establishes (players : Players) :
  everyPlayer J0 players -> everyPlayer J (map clearPosition players).
Proof.
  unfold everyPlayer; rewrite !Forall_forall; intros H e He.
  apply in_map_iff in He as ([n p] & <- & He).
  specialize (H _ He); cbn [fst snd] in H.
  unfold clearPosition, notTournamentInfo; cbn [fst snd].
  destruct (String.eqb n TOURNAMENT_INFO) eqn:E; cbn [negb fst snd].
  - apply String.eqb_eq in E; subst n; auto.
  - apply String.eqb_neq in E; auto.
Qed.

Lemma rankFinalHand_keeps (finalHand : string) (players : Players) :
  everyPlayer J players -> everyPlayer J (rankFinalHand finalHand players).
Proof.
  intros H; unfold rankFinalHand.
  destruct (search finalWinnerRegex finalHand); [|assumption].
  destruct (map (group 1) (matchAll finalistRegex finalHand)); [assumption|].
  assert (H1 : everyPlayer J
                 (whenPlayer (group 1 m) (set_final_position (Some 1)) players)).
  { apply everyPlayer_whenPlayer; [|assumption].
    intros p; apply J_rank; simpl; auto. }
  destruct (find _ _); [|assumption].
  apply everyPlayer_modify; [|assumption].
  intros p; apply J_rank; simpl; auto.
Qed.

Lemma rankThird_keeps (players : Players) :
  everyPlayer J players -> everyPlayer J (rankThird players).
Proof.
  intros H; unfold rankThird.
  destruct (sortBy _ _); [assumption|].
  apply everyPlayer_modify; [|assumption].
  intros q; apply J_rank; simpl; auto.
Qed.

Lemma determineFinalPositions_establishes (players : Players) (text : string) :
  everyPlayer J0 players ->
  everyPlayer J (determineFinalPositions players text).
Proof.
  intros H; unfold determineFinalPositions, rankLastHand.
  apply rankThird_keeps.
  destruct (handsOf text);
    [|apply rankFinalHand_keeps]; now apply clearPosition_establishes.
Qed.

End ResolverInvariant.

(** An invariant of the hand loop that the resolver's writes keep holds of
    every player of [extractFromTxt]. *)
Lemma extractFromTxt_keeps (J : string -> PlayerStat -> Prop) :
  (forall n chips,
      n <> "" -> 0 <= chips -> J n (seatUpdate chips (newPlayer chips))) ->
  (forall n chips p, 0 <= chips -> J n p -> J n (seatUpdate chips p)) ->
  (forall n b p,
      recordedBadBeat n b -> J n p ->
      J n (set_bad_beats (bad_beats p ++ [b]) p)) ->
  (forall n s p,
      recordedSuckout n s -> J n p ->
      J n (set_suckouts (suckouts p ++ [s]) p)) ->
  (forall n a p, J n p -> J n (countAction a p)) ->
  (forall n p,
      J n p ->
      J n (set_hands_voluntarily_played (hands_voluntarily_played p + 1) p)) ->
  (forall n result p, J n p -> J n (showdownUpdate result p)) ->
  (forall n amount p,
      0 <= amount -> J n p -> J n (set_total_won (total_won p + amount) p)) ->
  (forall n v p, J n p -> J n (set_final_position v p)) ->
  forall text, everyPlayer J (fst (extractFromTxt text)).
Proof.
  intros H1 H2 H3 H4 H5 H6 H7 H8 H9 text.
  unfold extractFromTxt; cbn [fst].
  apply determineFinalPositions_establishes with (J0 := J); auto.
  now apply parsedPlayers_keep.
Qed.

(** Discharges "this write keeps the invariant" for an invariant over the
    counters. *)
Ltac keeps :=
  intros;
  repeat match goal with
         | a : ActionType |- _ => destruct a
         | |- context [showdownUpdate ?r _] =>
             unfold showdownUpdate; destruct (String.eqb r "won")
         end;
  cbn in *; try lia.

(** X1. In the result of [extractFromTxt], every player's
    [aggressive_actions] is the sum of the player's [raises] and [bets],
    [passive_actions] is the sum of [calls] and [checks] (folds count for
    neither), and [total_bet], which no statement writes, is 0. *)
Theorem parse_action_tallies (text : string) :
  everyPlayer
    (fun _ p =>
       aggressive_actions p = raises p + bets p
       /\ passive_actions p = calls p + checks p
       /\ total_bet p = 0)
    (fst (extractFromTxt text)).
Proof. apply extractFromTxt_keeps; keeps. Qed.

(** X2. In the result of [extractFromTxt], every player has been dealt at
    least one hand ([hands_played >= 1]: a player is registered by a seat
    entry, which also counts the hand), and no counter, chip count or
    winnings total is negative. *)
Theorem parse_counters_in_range (text : string) :
  everyPlayer
    (fun _ p =>
       1 <= hands_played p
       /\ 0 <= raises p /\ 0 <= calls p /\ 0 <= folds p /\ 0 <= bets p
       /\ 0 <= checks p /\ 0 <= showdowns p /\ 0 <= showdown_wins p
       /\ 0 <= hands_voluntarily_played p
       /\ 0 <= total_won p /\ 0 <= max_chips p)
    (fst (extractFromTxt text)).
Proof. apply extractFromTxt_keeps; keeps. Qed.

(** X3. In the result of [extractFromTxt], no player has won more showdowns
    than the player has been counted in: [showdown_wins <= showdowns]. *)
Theorem parse_showdown_wins_bounded (text : string) :
  everyPlayer (fun _ p => showdown_wins p <= showdowns p)
    (fst (extractFromTxt text)).
Proof. apply extractFromTxt_keeps; keeps. Qed.

(* ------------------------------------------------------------------ *)
(** ** What the detector leaves in the records *)

(** Discharges "this write leaves the list alone". *)
Ltac untouched :=
  intros;
  repeat match goal with
         | a : ActionType |- _ => destruct a
         | |- context [showdownUpdate ?r _] =>
             unfold showdownUpdate; destruct (String.eqb r "won")
         end;
  cbn in *; try assumption.

Lemma parse_bad_beats_recorded (text : string) :
  everyPlayer (fun n p => Forall (recordedBadBeat n) (bad_beats p))
    (fst (extractFromTxt text)).
Proof.
  apply extractFromTxt_keeps; untouched.
  - constructor.
  - apply Forall_app; split; [assumption|]; now constructor.
Qed.

Lemma parse_suckouts_recorded (text : string) :
  everyPlayer (fun n p => Forall (recordedSuckout n) (suckouts p))
    (fst (extractFromTxt text)).
Proof.
  apply extractFromTxt_keeps; untouched.
  - constructor.
  - apply Forall_app; split; [assumption|]; now constructor.
Qed.

Lemma In_registered (n : string) (p : PlayerStat) (players : Players) :
  In (n, p) players -> registered n players = true.
Proof.
  unfold registered; induction players as [|[k v] rest IH]; simpl; [tauto|].
  intros [[= -> ->]|H]; [now rewrite String.eqb_refl|].
  destruct (String.eqb k n); [reflexivity | auto].
Qed.

(** The entries the award engine and the bad-beat log read. *)
Lemma In_withoutTournamentInfo (e : string * PlayerStat) (pd : Players) :
  In e (Object_entries (withoutTournamentInfo pd))
  <-> In e pd /\ fst e <> TOURNAMENT_INFO.
Proof.
  unfold withoutTournamentInfo.
  rewrite In_Object_entries, filter_In, In_Object_entries.
  unfold notTournamentInfo; rewrite negb_true_iff, String.eqb_neq; tauto.
Qed.

(** X4. Every entry of the bad-beat log of a summary names as victim a
    player of the parse other than the winner; the victim's hand is
    three of a kind or better (strength at least 400), or two pair of aces,
    kings or queens (strength 300) that is weaker than the winner's hand;
    and the entry's description is composed from its victim, its winner and
    the short labels of the two hands. *)
Theorem bad_beat_log_sound (now : Clock) (text : string) :
  Forall
    (fun e =>
       registered (h_victim e) (fst (extractFromTxt text)) = true
       /\ h_victim e <> TOURNAMENT_INFO
       /\ h_winner e <> ""
       /\ h_winner e <> h_victim e
       /\ (400 <= evaluateMadeHandStrength (h_victim_hand e)
           \/ (300 <= evaluateMadeHandStrength (h_victim_hand e)
               /\ evaluateMadeHandStrength (h_victim_hand e)
                  < evaluateMadeHandStrength (h_winner_hand e)))
       /\ h_description e
          = (h_victim e ++ " had "
             ++ getSimpleHandDescription (h_victim_hand e)
             ++ ", got cracked by " ++ h_winner e ++ "'s "
             ++ getSimpleHandDescription (h_winner_hand e))%string)
    (preparation_h_club (parseTxt now text)).
Proof.
  unfold parseTxt; cbn [preparation_h_club]; unfold extractPreparationHClub.
  apply Forall_forall; intros e He.
  apply in_flat_map in He as ([n p] & Hin & He).
  apply In_withoutTournamentInfo in Hin as [Hin Hti]; cbn [fst snd] in *.
  apply in_map_iff in He as (b & <- & Hb); cbn.
  pose proof (parse_bad_beats_recorded text) as Hrec.
  unfold everyPlayer in Hrec; rewrite Forall_forall in Hrec.
  specialize (Hrec _ Hin); cbn [fst snd] in Hrec.
  rewrite Forall_forall in Hrec.
  destruct (Hrec _ Hb) as (l & wh & -> & Hl & Hwh & Hne & Cl & Cwh & G).
  apply isGenuineBadBeat_iff in G; unfold classified in Cl, Cwh.
  rewrite Cl, Cwh in G; cbn; subst n.
  repeat split; auto; now apply In_registered with p.
Qed.

(* ------------------------------------------------------------------ *)
(** ** The YOLO award *)

Lemma label_in (d : string) : In (getSimpleHandDescription d) handLabels.
Proof.
  unfold getSimpleHandDescription; cbv zeta; split_ifs;
    unfold handLabels; simpl; tauto.
Qed.

(** The description of a suckout mentions none of the words the YOLO block
    looks for. *)
Lemma suckout_description_clean (l wh : ShownHand) :
  mentionsBadHand (so_description (suckoutInfo l wh)) = false.
Proof.
  assert (H : forallb
                (fun a =>
                   forallb
                     (fun b =>
                        negb (mentionsBadHand
                                ("Sucked out with " ++ a ++ " vs " ++ b)%string))
                     handLabels)
                handLabels = true) by (vm_compute; reflexivity).
  rewrite forallb_forall in H.
  specialize (H _ (label_in (description wh))); cbv beta in H.
  rewrite forallb_forall in H.
  specialize (H _ (label_in (description l))); cbv beta in H.
  now apply negb_true_iff in H.
Qed.

Lemma yoloAward_skipped (players : Players) (st : AwardState) :
  (forall e s,
      In e (Object_entries players) -> In s (suckouts (snd e)) ->
      mentionsBadHand (so_description s) = false) ->
  yoloAward players st = st.
Proof.
  intros H; unfold yoloAward.
  destruct (yoloCandidates players st) as [|[w s] rest] eqn:E; [reflexivity|].
  assert (Hin : In (w, s) (yoloCandidates players st))
    by (rewrite E; now left).
  unfold yoloCandidates in Hin.
  apply in_flat_map in Hin as (e & He & Hin).
  destruct (has (awardedPlayers st) (fst e)); [contradiction|].
  apply in_map_iff in Hin as (s' & [= _ ->] & Hs).
  apply filter_In in Hs as [Hs Hbad].
  change (mentionsBadHand (so_description s) = true) in Hbad.
  rewrite (H e s He Hs) in Hbad; discriminate.
Qed.

(** X5. No summary carries the YOLO Award: the award is given for a suckout
    whose description contains "7", "2", "offsuit" or "unsuited", and the
    descriptions the detector writes are made of the two short hand labels,
    none of which contains these words; the sample awards of an empty parse
    do not include it either. *)
Theorem yolo_award_never_issued (now : Clock) (text : string) :
  winnerOf YoloAward (summary_awards (parseTxt now text)) = None.
Proof.
  unfold parseTxt; cbn [summary_awards]; unfold calculateAwards.
  destruct (Object_keys _) as [|k ks]; [reflexivity|].
  unfold winnerOf, runAwards; cbv zeta; peel.
  rewrite yoloAward_skipped; [peel; reflexivity|].
  intros [n p] so He Hs.
  apply In_withoutTournamentInfo in He as [He _]; cbn [snd] in Hs.
  pose proof (parse_suckouts_recorded text) as Hrec.
  unfold everyPlayer in Hrec; rewrite Forall_forall in Hrec.
  specialize (Hrec _ He); cbn [fst snd] in Hrec.
  rewrite Forall_forall in Hrec.
  destruct (Hrec _ Hs) as (l & wh & -> & _).
  apply suckout_description_clean.
Qed.

(* ------------------------------------------------------------------ *)
(** ** The players of a parse *)

Lemma keys_whenPlayer (m : string) (f : PlayerStat -> PlayerStat)
  (players : Players) :
  map fst (whenPlayer m f players) = map fst players.
Proof. rewrite whenPlayer_modify; apply keys_modify. Qed.

Lemma keys_fold {X : Type} (step : Players -> X -> Players) :
  (forall ps x, map fst (step ps x) = map fst ps) ->
  forall xs ps, map fst (fold_left step xs ps) = map fst ps.
Proof.
  intros Hstep xs; induction xs as [|x xs IH]; intros ps; simpl.
  - reflexivity.
  - now rewrite IH, Hstep.
Qed.

Lemma registered_keys (n : string) (players : Players) :
  registered n players = existsb (String.eqb n) (map fst players).
Proof.
  unfold registered; induction players as [|[k v] rest IH]; simpl;
    [reflexivity|].
  rewrite (String.eqb_sym n k); now destruct (String.eqb k n).
Qed.

(** The seat loop registers a name the way a set adds an element. *)
Lemma keys_seatStep (players : Players) (m : Match) :
  map fst (seatStep players m) = setAdd (map fst players) (group 1 m).
Proof.
  unfold seatStep, setAdd; rewrite keys_modify, <- registered_keys.
  unfold registered.
  destruct (get (group 1 m) players); [reflexivity|]; cbn [isSome isNone negb].
  now rewrite map_app.
Qed.

Lemma keys_seats (ms : list Match) (players : Players) :
  map fst (fold_left seatStep ms players)
  = fold_left setAdd (map (group 1) ms) (map fst players).
Proof.
  revert players; induction ms as [|m ms IH]; intros players; simpl.
  - reflexivity.
  - now rewrite IH, keys_seatStep.
Qed.

Lemma keys_analyze (handText : string) (players : Players) :
  map fst (analyzeShowdownForBadBeats handText players) = map fst players.
Proof.
  unfold analyzeShowdownForBadBeats.
  repeat match goal with
         | |- map fst (if ?c then _ else _) = _ => destruct c
         | |- map fst (match ?c with _ => _ end) = _ => destruct c
         end; try reflexivity.
  apply keys_fold; intros ps l; unfold recordBadBeat.
  destruct (isGenuineBadBeat _ _); [|reflexivity].
  now rewrite !keys_whenPlayer.
Qed.

(** After the seat loop, [parseHand] registers nobody. *)
Lemma keys_parseHand (handText : string) (players : Players) :
  map fst (parseHand handText players)
  = fold_left setAdd (seatedNames handText) (map fst players).
Proof.
  unfold seatedNames; rewrite <- keys_seats; unfold parseHand.
  rewrite (keys_fold collectStep)
    by (intros; unfold collectStep; apply keys_whenPlayer).
  assert (H : forall ps,
             map fst
               (fold_left voluntaryStep (voluntaryPlayers handText)
                  (fold_left (countActions handText) actionPatterns ps))
             = map fst ps).
  { intros ps.
    rewrite (keys_fold voluntaryStep)
      by (intros; unfold voluntaryStep; apply keys_whenPlayer).
    apply keys_fold; intros; unfold countActions.
    apply keys_fold; intros; unfold actionStep; apply keys_whenPlayer. }
  destruct (includes handText SHOW_DOWN); [|apply H].
  rewrite (keys_fold showdownStep)
    by (intros; unfold showdownStep; apply keys_whenPlayer).
  rewrite H; apply keys_analyze.
Qed.

Lemma fold_setAdd_app (xs ys s : list string) :
  fold_left setAdd (xs ++ ys) s = fold_left setAdd ys (fold_left setAdd xs s).
Proof. apply fold_left_app. Qed.

Lemma keys_hands (hs : list string) (ps : Players) :
  map fst (fold_left (fun ps handText => parseHand handText ps) hs ps)
  = fold_left setAdd (map (group 1) (flat_map (matchAll seatRegex) hs))
      (map fst ps).
Proof.
  revert ps; induction hs as [|h hs IH]; intros ps; simpl; [reflexivity|].
  rewrite IH, keys_parseHand, map_app, fold_left_app; reflexivity.
Qed.

Lemma keys_parsedPlayers (text : string) :
  map fst (parsedPlayers text) = distinctSeated text.
Proof. apply keys_hands. Qed.

Lemma keys_rankThird (players : Players) :
  map fst (rankThird players) = map fst players.
Proof.
  unfold rankThird; destruct (sortBy _ _); [reflexivity|apply keys_modify].
Qed.

Lemma keys_determineFinalPositions (players : Players) (text : string) :
  map fst (determineFinalPositions players text) = map fst players.
Proof.
  unfold determineFinalPositions.
  now rewrite keys_rankThird, keys_rankLastHand, keys_clearPosition.
Qed.

Lemma fold_setAdd_NoDup (xs s : list string) :
  NoDup s -> NoDup (fold_left setAdd xs s).
Proof.
  revert s; induction xs as [|x xs IH]; intros s H; simpl; [assumption|].
  apply IH, setAdd_NoDup, H.
Qed.


Lemma keys_extractFromTxt (text : string) :
  map fst (fst (extractFromTxt text)) = distinctSeated text.
Proof.
  unfold extractFromTxt; cbn [fst].
  rewrite keys_determineFinalPositions; apply keys_parsedPlayers.
Qed.

Lemma NoDup_extractFromTxt (text : string) :
  NoDup (map fst (fst (extractFromTxt text))).
Proof.
  rewrite keys_extractFromTxt; apply fold_setAdd_NoDup; constructor.
Qed.


Lemma length_insertIndexed {A : Type} (x : Z * (string * A))
  (l : list (Z * (string * A))) :
  List.length (insertIndexed x l) = S (List.length l).
Proof.
  induction l as [|y l IH]; simpl; [reflexivity|].
  destruct (fst x <=? fst y); simpl; [reflexivity | now rewrite IH].
Qed.

(** [Object.entries] enumerates each entry once. *)
Lemma length_Object_entries {A : Type} (o : list (string * A)) :
  List.length (Object_entries o) = List.length o.
Proof.
  unfold Object_entries; rewrite length_app, length_map.
  induction o as [|[k v] o IH]; simpl; [reflexivity|].
  unfold isNamedKey at 1; cbn [fst].
  destruct (arrayIndex k); simpl; rewrite ?length_insertIndexed; lia.
Qed.






(** On the own properties of the player map: [total_players] is the number
    of distinct names with a seat entry; the fallback to the filtered count
    never changes it. *)
Lemma total_players_counted (now : Clock) (text : string) :
  total_players (parseTxt now text)
  = Z.of_nat (List.length (distinctSeated text)).
Proof.
  rewrite <- keys_extractFromTxt, length_map.
  unfold parseTxt; cbn [total_players].
  set (pd := fst (extractFromTxt text)).
  assert (Hcount : ti_player_count (snd (extractFromTxt text))
                   = Z.of_nat (List.length pd)).
  { unfold pd, extractFromTxt; cbn [fst snd ti_player_count].
    unfold Object_keys; now rewrite length_map, length_Object_entries. }
  rewrite Hcount; unfold orElse.
  destruct (Z.eqb_spec (Z.of_nat (List.length pd)) 0) as [E|E]; [|reflexivity].
  destruct pd; [reflexivity | simpl in E; lia].
Qed.

(** The chip counts spread into [Math.min] are at most as many as the
    names with a seat entry. *)
Lemma allChips_within (text : string) :
  (List.length
     (Host.allChips (withoutTournamentInfo (fst (extractFromTxt text))))
   <= List.length (distinctSeated text))%nat.
Proof.
  rewrite <- keys_extractFromTxt, length_map.
  set (pd := fst (extractFromTxt text)).
  unfold Host.allChips, withoutTournamentInfo.
  eapply Nat.le_trans; [apply filter_length_le|].
  rewrite length_map, length_Object_entries.
  eapply Nat.le_trans; [apply filter_length_le|].
  now rewrite length_Object_entries.
Qed.

(** On a plain transcript that seats no more names than the host accepts
    arguments, [parseTxt] takes no [catch] branch. *)
Lemma parseTxt_seated (maxArguments : nat) (longDate : Clock -> string)
  (realm : Host.Realm) (now : Clock) (text : string) :
  Host.plain realm text = true ->
  (List.length (distinctSeated text) <= maxArguments)%nat ->
  Host.parseTxt maxArguments longDate realm now text
  = (parseTxt now text, realm).
Proof.
  intros Hplain Hlen; apply parseTxt_plain; [exact Hplain|].
  eapply Nat.le_trans; [apply allChips_within | exact Hlen].
Qed.

(** X7. From a host in which no name the parse looks up is a truthy
    property of [Object.prototype], the [total_players] of the summary of
    an ASCII transcript that seats no more names than the host accepts
    arguments is the number of distinct names with a seat entry in its
    hands. *)
Theorem parse_total_players (maxArguments : nat) (longDate : Clock -> string)
  (realm : Host.Realm) (now : Clock) (text : string) :
  Host.plain realm text = true ->
  isAscii text = true ->
  (List.length (distinctSeated text) <= maxArguments)%nat ->
  total_players (fst (Host.parseTxt maxArguments longDate realm now text))
  = Z.of_nat (List.length (distinctSeated text)).
Proof.
  intros Hplain _ Hlen.
  rewrite (@parseTxt_seated maxArguments longDate realm now text Hplain Hlen).
  apply total_players_counted.
Qed.

(** X7 at [twoHandTranscript], for a host that accepts a thousand
    arguments. *)
Lemma parse_total_players_witness :
  total_players
    (fst (Host.parseTxt 1000 (fun _ => "March 1, 2025 at 8:00 PM")
            Host.pristine firstOfMarch twoHandTranscript))
  = 3.
Proof.
  apply (@parse_total_players 1000 (fun _ => "March 1, 2025 at 8:00 PM")
           Host.pristine firstOfMarch twoHandTranscript eq_refl eq_refl).
  replace (List.length (distinctSeated twoHandTranscript)) with 3%nat
    by (vm_compute; reflexivity).
  lia.
Defined.











(* ------------------------------------------------------------------ *)
(** ** Final positions *)

Lemma position_ranked (players : Players) (text n : string)
  (p : PlayerStat) :
  get n (determineFinalPositions players text) = Some p ->
  n <> TOURNAMENT_INFO ->
  In (final_position p) rankedPositions.
Proof.
  intros Hget.
  apply (everyPlayer_get
           (J := fun n p =>
                   n <> TOURNAMENT_INFO ->
                   In (final_position p) rankedPositions)) with (n := n) (p := p)
           (players := determineFinalPositions players text); [|exact Hget].
  apply determineFinalPositions_establishes with (J0 := fun _ _ => True).
  - intros m q _ _ _; cbn; auto.
  - intros q _ H; now contradiction H.
  - intros m k q Hk _ _; cbn.
    destruct Hk as [<-|[<-|[<-|[]]]]; auto.
  - apply Forall_True.
Qed.

(** X10. Whatever the player map and the transcript, after
    [determineFinalPositions] every player other than [tournament_info] is
    unranked or holds position 1, 2 or 3: positions stored before are
    erased, and nobody is ranked fourth or lower. *)
Theorem positions_at_most_third (players : Players) (text : string) :
  everyPlayer
    (fun n p => n <> TOURNAMENT_INFO -> In (final_position p) rankedPositions)
    (determineFinalPositions players text).
Proof.
  apply determineFinalPositions_establishes with (J0 := fun _ _ => True).
  - intros n p _ _ _; cbn; auto.
  - intros p _ H; now contradiction H.
  - intros n k p Hk _ _; cbn.
    destruct Hk as [<-|[<-|[<-|[]]]]; auto.
  - apply Forall_True.
Qed.

Lemma clearPosition_set (n : string) (v : option Z) (p : PlayerStat) :
  n <> TOURNAMENT_INFO ->
  clearPosition (n, set_final_position v p) = clearPosition (n, p).
Proof.
  intros H; unfold clearPosition, notTournamentInfo; cbn [fst snd].
  apply String.eqb_neq in H; rewrite H; reflexivity.
Qed.

(** Clearing the positions forgets a position written before, except in the
    entry of [tournament_info]. *)
Lemma clear_modify (n : string) (v : option Z) (players : Players) :
  registered TOURNAMENT_INFO players = false ->
  map clearPosition (modify n (set_final_position v) players)
  = map clearPosition players.
Proof.
  intros Hti.
  destruct (String.eqb n TOURNAMENT_INFO) eqn:E.
  - apply String.eqb_eq in E; subst n.
    rewrite modify_absent; [reflexivity|].
    unfold registered in Hti; now destruct (get TOURNAMENT_INFO players).
  - apply String.eqb_neq in E; clear Hti.
    induction players as [|[k q] rest IH]; simpl; [reflexivity|].
    destruct (String.eqb k n) eqn:Ek; simpl.
    + apply String.eqb_eq in Ek; subst k; now rewrite clearPosition_set.
    + now rewrite IH.
Qed.

Lemma clearPosition_idempotent (players : Players) :
  map clearPosition (map clearPosition players) = map clearPosition players.
Proof.
  rewrite map_map; apply map_ext; intros [n p].
  unfold clearPosition, notTournamentInfo; cbn [fst snd].
  destruct (String.eqb n TOURNAMENT_INFO) eqn:E; cbn [negb fst snd];
    rewrite E; reflexivity.
Qed.

Lemma clear_determineFinalPositions (players : Players) (text : string) :
  registered TOURNAMENT_INFO players = false ->
  map clearPosition (determineFinalPositions players text)
  = map clearPosition players.
Proof.
  intros Hti; unfold determineFinalPositions.
  set (players0 := map clearPosition players).
  assert (H0 : registered TOURNAMENT_INFO players0 = false)
    by (unfold players0; now rewrite registered_clearPosition).
  assert (H1 : map clearPosition (rankLastHand text players0)
               = map clearPosition players0
               /\ registered TOURNAMENT_INFO (rankLastHand text players0)
                  = false).
  { split; [|now rewrite registered_rankLastHand].
    rewrite rankLastHand_lastHand.
    destruct (lastHand text) as [fh|]; [|reflexivity].
    unfold rankFinalHand.
    destruct (search _ _) as [wm|]; [|reflexivity].
    destruct (map (group 1) (matchAll finalistRegex fh)); [reflexivity|].
    assert (Hw : map clearPosition
                   (whenPlayer (group 1 wm) (set_final_position (Some 1))
                      players0)
                 = map clearPosition players0)
      by (rewrite whenPlayer_modify; now apply clear_modify).
    destruct (find _ _); [|exact Hw].
    rewrite clear_modify; [exact Hw|].
    now rewrite registered_whenPlayer. }
  destruct H1 as [H1 H2].
  unfold rankThird; destruct (sortBy _ _) as [|[t q] rest].
  - rewrite H1; apply clearPosition_idempotent.
  - cbn [fst]; rewrite clear_modify by assumption.
    rewrite H1; apply clearPosition_idempotent.
Qed.

(** On the own properties of a player map without the key
    [tournament_info], resolving against [text] after resolving against an
    [earlier] transcript gives what resolving against [text] alone gives. *)
Lemma ranks_forgotten (players : Players) (earlier text : string) :
  registered TOURNAMENT_INFO players = false ->
  determineFinalPositions (determineFinalPositions players earlier) text
  = determineFinalPositions players text.
Proof.
  intros Hti; unfold determineFinalPositions at 1 3.
  now rewrite clear_determineFinalPositions.
Qed.

(** X11. For a player map without the key [tournament_info] and two
    transcripts whose last hands name no truthy property of
    [Object.prototype] as collector or as shown player,
    [determineFinalPositions] returns on the first and leaves the host as
    it was, and the outcome on the second does not depend on that earlier
    resolution: resolving against [text] after resolving against [earlier]
    gives what resolving against [text] alone gives.  In particular the
    resolver is idempotent. *)
Theorem resolver_forgets_earlier_ranks (realm : Host.Realm)
  (players : Players) (earlier text : string) :
  registered TOURNAMENT_INFO players = false ->
  forallb (fun n => negb (Host.hostName realm n)) (finalNames earlier) = true ->
  forallb (fun n => negb (Host.hostName realm n)) (finalNames text) = true ->
  exists resolved,
    Host.determineFinalPositions realm players earlier
    = (Host.Returned resolved, realm)
    /\ Host.determineFinalPositions realm resolved text
       = Host.determineFinalPositions realm players text.
Proof.
  intros Hti Hearlier Htext.
  exists (determineFinalPositions players earlier).
  split; [now apply determineFinalPositions_plain|].
  rewrite !(@determineFinalPositions_plain realm _ text Htext).
  now rewrite ranks_forgotten.
Qed.

(** X11 at the players of [twoPairHand], resolved against
    [foldedFinalTranscript] and then against [twoHandTranscript], from the
    pristine host. *)
Lemma resolver_forgets_earlier_ranks_witness :
  exists resolved,
    Host.determineFinalPositions Host.pristine (seated twoPairHand)
      foldedFinalTranscript
    = (Host.Returned resolved, Host.pristine)
    /\ Host.determineFinalPositions Host.pristine resolved twoHandTranscript
       = Host.determineFinalPositions Host.pristine (seated twoPairHand)
           twoHandTranscript.
Proof.
  apply resolver_forgets_earlier_ranks; vm_compute; reflexivity.
Defined.

Lemma first_not_second (text : string) (players : Players) (n : string) :
  firstPlace text players = Some n -> secondPlace text players <> Some n.
Proof.
  unfold firstPlace, secondPlace.
  destruct (lastHand text) as [fh|]; [|discriminate].
  destruct (finalCollector fh) as [w|]; [|discriminate].
  destruct (finalists fh) as [|f fs]; [discriminate|].
  destruct (registered w players); [|discriminate].
  intros [= ->] H; apply find_some in H as [_ H].
  now rewrite String.eqb_refl in H.
Qed.

(** The places depend on the player map through the registered names only. *)
Lemma places_registered (text : string) (ps ps' : Players) :
  (forall n, registered n ps' = registered n ps) ->
  firstPlace text ps' = firstPlace text ps
  /\ secondPlace text ps' = secondPlace text ps.
Proof.
  intros H; unfold firstPlace, secondPlace.
  destruct (lastHand text) as [fh|]; [|split; reflexivity].
  destruct (finalCollector fh) as [w|]; [|split; reflexivity].
  destruct (finalists fh) as [|f fs]; [split; reflexivity|].
  rewrite H; split; [reflexivity|].
  apply find_ext; intros x; now rewrite H.
Qed.

Lemma registered_determineFinalPositions (players : Players)
  (text n : string) :
  registered n (determineFinalPositions players text) = registered n players.
Proof. rewrite !registered_keys, keys_determineFinalPositions; reflexivity. Qed.

(** Who holds the first two positions after the resolver has run. *)
Lemma positionOf_resolved (players : Players) (text n : string) :
  NoDup (map fst players) -> n <> TOURNAMENT_INFO ->
  (positionOf n (determineFinalPositions players text) = Some 1
   <-> firstPlace text players = Some n)
  /\ (positionOf n (determineFinalPositions players text) = Some 2
      <-> secondPlace text players = Some n).
Proof.
  intros Hnd Hn; unfold determineFinalPositions.
  set (players1 := rankLastHand text (map clearPosition players)).
  assert (Hnd1 : NoDup (map fst players1))
    by (unfold players1; now rewrite keys_rankLastHand, keys_clearPosition).
  pose proof (@positionOf_rankLastHand text players n Hn) as Hpos.
  fold players1 in Hpos.
  assert (H1 : (positionOf n players1 = Some 1
                <-> firstPlace text players = Some n)
               /\ (positionOf n players1 = Some 2
                   <-> secondPlace text players = Some n)).
  { rewrite Hpos.
    destruct (isName (secondPlace text players) n) eqn:E2.
    - apply isName_true in E2; split; [|tauto].
      split; [discriminate|].
      intros H; now apply first_not_second in H.
    - apply isName_false in E2.
      destruct (isName (firstPlace text players) n) eqn:E1.
      + apply isName_true in E1; split; [tauto|].
        split; [discriminate | contradiction].
      + apply isName_false in E1; split; (split; [discriminate|contradiction]). }
  destruct (@rankThird_cases players1 Hnd1)
    as [[-> _]|(t & q & -> & Hq & _ & Hqp & _)]; [exact H1|].
  unfold positionOf, viewOr; rewrite get_modify.
  destruct (String.eqb t n) eqn:Etn; [|exact H1].
  apply String.eqb_eq in Etn; subst t.
  rewrite Hq; cbn.
  unfold positionOf, viewOr in H1; rewrite Hq, Hqp in H1.
  destruct H1 as [H11 H12]; split; (split; [discriminate|]).
  - intros H; apply H11 in H; discriminate.
  - intros H; apply H12 in H; discriminate.
Qed.

Lemma NoDup_parsedPlayers (text : string) : NoDup (map fst (parsedPlayers text)).
Proof. rewrite keys_parsedPlayers; apply fold_setAdd_NoDup; constructor. Qed.

(** The same for the result of [extractFromTxt]. *)
Lemma positionOf_extracted (text n : string) :
  n <> TOURNAMENT_INFO ->
  (positionOf n (fst (extractFromTxt text)) = Some 1
   <-> firstPlace text (fst (extractFromTxt text)) = Some n)
  /\ (positionOf n (fst (extractFromTxt text)) = Some 2
      <-> secondPlace text (fst (extractFromTxt text)) = Some n).
Proof.
  intros Hn.
  destruct (places_registered text (parsedPlayers text)
              (fst (extractFromTxt text))) as [-> ->].
  { intros m; unfold extractFromTxt; cbn [fst].
    apply registered_determineFinalPositions. }
  apply positionOf_resolved; [apply NoDup_parsedPlayers | assumption].
Qed.

(** The entries read by the award engine, as lookups. *)
Lemma In_field (text n : string) (d : PlayerStat) :
  In (n, d) (Object_entries (withoutTournamentInfo (fst (extractFromTxt text))))
  <-> get n (fst (extractFromTxt text)) = Some d /\ n <> TOURNAMENT_INFO.
Proof.
  rewrite In_withoutTournamentInfo; cbn [fst].
  split; intros [H Hn]; (split; [|assumption]).
  - apply In_get; [apply NoDup_extractFromTxt | assumption].
  - now apply get_In.
Qed.

Section PlacementBlocks.

Variables (players : Players) (st : AwardState).

Lemma champion_winner (r : AwardRecord) :
  awardOf TournamentChampion (awards st) = None ->
  (awardOf TournamentChampion (awards (champion players st)) = Some r ->
   exists d rest,
     filter (positionIs 1) (Object_entries players)
     = (aw_winner r, d) :: rest)
  /\ (awardOf TournamentChampion (awards (champion players st)) = None ->
      filter (positionIs 1) (Object_entries players) = []).
Proof.
  intros Hnone; unfold champion.
  destruct (filter _ _) as [|[w d] rest]; [split; [congruence|reflexivity]|].
  cbn [awards place]; rewrite awardOf_assign; cbn [AwardName_eqb].
  split; [|discriminate].
  intros [= <-]; cbn [aw_winner]; eauto.
Qed.

Lemma runnerUp_winner (r : AwardRecord) :
  awardOf RunnerUp (awards st) = None ->
  (awardOf RunnerUp (awards (runnerUp players st)) = Some r ->
   exists d rest,
     filter (positionIs 2) (Object_entries players)
     = (aw_winner r, d) :: rest)
  /\ (awardOf RunnerUp (awards (runnerUp players st)) = None ->
      filter (positionIs 2) (Object_entries players) = []).
Proof.
  intros Hnone; unfold runnerUp.
  destruct (filter _ _) as [|[w d] rest]; [split; [congruence|reflexivity]|].
  cbn [awards place]; rewrite awardOf_assign; cbn [AwardName_eqb].
  split; [|discriminate].
  intros [= <-]; cbn [aw_winner]; eauto.
Qed.

Lemma bubbleBoy_winner (r : AwardRecord) :
  awardOf BubbleBoy (awards st) = None ->
  awardOf BubbleBoy (awards (bubbleBoy players st)) = Some r ->
  4 <= playerCount players
  /\ exists d,
      In (aw_winner r, d) (Object_entries players)
      /\ final_position d = Some ((playerCount players + 1) / 2).
Proof.
  intros Hnone; unfold bubbleBoy.
  destruct (4 <=? playerCount players) eqn:E4; [|congruence].
  apply Z.leb_le in E4.
  destruct (filter _ _) as [|[w d] rest] eqn:E; [congruence|].
  cbn [awards place]; rewrite awardOf_assign; cbn [AwardName_eqb].
  intros [= <-]; cbn [aw_winner]; split; [assumption|].
  assert (H : In (w, d) (filter (positionIs ((playerCount players + 1) / 2))
                           (Object_entries players)))
    by (rewrite E; now left).
  apply filter_In in H as [Hin Hp]; exists d; split; [assumption|].
  unfold positionIs in Hp; cbn [snd] in Hp.
  destruct (final_position d) as [k|]; [|discriminate].
  apply Z.eqb_eq in Hp; now subst.
Qed.

End PlacementBlocks.

(** X12. The Bubble Boy award of a summary is only issued for a field of
    four, five or six players, and it names the player ranked second (four
    players) or third (five or six): the bubble position is half the field
    size rounded, and the resolver ranks nobody below third.  With seven or
    more players the award is never issued. *)
Theorem bubble_boy_small_fields (now : Clock) (text w : string) :
  winnerOf BubbleBoy (summary_awards (parseTxt now text)) = Some w ->
  4 <= fieldSize (fst (extractFromTxt text)) <= 6
  /\ positionOf w (fst (extractFromTxt text))
     = Some (if fieldSize (fst (extractFromTxt text)) =? 4 then 2 else 3).
Proof.
  unfold parseTxt; cbn [summary_awards]; unfold calculateAwards, fieldSize.
  set (pd := fst (extractFromTxt text)).
  destruct (Object_keys (withoutTournamentInfo pd)) as [|k ks];
    [discriminate|].
  unfold winnerOf, runAwards; cbv zeta.
  destruct (awardOf BubbleBoy _) as [r|] eqn:E; [|discriminate].
  cbn [option_map]; intros [= <-].
  apply bubbleBoy_winner in E as (H4 & d & Hin & Hpos); [|peel; reflexivity].
  apply In_field in Hin as [Hget Hti].
  pose proof (@position_ranked (parsedPlayers text) text (aw_winner r) d
                Hget Hti) as Hrank.
  rewrite Hpos in Hrank.
  subst pd; unfold positionOf, viewOr; rewrite Hget, Hpos.
  set (N := playerCount (withoutTournamentInfo (fst (extractFromTxt text))))
    in *.
  assert (HN : (N + 1) / 2 = 2 /\ N = 4 \/ (N + 1) / 2 = 3 /\ 5 <= N <= 6).
  { destruct Hrank as [H|[H|[H|[H|[]]]]]; try discriminate;
      injection H as H; Z.to_euclidean_division_equations; lia. }
  destruct HN as [[-> ->]|[-> HN]]; [split; [lia|reflexivity]|].
  split; [lia|].
  destruct (Z.eqb_spec N 4); [lia|reflexivity].
Qed.

(** X12 at [fourHandedTranscript]: Al, second behind Joe, is the Bubble
    Boy of the four players. *)
Lemma bubble_boy_small_fields_witness :
  4 <= fieldSize (fst (extractFromTxt fourHandedTranscript)) <= 6
  /\ positionOf "Al" (fst (extractFromTxt fourHandedTranscript))
     = Some (if fieldSize (fst (extractFromTxt fourHandedTranscript)) =? 4
             then 2 else 3).
Proof.
  apply (@bubble_boy_small_fields firstOfMarch fourHandedTranscript "Al").
  vm_compute; reflexivity.
Defined.

(** The first player the award engine finds at a position [k] that only the
    player [place] can hold. *)
Lemma placed_head (text : string) (k : Z) (place : option string) :
  (forall n,
      n <> TOURNAMENT_INFO ->
      positionOf n (fst (extractFromTxt text)) = Some k <-> place = Some n) ->
  forall w,
    (exists d rest,
        filter (positionIs k)
          (Object_entries (withoutTournamentInfo (fst (extractFromTxt text))))
        = (w, d) :: rest)
    <-> place = Some w /\ w <> TOURNAMENT_INFO.
Proof.
  intros Hplace.
  assert (Hin : forall w d,
             In (w, d)
               (filter (positionIs k)
                  (Object_entries
                     (withoutTournamentInfo (fst (extractFromTxt text)))))
             <-> get w (fst (extractFromTxt text)) = Some d
                 /\ w <> TOURNAMENT_INFO /\ final_position d = Some k).
  { intros w d; rewrite filter_In, In_field.
    unfold positionIs; cbn [snd].
    destruct (final_position d) as [j|].
    - rewrite Z.eqb_eq; split; intros H; intuition congruence.
    - split; intros H; [|intuition congruence].
      destruct H as [_ H]; discriminate. }
  assert (Hfwd : forall w d rest,
             filter (positionIs k)
               (Object_entries
                  (withoutTournamentInfo (fst (extractFromTxt text))))
             = (w, d) :: rest ->
             place = Some w /\ w <> TOURNAMENT_INFO).
  { intros w d rest E.
    assert (H : In (w, d) ((w, d) :: rest)) by now left.
    rewrite <- E in H; apply Hin in H as (Hget & Hti & Hpos).
    split; [|assumption].
    apply Hplace; [assumption|].
    unfold positionOf, viewOr; now rewrite Hget. }
  intros w; split; [intros (d & rest & E); eauto|].
  intros [Hw Hti].
  pose proof (proj2 (Hplace w Hti) Hw) as Hp.
  unfold positionOf, viewOr in Hp.
  destruct (get w (fst (extractFromTxt text))) as [d|] eqn:G; [|discriminate].
  assert (H : In (w, d)
                (filter (positionIs k)
                   (Object_entries
                      (withoutTournamentInfo (fst (extractFromTxt text))))))
    by (apply Hin; auto).
  destruct (filter _ _) as [|[w' d'] rest] eqn:E; [contradiction|].
  destruct (Hfwd w' d' rest eq_refl) as [Hw' _].
  assert (w' = w) by congruence; subst; eauto.
Qed.

(** On the own properties of the player map: the Tournament Champion and
    the Runner Up of a summary are the first and the second place read from
    the last hand. *)
Lemma placement_awards_placed (now : Clock) (text w : string) :
  Object_keys (withoutTournamentInfo (fst (extractFromTxt text))) <> [] ->
  (winnerOf TournamentChampion (summary_awards (parseTxt now text)) = Some w
   <-> firstPlace text (fst (extractFromTxt text)) = Some w
       /\ w <> TOURNAMENT_INFO)
  /\ (winnerOf RunnerUp (summary_awards (parseTxt now text)) = Some w
      <-> secondPlace text (fst (extractFromTxt text)) = Some w
          /\ w <> TOURNAMENT_INFO).
Proof.
  intros Hne; unfold parseTxt; cbn [summary_awards]; unfold calculateAwards.
  destruct (Object_keys _) as [|k ks]; [contradiction|]; clear Hne.
  unfold winnerOf, runAwards; cbv zeta; peel.
  set (players := withoutTournamentInfo (fst (extractFromTxt text))).
  set (st0 := {| awards := []; awardedPlayers := [] |}).
  split.
  - rewrite <- (@placed_head text 1 _
                  (fun n Hn => proj1 (positionOf_extracted text Hn)) w).
    fold players.
    destruct (@champion_winner players st0) with
      (r := {| aw_winner := w; aw_description := ""; aw_stat := "" |})
      as [_ Hnone]; [reflexivity|].
    destruct (awardOf TournamentChampion (awards (champion players st0)))
      as [r|] eqn:E; cbn [option_map].
    + destruct (@champion_winner players st0 r eq_refl) as [Hsome _].
      destruct (Hsome E) as (d & rest & Hf); rewrite Hf.
      split.
      * intros [= <-]; eauto.
      * intros (d' & rest' & [= <- _ _]); reflexivity.
    + rewrite (Hnone eq_refl); split; [discriminate|].
      intros (d & rest & H); discriminate.
  - rewrite <- (@placed_head text 2 _
                  (fun n Hn => proj2 (positionOf_extracted text Hn)) w).
    fold players.
    destruct (@runnerUp_winner players (champion players st0)) with
      (r := {| aw_winner := w; aw_description := ""; aw_stat := "" |})
      as [_ Hnone]; [peel; reflexivity|].
    destruct (awardOf RunnerUp
                (awards (runnerUp players (champion players st0))))
      as [r|] eqn:E; cbn [option_map].
    + destruct (@runnerUp_winner players (champion players st0) r)
        as [Hsome _]; [peel; reflexivity|].
      destruct (Hsome E) as (d & rest & Hf); rewrite Hf.
      split.
      * intros [= <-]; eauto.
      * intros (d' & rest' & [= <- _ _]); reflexivity.
    + rewrite (Hnone eq_refl); split; [discriminate|].
      intros (d & rest & H); discriminate.
Qed.

(** X13. From a host in which no name the parse looks up is a truthy
    property of [Object.prototype], for an ASCII transcript that yields a
    player other than [tournament_info] and seats no more names than the
    host accepts arguments: the Tournament Champion of the summary is the
    pot collector of the last hand, provided that hand shows a hand and the
    collector has a seat entry somewhere in the transcript, and otherwise no
    Tournament Champion is named; the Runner Up is the first other seated
    player who shows a hand in the last hand, under the same condition. *)
Theorem placement_awards_follow_last_hand (maxArguments : nat)
  (longDate : Clock -> string) (realm : Host.Realm) (now : Clock)
  (text w : string) :
  Host.plain realm text = true ->
  isAscii text = true ->
  (List.length (distinctSeated text) <= maxArguments)%nat ->
  Object_keys (withoutTournamentInfo (fst (extractFromTxt text))) <> [] ->
  let summary := fst (Host.parseTxt maxArguments longDate realm now text) in
  (winnerOf TournamentChampion (summary_awards summary) = Some w
   <-> firstPlace text (fst (extractFromTxt text)) = Some w
       /\ w <> TOURNAMENT_INFO)
  /\ (winnerOf RunnerUp (summary_awards summary) = Some w
      <-> secondPlace text (fst (extractFromTxt text)) = Some w
          /\ w <> TOURNAMENT_INFO).
Proof.
  intros Hplain _ Hlen Hne summary; unfold summary.
  rewrite (@parseTxt_seated maxArguments longDate realm now text Hplain Hlen).
  now apply placement_awards_placed.
Qed.

(** X13 at [twoHandTranscript]: Joe collects the pot of the last hand and
    is the Tournament Champion. *)
Lemma placement_awards_follow_last_hand_witness :
  firstPlace twoHandTranscript (fst (extractFromTxt twoHandTranscript))
  = Some "Joe"
  /\ "Joe" <> TOURNAMENT_INFO.
Proof.
  assert (Hlen : (List.length (distinctSeated twoHandTranscript) <= 1000)%nat).
  { replace (List.length (distinctSeated twoHandTranscript)) with 3%nat
      by (vm_compute; reflexivity).
    lia. }
  apply (proj1 (@placement_awards_follow_last_hand 1000
                  (fun _ => "March 1, 2025 at 8:00 PM") Host.pristine
                  firstOfMarch twoHandTranscript "Joe" eq_refl eq_refl Hlen
                  ltac:(vm_compute; discriminate))).
  vm_compute; reflexivity.
Defined.

(* ------------------------------------------------------------------ *)
(** ** Award winners are players *)

Lemma entry_key (players : Players) (w : string) (d : PlayerStat) :
  In (w, d) (Object_entries players) -> In w (map fst players).
Proof.
  intros H; apply (proj1 (In_Object_entries _ _)) in H.
  change w with (fst (w, d)); now apply in_map.
Qed.

Section BlocksNamePlayers.

Variables (players : Players) (st : AwardState).

(** Closes a block whose winner is the entry [e] of the map. *)
Ltac named e :=
  right; eexists _, _; split; [reflexivity|]; cbn [aw_winner];
  apply entry_key with e.

(** A block that names the winner of a running-extremum loop over filtered
    candidates. *)
Ltac named_best :=
  match goal with
  | |- NamesPlayer _ _ (match ?cands with [] => _ | _ :: _ => _ end) =>
      let E := fresh "E" in
      destruct cands eqn:E; [now left|]; rewrite <- E; clear E
  end;
  match goal with
  | |- NamesPlayer _ _ (match truthy ?b with _ => _ end) =>
      let T := fresh "T" in
      let d := fresh "d" in
      let Hin := fresh "Hin" in
      destruct (truthy b) as [w|] eqn:T; [|now left];
      apply truthy_Some, bestBy_In in T as (d & Hin);
      apply filter_In in Hin as [Hin _];
      named d; exact Hin
  end.

Lemma champion_names : NamesPlayer players st (champion players st).
Proof.
  unfold champion; destruct (filter _ _) as [|[n d] rest] eqn:E; [now left|].
  assert (H : In (n, d) ((n, d) :: rest)) by now left.
  rewrite <- E in H; apply filter_In in H as [H _]; now named d.
Qed.

Lemma runnerUp_names : NamesPlayer players st (runnerUp players st).
Proof.
  unfold runnerUp; destruct (filter _ _) as [|[n d] rest] eqn:E; [now left|].
  assert (H : In (n, d) ((n, d) :: rest)) by now left.
  rewrite <- E in H; apply filter_In in H as [H _]; now named d.
Qed.

Lemma bubbleBoy_names : NamesPlayer players st (bubbleBoy players st).
Proof.
  unfold bubbleBoy; destruct (4 <=? playerCount players); [|now left].
  destruct (filter _ _) as [|[n d] rest] eqn:E; [now left|].
  assert (H : In (n, d) ((n, d) :: rest)) by now left.
  rewrite <- E in H; apply filter_In in H as [H _]; now named d.
Qed.

Lemma mostAggressive_names :
  NamesPlayer players st (mostAggressive players st).
Proof. unfold mostAggressive; named_best. Qed.

Lemma callingStation_names :
  NamesPlayer players st (callingStation players st).
Proof. unfold callingStation; named_best. Qed.

Lemma tightestPlayer_names :
  NamesPlayer players st (tightestPlayer players st).
Proof. unfold tightestPlayer; named_best. Qed.

Lemma doggyPaddling_names :
  NamesPlayer players st (doggyPaddling players st).
Proof. unfold doggyPaddling; named_best. Qed.

Lemma hollywoodActor_names :
  NamesPlayer players st (hollywoodActor players st).
Proof. unfold hollywoodActor; named_best. Qed.

Lemma abcPlayer_names : NamesPlayer players st (abcPlayer players st).
Proof. unfold abcPlayer; named_best. Qed.

Lemma comebackKid_names : NamesPlayer players st (comebackKid players st).
Proof.
  unfold comebackKid.
  destruct (sortBy _ _) as [|[king score] rest] eqn:E; [now left|].
  assert (H : In (king, score) (comebackCandidates players st))
    by (eapply In_sortBy; rewrite E; now left).
  unfold comebackCandidates in H; destruct (filter _ _); [contradiction|].
  apply in_flat_map in H as ([n d] & Hin & H); cbn [fst snd] in H.
  destruct (has (awardedPlayers st) n); [contradiction|].
  destruct (final_position d); [|contradiction].
  destruct (_ && _)%bool; [|contradiction].
  destruct H as [[= <- _]|[]]; now named d.
Qed.

Lemma yoloAward_names : NamesPlayer players st (yoloAward players st).
Proof.
  unfold yoloAward.
  destruct (yoloCandidates players st) as [|[w so] rest] eqn:E; [now left|].
  assert (H : In (w, so) (yoloCandidates players st))
    by (rewrite E; now left).
  unfold yoloCandidates in H.
  apply in_flat_map in H as ([n d] & Hin & H); cbn [fst snd] in H.
  destruct (has (awardedPlayers st) n); [contradiction|].
  apply in_map_iff in H as (so' & [= <- _] & _); now named d.
Qed.

Lemma sevenTwoHero_names : NamesPlayer players st (sevenTwoHero players st).
Proof.
  unfold sevenTwoHero.
  destruct (badHandWinners players st) as [|[w so] rest] eqn:E; [now left|].
  assert (H : In (w, so) (badHandWinners players st))
    by (rewrite E; now left).
  unfold badHandWinners in H.
  apply in_flat_map in H as ([n d] & Hin & H); cbn [fst snd] in H.
  destruct (has (awardedPlayers st) n); [contradiction|].
  apply in_map_iff in H as (so' & [= <- _] & _); now named d.
Qed.

Lemma donkey_names :
  NamesPlayer players st
    match donkeyCandidates players st with
    | [] => st
    | _ :: _ => donkeyAward (donkeyCandidates players st) st
    end.
Proof.
  destruct (donkeyCandidates players st) eqn:E; [now left|].
  rewrite <- E; clear E; unfold donkeyAward.
  destruct (sortBy _ _) as [|worst rest] eqn:E; [now left|].
  destruct (Qgtb _ _); [|now left].
  assert (H : In worst (donkeyCandidates players st))
    by (eapply In_sortBy; rewrite E; now left).
  unfold donkeyCandidates in H.
  apply in_flat_map in H as ([n d] & Hin & H); cbn [fst snd] in H.
  destruct (has (awardedPlayers st) n); [contradiction|].
  destruct (10 <? _); [|contradiction].
  destruct (_ && _)%bool; [|contradiction].
  destruct H as [<-|[]]; now named d.
Qed.

End BlocksNamePlayers.

(** A block that names players keeps "every winner is a player". *)
Lemma NamesPlayer_keeps (players : Players) (st st' : AwardState) :
  NamesPlayer players st st' ->
  (forall c r,
      awardOf c (awards st) = Some r -> In (aw_winner r) (map fst players)) ->
  forall c r,
    awardOf c (awards st') = Some r -> In (aw_winner r) (map fst players).
Proof.
  intros [->|(c' & r' & -> & Hin)] H c r; [apply H|].
  rewrite awardOf_assign.
  destruct (AwardName_eqb c' c); [intros [= <-]; assumption | apply H].
Qed.

Lemma runAwards_names_players (players : Players) (c : AwardName)
  (r : AwardRecord) :
  awardOf c (awards (runAwards players)) = Some r ->
  In (aw_winner r) (map fst players).
Proof.
  revert c r; unfold runAwards; cbv zeta.
  repeat first
    [ apply (NamesPlayer_keeps (bubbleBoy_names _ _))
    | apply (NamesPlayer_keeps (abcPlayer_names _ _))
    | apply (NamesPlayer_keeps (donkey_names _ _))
    | apply (NamesPlayer_keeps (sevenTwoHero_names _ _))
    | apply (NamesPlayer_keeps (hollywoodActor_names _ _))
    | apply (NamesPlayer_keeps (doggyPaddling_names _ _))
    | apply (NamesPlayer_keeps (yoloAward_names _ _))
    | apply (NamesPlayer_keeps (comebackKid_names _ _))
    | apply (NamesPlayer_keeps (tightestPlayer_names _ _))
    | apply (NamesPlayer_keeps (callingStation_names _ _))
    | apply (NamesPlayer_keeps (mostAggressive_names _ _))
    | apply (NamesPlayer_keeps (runnerUp_names _ _))
    | apply (NamesPlayer_keeps (champion_names _ _)) ].
  intros c r; discriminate.
Qed.

(** X14. On a player map with at least one key other than
    [tournament_info], every award of [calculateAwards], of whatever
    category, names a key of the map, and never [tournament_info].  (On the
    empty map the sample awards name Player1, Player2 and Player3.) *)
Theorem award_winners_are_players (playersData : Players) (c : AwardName)
  (w : string) :
  Object_keys (withoutTournamentInfo playersData) <> [] ->
  winnerOf c (calculateAwards playersData) = Some w ->
  In w (map fst playersData) /\ w <> TOURNAMENT_INFO.
Proof.
  intros Hne; unfold calculateAwards, winnerOf.
  destruct (Object_keys _) as [|k ks]; [contradiction|].
  destruct (awardOf c _) as [r|] eqn:E; [|discriminate].
  cbn [option_map]; intros [= <-].
  apply runAwards_names_players in E.
  apply in_map_iff in E as ([n d] & <- & Hin); cbn [fst].
  apply (proj2 (In_Object_entries _ _)) in Hin.
  apply (proj1 (In_withoutTournamentInfo _ _)) in Hin as [Hin Hti].
  split; [|assumption].
  change n with (fst (n, d)); now apply in_map.
Qed.

(** X14 at [activePlayers], for Ann, the Most Aggressive player. *)
Lemma award_winners_are_players_witness :
  In "Ann" (map fst activePlayers) /\ "Ann" <> TOURNAMENT_INFO.
Proof.
  apply (@award_winners_are_players activePlayers MostAggressive "Ann");
    [vm_compute; discriminate | vm_compute; reflexivity].
Defined.

(* ------------------------------------------------------------------ *)
(** ** Statistics only grow *)

Section Extends.

Variable R : PlayerStat -> PlayerStat -> Prop.
Hypothesis R_refl : forall p, R p p.
Hypothesis R_trans : forall p q r, R p q -> R q r -> R p r.

Lemma extends_refl (ps : Players) : extends R ps ps.
Proof. intros n p G; eauto. Qed.

Lemma extends_trans (ps qs rs : Players) :
  extends R ps qs -> extends R qs rs -> extends R ps rs.
Proof.
  intros H1 H2 n p G.
  destruct (H1 n p G) as (q & Gq & Hq).
  destruct (H2 n q Gq) as (r & Gr & Hr); eauto.
Qed.

Lemma extends_modify (m : string) (f : PlayerStat -> PlayerStat)
  (ps : Players) :
  (forall p, R p (f p)) -> extends R ps (modify m f ps).
Proof.
  intros Hf n p G; rewrite get_modify, G.
  destruct (String.eqb m n); simpl; eauto.
Qed.

Lemma extends_whenPlayer (m : string) (f : PlayerStat -> PlayerStat)
  (ps : Players) :
  (forall p, R p (f p)) -> extends R ps (whenPlayer m f ps).
Proof. rewrite whenPlayer_modify; apply extends_modify. Qed.

Lemma extends_app (ps qs : Players) : extends R ps (ps ++ qs).
Proof. intros n p G; rewrite get_app, G; eauto. Qed.

Lemma extends_fold {X : Type} (step : Players -> X -> Players) :
  (forall ps x, extends R ps (step ps x)) ->
  forall xs ps, extends R ps (fold_left step xs ps).
Proof.
  intros Hstep xs; induction xs as [|x xs IH]; intros ps; simpl.
  - apply extends_refl.
  - eapply extends_trans; [apply Hstep | apply IH].
Qed.

End Extends.

Lemma grew_refl (p : PlayerStat) : grew p p.
Proof.
  unfold grew; repeat split; try lia; exists []; now rewrite app_nil_r.
Qed.

Lemma grew_trans (p q r : PlayerStat) : grew p q -> grew q r -> grew p r.
Proof.
  unfold grew.
  intros (? & ? & ? & ? & ? & ? & ? & ? & ? & ? & ? & ? & ?
          & (b1 & Hb1) & (s1 & Hs1) & ? & ?)
         (? & ? & ? & ? & ? & ? & ? & ? & ? & ? & ? & ? & ?
          & (b2 & Hb2) & (s2 & Hs2) & ? & ?).
  repeat split; try lia; try congruence.
  - exists (b1 ++ b2); now rewrite Hb2, Hb1, app_assoc.
  - exists (s1 ++ s2); now rewrite Hs2, Hs1, app_assoc.
Qed.

(** Discharges "this write makes the record grow". *)
Ltac grows :=
  intros;
  repeat match goal with
         | a : ActionType |- _ => destruct a
         | |- context [String.eqb ?r "won"] => destruct (String.eqb r "won")
         | |- context [parseInt ?s] =>
             lazymatch goal with
             | _ : 0 <= parseInt s |- _ => fail
             | _ => pose proof (parseInt_nonneg s)
             end
         end;
  unfold grew; cbn;
  repeat split; try lia;
  first [ exists []; now rewrite app_nil_r | eexists; reflexivity ].

(** X15. Processing a hand never removes a player from the map and, for a
    player already in it, never lowers a counter, the winnings or the
    chip maximum, keeps the bad beats and suckouts recorded so far as the
    beginning of the new lists, and leaves [final_position] and [total_bet]
    as they were. *)
Theorem parseHand_only_grows (handText : string) (players : Players) :
  extends grew players (parseHand handText players).
Proof.
  pose proof grew_refl as Hr; pose proof grew_trans as Ht.
  assert (Hfold : forall (X : Type) (step : Players -> X -> Players),
             (forall ps x, extends grew ps (step ps x)) ->
             forall xs ps, extends grew ps (fold_left step xs ps))
    by (intros X step; apply extends_fold; assumption).
  assert (Hwhen : forall m f ps,
             (forall p, grew p (f p)) ->
             extends grew ps (whenPlayer m f ps))
    by (intros m f ps; apply extends_whenPlayer; assumption).
  assert (Hthen : forall ps qs rs,
             extends grew ps qs -> extends grew qs rs -> extends grew ps rs)
    by (intros ps qs rs; apply extends_trans; assumption).
  unfold parseHand.
  assert (H1 : extends grew players
                 (fold_left seatStep (matchAll seatRegex handText) players)).
  { apply Hfold; intros ps m; unfold seatStep.
    apply Hthen
      with (qs := match get (group 1 m) ps with
                  | Some _ => ps
                  | None =>
                      ps ++ [(group 1 m, newPlayer (parseInt (group 2 m)))]
                  end);
      [|apply extends_modify; grows].
    destruct (get (group 1 m) ps);
      [now apply extends_refl | apply extends_app; assumption]. }
  assert (H2 : forall ps,
             extends grew ps (analyzeShowdownForBadBeats handText ps)).
  { intros ps; unfold analyzeShowdownForBadBeats.
    repeat match goal with
           | |- extends _ _ (if ?c then _ else _) => destruct c
           | |- extends _ _ (match ?c with _ => _ end) => destruct c
           end; try now apply extends_refl.
    apply Hfold; intros ps' l; unfold recordBadBeat.
    destruct (isGenuineBadBeat _ _); [|now apply extends_refl].
    eapply Hthen; [|apply Hwhen; grows]; apply Hwhen; grows. }
  assert (H3 : forall ps,
             extends grew ps
               (fold_left (countActions handText) actionPatterns ps)).
  { apply Hfold; intros ps' a; unfold countActions.
    apply Hfold; intros ps'' m; unfold actionStep.
    apply Hwhen; grows. }
  assert (H4 : forall ps,
             extends grew ps
               (fold_left voluntaryStep (voluntaryPlayers handText) ps)).
  { apply Hfold; intros ps' m; unfold voluntaryStep.
    apply Hwhen; grows. }
  assert (H5 : forall ps,
             extends grew ps
               (fold_left showdownStep
                  (matchAll showdownResultRegex handText) ps)).
  { apply Hfold; intros ps' m; unfold showdownStep.
    apply Hwhen; grows. }
  assert (H6 : forall ps,
             extends grew ps
               (fold_left collectStep (matchAll collectedRegex handText) ps)).
  { apply Hfold; intros ps' m; unfold collectStep.
    apply Hwhen; grows. }
  eapply Hthen; [|apply H6].
  destruct (includes handText SHOW_DOWN).
  - eapply Hthen; [|apply H5].
    eapply Hthen; [|apply H4].
    eapply Hthen; [|apply H3].
    eapply Hthen; [apply H1 | apply H2].
  - eapply Hthen; [|apply H4].
    eapply Hthen; [apply H1 | apply H3].
Qed.

(* ------------------------------------------------------------------ *)
(** ** The hand splitter *)

Lemma rmatch_Group_eq (j : nat) (r : regex) (s : string) (c : Caps)
  (k : Cont) :
  rmatch (Group j r) s c k
  = rmatch r s c
      (fun s' c' =>
         k s' ((j, takeChars (String.length s - String.length s') s) :: c')).
Proof. reflexivity. Qed.

Lemma takeChars_prefix (p : string) :
  forall (s r : string) (n : nat),
    dropPrefix p s = Some r -> (String.length p <= n)%nat ->
    startsWith (takeChars n s) p = true.
Proof.
  unfold startsWith; induction p as [|a p IH]; intros s r n H Hn; simpl.
  - reflexivity.
  - simpl in H; destruct s as [|b s]; [discriminate|].
    destruct (Ascii.eqb a b) eqn:E; [|discriminate].
    destruct n as [|n]; [simpl in Hn; lia|]; simpl; rewrite E.
    apply (IH s r n H); simpl in Hn; lia.
Qed.

(** A match of the hand pattern starts at the marker, and so does the
    record it captures. *)
Lemma execAt_hand (s : string) (m : Match) :
  execAt handRegex s = Some m ->
  startsWith s HAND_MARKER = true
  /\ startsWith (group 1 m) HAND_MARKER = true.
Proof.
  unfold execAt.
  destruct (rmatch handRegex s [] (fun s' c => Some (s', c)))
    as [[s' c]|] eqn:E; [|discriminate].
  intros [= <-]; unfold group; cbn [m_caps].
  change handRegex
    with (Seq (Group 1
                 (Seq (Seq (Lit HAND_MARKER)
                         (seqs [digits; Lit ": Tournament #"; digits]))
                    (Star false (Chr anyChar))))
            (Ahead true
               (Alt handHeader (Seq (Star true (Chr isSpace)) Eoi)))) in E.
  rewrite rmatch_Seq_eq, rmatch_Group_eq, !rmatch_Seq_eq in E.
  cbn [rmatch] in E.
  destruct (dropPrefix HAND_MARKER s) as [s0|] eqn:D; [|discriminate].
  change (rmatch (seqs [digits; Lit ": Tournament #"; digits]) s0 []
            (fun s1 c1 =>
               rmatch (Star false (Chr anyChar)) s1 c1
                 (fun s2 c2 =>
                    rmatch
                      (Ahead true
                         (Alt handHeader
                            (Seq (Star true (Chr isSpace)) Eoi)))
                      s2
                      ((1%nat,
                        takeChars (String.length s - String.length s2) s)
                       :: c2)
                      (fun s' c => Some (s', c))))
          = Some (s', c)) in E.
  apply rmatch_continues in E as (s1 & c1 & E & Hle1 & _).
  apply rmatch_continues in E as (s2 & c2 & E & Hle2 & _).
  apply rmatch_continues in E as (s3 & c3 & [= <- <-] & _ & _ & Hc).
  rewrite (Hc 1%nat eq_refl); cbn [capture Nat.eqb].
  pose proof (dropPrefix_length _ _ D) as Hlen.
  split.
  - unfold startsWith; now rewrite D.
  - apply takeChars_prefix with s0; [assumption|lia].
Qed.

Lemma scan_without_marker (r : regex) (p : string) :
  (forall s m, execAt r s = Some m -> startsWith s p = true) ->
  forall s skip, includes s p = false -> scan r s skip = [].
Proof.
  intros Hr; induction s as [|a s IH]; intros skip H; simpl in H;
    apply orb_false_iff in H as [Hs Hi].
  - destruct skip; simpl; [|reflexivity].
    destruct (execAt r "") as [m|] eqn:E; [|reflexivity].
    apply Hr in E; congruence.
  - destruct skip; simpl; [|auto].
    destruct (execAt r (String a s)) as [m|] eqn:E; [|auto].
    apply Hr in E; congruence.
Qed.

(** X16. Every hand record cut out of a transcript begins with the marker
    "PokerStars Hand #"; a transcript in which the marker does not occur
    yields no hand record, hence no player. *)
Theorem hand_records_begin_at_marker (text : string) :
  Forall (fun handText => startsWith handText HAND_MARKER = true)
    (handsOf text)
  /\ (includes text HAND_MARKER = false ->
      handsOf text = [] /\ fst (extractFromTxt text) = []).
Proof.
  split.
  - apply Forall_forall; intros h Hh; unfold handsOf in Hh.
    apply in_map_iff in Hh as (m & <- & Hm).
    apply scan_execAt in Hm as (s & Hm).
    now apply execAt_hand in Hm.
  - intros H.
    assert (Hnone : handsOf text = []).
    { unfold handsOf, matchAll.
      rewrite (@scan_without_marker handRegex HAND_MARKER); [reflexivity| |exact H].
      intros s m E; now apply execAt_hand in E. }
    split; [assumption | now apply extract_no_hands].
Qed.

(** X16 at a text without the marker. *)
Lemma hand_records_begin_at_marker_witness :
  handsOf "no hands were played" = []
  /\ fst (extractFromTxt "no hands were played") = [].
Proof.
  apply (proj2 (hand_records_begin_at_marker "no hands were played")).
  reflexivity.
Defined.

(* ------------------------------------------------------------------ *)
(** ** Thresholds of the remaining metric awards *)

Lemma ratio_gt (a b p : Z) (q : positive) :
  0 < b -> (p # q < ratio a b)%Q -> p * b < Z.pos q * a.
Proof.
  unfold ratio, Qlt, Qdiv, Qmult, Qinv, inject_Z.
  intros Hb H; destruct b as [|b|b]; try lia.
  simpl in H; rewrite ?Pos.mul_1_l in H; lia.
Qed.

Lemma ratio_lt (a b p : Z) (q : positive) :
  0 < b -> (ratio a b < p # q)%Q -> Z.pos q * a < p * b.
Proof.
  unfold ratio, Qlt, Qdiv, Qmult, Qinv, inject_Z.
  intros Hb H; destruct b as [|b|b]; try lia.
  simpl in H; rewrite ?Pos.mul_1_l in H; lia.
Qed.

Section ThresholdBlocks.

Variables (players : Players) (st : AwardState).

Lemma hollywoodActor_winner (r : AwardRecord) :
  awardOf HollywoodActor (awards st) = None ->
  awardOf HollywoodActor (awards (hollywoodActor players st)) = Some r ->
  exists d, In (aw_winner r, d) (Object_entries players) /\ 3 <= bets d.
Proof.
  intros Hnone; unfold hollywoodActor.
  destruct (filter _ _) eqn:E; [congruence|]; rewrite <- E; clear E.
  destruct (truthy _) as [w|] eqn:T; [|congruence].
  cbn [awards grant]; rewrite awardOf_assign; cbn [AwardName_eqb].
  intros [= <-]; cbn [aw_winner].
  apply truthy_Some, bestBy_In in T as (d & Hin).
  apply filter_In in Hin as [Hin Hf]; cbn [fst snd] in Hf.
  apply andb_true_iff in Hf as [_ Hf].
  rewrite orElse_zero in Hf; apply Z.ltb_lt in Hf.
  exists d; split; [assumption|lia].
Qed.

Lemma doggyPaddling_winner (r : AwardRecord) :
  awardOf DoggyPaddlingAward (awards st) = None ->
  awardOf DoggyPaddlingAward (awards (doggyPaddling players st)) = Some r ->
  exists d,
    In (aw_winner r, d) (Object_entries players)
    /\ 1 <= hands_played d
    /\ 6 * playerCount players < 10 * positionOr999 d.
Proof.
  intros Hnone; unfold doggyPaddling.
  destruct (filter _ _) eqn:E; [congruence|]; rewrite <- E; clear E.
  destruct (truthy _) as [w|] eqn:T; [|congruence].
  cbn [awards grant]; rewrite awardOf_assign; cbn [AwardName_eqb].
  intros [= <-]; cbn [aw_winner].
  apply truthy_Some, bestBy_spec in T as (d & Hin & Hb); [|exact Zgtb_trans].
  apply filter_In in Hin as [Hin Hf]; cbn [fst snd] in Hf.
  apply andb_true_iff in Hf as [_ Hf]; apply Qgtb_lt in Hf.
  rewrite orElse_zero in Hb; apply Z.gtb_lt in Hb.
  exists d; repeat split; [assumption|lia|].
  unfold Qlt, Qmult, inject_Z in Hf; simpl in Hf; lia.
Qed.

Lemma donkey_winner (r : AwardRecord) :
  awardOf Donkey (awards st) = None ->
  awardOf Donkey
    (awards match donkeyCandidates players st with
            | [] => st
            | _ :: _ => donkeyAward (donkeyCandidates players st) st
            end) = Some r ->
  exists d,
    In (aw_winner r, d) (Object_entries players)
    /\ 10 < hands_played d
    /\ 4 * hands_played d < 10 * hands_voluntarily_played d
    /\ 10 * showdown_wins d < 3 * Z.max (orElse (showdowns d) 1) 1
    /\ (15 # 10
        < ratio (hands_voluntarily_played d) (hands_played d)
          / (ratio (showdown_wins d) (Z.max (orElse (showdowns d) 1) 1)
             + (1 # 10)))%Q.
Proof.
  intros Hnone.
  destruct (donkeyCandidates players st) eqn:E; [congruence|].
  rewrite <- E; clear E; unfold donkeyAward.
  destruct (sortBy _ _) as [|worst rest] eqn:E; [congruence|].
  destruct (Qgtb _ _) eqn:Hscore; [|congruence].
  cbn [awards grant]; rewrite awardOf_assign; cbn [AwardName_eqb].
  intros [= <-]; cbn [aw_winner].
  assert (H : In worst (donkeyCandidates players st))
    by (eapply In_sortBy; rewrite E; now left).
  unfold donkeyCandidates in H.
  apply in_flat_map in H as ([n d] & Hin & H); cbn [fst snd] in H.
  destruct (has (awardedPlayers st) n); [contradiction|].
  rewrite !orElse_zero in H.
  destruct (10 <? hands_played d) eqn:Hh; [|contradiction].
  apply Z.ltb_lt in Hh.
  destruct (_ && _)%bool eqn:Hc; [|contradiction].
  destruct H as [<-|[]]; cbn [fst snd] in *.
  apply andb_true_iff in Hc as [Hv Hw].
  apply Qgtb_lt in Hv, Hscore; apply Qltb_lt in Hw.
  exists d; repeat split; try assumption.
  - apply ratio_gt in Hv; lia.
  - apply ratio_lt in Hw; lia.
Qed.

End ThresholdBlocks.

(** X17. On a player map with at least one key other than
    [tournament_info], [calculateAwards] names as Hollywood Actor only a
    player with at least three bets, as Doggy Paddling only a player with at
    least one hand whose final position (999 when unranked) exceeds six
    tenths of the number of players, and as Donkey only a player with more
    than ten hands who played more than four tenths of them voluntarily and
    won fewer than three tenths of the showdowns. *)
Theorem metric_award_thresholds (playersData : Players) (w : string) :
  Object_keys (withoutTournamentInfo playersData) <> [] ->
  (winnerOf HollywoodActor (calculateAwards playersData) = Some w ->
   exists d, In (w, d) playersData /\ 3 <= bets d)
  /\ (winnerOf DoggyPaddlingAward (calculateAwards playersData) = Some w ->
      exists d,
        In (w, d) playersData
        /\ 1 <= hands_played d
        /\ 6 * fieldSize playersData < 10 * positionOr999 d)
  /\ (winnerOf Donkey (calculateAwards playersData) = Some w ->
      exists d,
        In (w, d) playersData
        /\ 10 < hands_played d
        /\ 4 * hands_played d < 10 * hands_voluntarily_played d
        /\ 10 * showdown_wins d < 3 * Z.max (orElse (showdowns d) 1) 1).
Proof.
  intros Hne; unfold calculateAwards, fieldSize.
  destruct (Object_keys _) as [|k ks]; [contradiction|]; clear Hne.
  set (players := withoutTournamentInfo playersData).
  assert (Hin : forall d,
             In (w, d) (Object_entries players) -> In (w, d) playersData)
    by (intros d H; now apply In_withoutTournamentInfo in H).
  unfold winnerOf, runAwards; cbv zeta.
  repeat split;
    (destruct (awardOf _ _) as [r|] eqn:E; [|discriminate];
     simpl; intros [= <-]; revert E; peel; intros E).
  - apply hollywoodActor_winner in E as (d & Hd & Hb); [|peel; reflexivity].
    exists d; auto.
  - apply doggyPaddling_winner in E as (d & Hd & Hb); [|peel; reflexivity].
    exists d; split; auto.
  - apply donkey_winner in E as (d & Hd & Hh & Hv & Hw & _);
      [|peel; reflexivity].
    exists d; auto.
Qed.

(** X17 at [showmen]: Bob is the Hollywood Actor, Ann takes Doggy Paddling
    and Cat is the Donkey. *)
Lemma metric_award_thresholds_witness :
  (exists d, In ("Bob", d) showmen /\ 3 <= bets d)
  /\ (exists d,
         In ("Ann", d) showmen
         /\ 1 <= hands_played d
         /\ 6 * fieldSize showmen < 10 * positionOr999 d)
  /\ (exists d, In ("Cat", d) showmen /\ 10 < hands_played d).
Proof.
  assert (Hne : Object_keys (withoutTournamentInfo showmen) <> [])
    by (vm_compute; discriminate).
  repeat split.
  - apply (proj1 (@metric_award_thresholds showmen "Bob" Hne)).
    vm_compute; reflexivity.
  - apply (proj1 (proj2 (@metric_award_thresholds showmen "Ann" Hne))).
    vm_compute; reflexivity.
  - destruct (proj2 (proj2 (@metric_award_thresholds showmen "Cat" Hne)))
      as (d & Hd & Hh & _); [vm_compute; reflexivity|].
    exists d; auto.
Defined.

(* ================================================================== *)
(** * The line-based tournament parser *)

Section WorkerProperties.

Import Worker.

(** *** Blank files *)

Lemma trimStart_blank (s : string) :
  trimStart s = "" <-> blank s = true.
Proof.
  induction s as [|c s IH]; simpl; [tauto|].
  destruct (isSpace c); cbn [andb]; [exact IH|].
  split; discriminate.
Qed.

Lemma trimEnd_blank (s : string) : trimEnd s = "" <-> blank s = true.
Proof.
  induction s as [|c s IH]; simpl; [tauto|].
  destruct (trimEnd s) as [|a t] eqn:E.
  - destruct (isSpace c); cbn [andb]; [tauto|].
    split; discriminate.
  - split; [discriminate|].
    intros H; apply andb_true_iff in H as [_ H].
    apply IH in H; discriminate.
Qed.

Lemma blank_trimStart (s : string) : blank (trimStart s) = blank s.
Proof.
  induction s as [|c s IH]; simpl; [reflexivity|].
  destruct (isSpace c) eqn:E; cbn [andb]; [exact IH|].
  simpl; now rewrite E.
Qed.

Lemma trim_blank (s : string) : trim s = "" <-> blank s = true.
Proof. unfold trim; now rewrite trimEnd_blank, blank_trimStart. Qed.

Lemma splitLines_nonempty (s : string) : splitLines s <> [].
Proof.
  induction s as [|c s IH]; simpl; [discriminate|].
  destruct (Ascii.eqb c (ascii_of_nat 10)); [discriminate|].
  destruct (splitLines s); discriminate.
Qed.

Lemma blank_splitLines (s : string) :
  forallb blank (splitLines s) = blank s.
Proof.
  induction s as [|c s IH]; simpl; [reflexivity|].
  destruct (Ascii.eqb c (ascii_of_nat 10)) eqn:E.
  - apply Ascii.eqb_eq in E; subst c; simpl; exact IH.
  - pose proof (splitLines_nonempty s) as Hne.
    destruct (splitLines s) as [|l ls]; [contradiction|].
    simpl in *; rewrite <- IH; now rewrite andb_assoc.
Qed.

Lemma no_lines_blank (content : string) :
  filter (fun line => Nat.ltb 0 (String.length line))
    (map trim (splitLines content)) = []
  <-> blank content = true.
Proof.
  rewrite <- blank_splitLines.
  induction (splitLines content) as [|l ls IH]; simpl; [tauto|].
  destruct (trim l) as [|a t] eqn:E; simpl.
  - apply trim_blank in E; rewrite E; exact IH.
  - split; [discriminate|].
    intros H; apply andb_true_iff in H as [H _].
    apply trim_blank in H; congruence.
Qed.

(** *** Array indices *)

(** [Math.floor(n * 0.7)] is an index of an array of [n] elements. *)
Lemma floor_times_seven_tenths_bounds (n : Z) :
  1 <= n -> 0 <= floor_times_seven_tenths n < n.
Proof.
  intros Hn; unfold floor_times_seven_tenths, seven_tenths; cbv zeta.
  set (P := n * 6305039478318694).
  assert (HP : 2 ^ 52 <= P)
    by (unfold P; change (2 ^ 52) with 4503599627370496; lia).
  assert (Hlog : 52 <= Z.log2 P) by (apply Z.log2_le_pow2; lia).
  rewrite Z.max_r by lia.
  set (drop := Z.log2 P - 52).
  set (D := 2 ^ drop).
  assert (HD : 0 < D) by (apply Z.pow_pos_nonneg; lia).
  assert (HDP : D * 2 ^ 52 <= P).
  { unfold D; rewrite <- Z.pow_add_r by lia.
    replace (drop + 52) with (Z.log2 P) by (unfold drop; lia).
    apply Z.log2_spec; lia. }
  change (2 ^ 52) with 4503599627370496 in HDP.
  set (q := P / D).
  assert (Hq : q * D <= P)
    by (unfold q; rewrite Z.mul_comm; apply Z.mul_div_le; lia).
  assert (Hq0 : 0 <= q) by (apply Z.div_pos; lia).
  match goal with
  | |- context [if ?c then q + 1 else q] =>
      set (rounded := if c then q + 1 else q)
  end.
  assert (Hr : q <= rounded <= q + 1)
    by (unfold rounded; destruct (_ || _)%bool; lia).
  assert (Hup : rounded * D <= q * D + D).
  { replace (q * D + D) with ((q + 1) * D) by ring.
    apply Z.mul_le_mono_nonneg_r; lia. }
  change (2 ^ 53) with 9007199254740992.
  split.
  - apply Z.div_pos; [|lia].
    apply Z.mul_nonneg_nonneg; lia.
  - apply Z.div_lt_upper_bound; [lia|].
    unfold P in *; lia.
Qed.

Lemma nameAt_in_range (players : list (string * Stats)) (i : nat) :
  (i < List.length players)%nat ->
  exists name, nameAt players i = inr name /\ In name (map fst players).
Proof.
  intros H; unfold nameAt.
  destruct (nth_error players i) as [e|] eqn:E.
  - exists (fst e); split; [reflexivity|].
    apply in_map; now apply nth_error_In with i.
  - apply nth_error_None in E; lia.
Qed.

Lemma andThen_returns {A B : Type} (x : Thrown + A) (f : A -> Thrown + B)
  (a : A) :
  x = inr a -> andThen x f = f a.
Proof. now intros ->. Qed.

(** *** The [reduce] of the Most Aggressive award *)

Lemma mostKnockouts_spec (players : list (string * Stats)) :
  (forall e, In e players -> knockouts (snd e) <= knockouts (snd (mostKnockouts players)))
  /\ 0 <= knockouts (snd (mostKnockouts players))
  /\ (0 < knockouts (snd (mostKnockouts players)) ->
      In (mostKnockouts players) players).
Proof.
  unfold mostKnockouts.
  set (init := ("", {| placement := 0; knockouts := 0 |})).
  assert (H : forall (l : list (string * Stats)) (acc : string * Stats),
             0 <= knockouts (snd acc) ->
             let best :=
               fold_left
                 (fun max e : string * Stats =>
                    if orElse (knockouts (snd max)) 0 <? knockouts (snd e)
                    then e else max) l acc in
             knockouts (snd acc) <= knockouts (snd best)
             /\ (forall e, In e l -> knockouts (snd e) <= knockouts (snd best))
             /\ (best = acc \/ In best l)).
  { induction l as [|e l IH]; intros acc Hacc; simpl.
    - repeat split; [lia | tauto | now left].
    - rewrite orElse_zero.
      destruct (knockouts (snd acc) <? knockouts (snd e)) eqn:C.
      + apply Z.ltb_lt in C.
        destruct (IH e) as (H1 & H2 & H3); [lia|].
        repeat split; [lia| |].
        * intros e' [<-|He']; auto.
        * destruct H3 as [->|H3]; auto.
      + apply Z.ltb_ge in C.
        destruct (IH acc Hacc) as (H1 & H2 & H3).
        repeat split; [lia| |].
        * intros e' [<-|He']; [lia|auto].
        * destruct H3 as [->|H3]; auto. }
  destruct (H players init) as (H1 & H2 & H3); [simpl; lia|].
  cbv zeta in *; repeat split; [assumption | exact H1 |].
  intros Hpos; destruct H3 as [E|H3]; [|assumption].
  rewrite E in Hpos; simpl in Hpos; lia.
Qed.

(** *** Lookups in an object built by assignments *)

Lemma lookup_assignKey {A : Type} (k k' : string) (v : A)
  (o : list (string * A)) :
  lookup k (assignKey k' v o)
  = if String.eqb k' k then Some v else lookup k o.
Proof.
  induction o as [|[j u] o IH]; simpl.
  - reflexivity.
  - destruct (String.eqb j k') eqn:Ej; simpl.
    + apply String.eqb_eq in Ej; subst j.
      now destruct (String.eqb k' k).
    + rewrite IH.
      destruct (String.eqb j k) eqn:Ejk; [|reflexivity].
      apply String.eqb_eq in Ejk; subst j.
      now rewrite String.eqb_sym, Ej.
Qed.

Lemma keys_assignKey {A : Type} (k : string) (v : A) (o : list (string * A)) :
  forall j, In j (map fst (assignKey k v o)) <-> j = k \/ In j (map fst o).
Proof.
  induction o as [|[i u] o IH]; intros j; simpl; [intuition congruence|].
  destruct (String.eqb i k) eqn:E; simpl.
  - apply String.eqb_eq in E; subst i; intuition congruence.
  - rewrite IH; intuition congruence.
Qed.

Lemma In_assignKey {A : Type} (k : string) (v : A) (o : list (string * A))
  (e : string * A) :
  In e (assignKey k v o) -> e = (k, v) \/ In e o.
Proof.
  induction o as [|[i u] o IH]; simpl; [intuition congruence|].
  destruct (String.eqb i k) eqn:E; simpl.
  - apply String.eqb_eq in E; subst i; intuition congruence.
  - intros [H|H]; [auto | apply IH in H; tauto].
Qed.

(** *** The award block *)

(** The award block returns; each of the six awards given whenever a player
    was found is there, and every award names a player. *)
Lemma awardsOf_spec (players : list (string * Stats)) :
  players <> [] ->
  exists awards',
    awardsOf players = inr awards'
    /\ Forall (fun key => lookup key awards' <> None) unconditionalAwards
    /\ (forall key a,
           lookup key awards' = Some a -> In (winner a) (map fst players))
    /\ lookup "Most Aggressive" awards'
       = if 0 <? knockouts (snd (mostKnockouts players))
         then Some {| winner := fst (mostKnockouts players);
                      stat := (numberToString
                                 (knockouts (snd (mostKnockouts players)))
                               ++ " knockouts")%string |}
         else None.
Proof.
  intros Hne.
  assert (Hlen : (0 < List.length players)%nat)
    by (destruct players; [contradiction | simpl; lia]).
  destruct (@nameAt_in_range players (List.length players - 1))
    as (last & Elast & Hlast); [lia|].
  destruct (@nameAt_in_range players (Nat.div (List.length players) 2))
    as (middle & Emiddle & Hmiddle);
    [apply Nat.div_lt; lia|].
  destruct (@nameAt_in_range players 0) as (first & Efirst & Hfirst); [lia|].
  destruct (@nameAt_in_range players
              (Z.to_nat
                 (floor_times_seven_tenths (Z.of_nat (List.length players)))))
    as (paddler & Epaddler & Hpaddler).
  { pose proof (@floor_times_seven_tenths_bounds
                  (Z.of_nat (List.length players))); lia. }
  assert (Hactor : exists actor,
             match nth_error players 1 with
             | Some e => inr (fst e)
             | None => nameAt players 0
             end = inr actor /\ In actor (map fst players)).
  { destruct (nth_error players 1) as [e|] eqn:E; [|eauto].
    exists (fst e); split; [reflexivity|].
    apply in_map; now apply nth_error_In with 1%nat. }
  destruct Hactor as (actor & Eactor & Hactor).
  assert (Hpad : exists paddler',
             (if String.eqb paddler "" then nameAt players (List.length players - 1)
              else inr paddler) = inr paddler'
             /\ In paddler' (map fst players))
    by (destruct (String.eqb paddler ""); eauto).
  destruct Hpad as (paddler' & Epad & Hpad).
  unfold awardsOf; cbv zeta.
  rewrite (andThen_returns _ Elast), (andThen_returns _ Emiddle),
    (andThen_returns _ Efirst), (andThen_returns _ Eactor),
    (andThen_returns _ Elast), (andThen_returns _ Epaddler),
    (andThen_returns _ Epad).
  eexists; split; [reflexivity|].
  pose proof (mostKnockouts_spec players) as (_ & _ & Hmost).
  split; [|split].
  - unfold unconditionalAwards.
    repeat constructor; rewrite !lookup_assignKey; cbn; discriminate.
  - intros key a; rewrite !lookup_assignKey.
    repeat match goal with
           | |- context [String.eqb ?k key] => destruct (String.eqb k key)
           end;
      try (intros [= <-]; cbn [winner]; assumption).
    assert (Hchampion :
              lookup key
                match find (fun e : string * Stats => placement (snd e) =? 1)
                        players with
                | Some champion =>
                    assignKey "Tournament Champion"
                      {| winner := fst champion; stat := "1st Place" |} []
                | None => []
                end = Some a ->
              In (winner a) (map fst players)).
    { destruct (find _ players) as [champion|] eqn:Hc; [|discriminate].
      rewrite lookup_assignKey.
      destruct (String.eqb _ key); [|discriminate].
      intros [= <-]; cbn [winner].
      apply find_some in Hc as [Hc _]; now apply in_map. }
    destruct (0 <? knockouts (snd (mostKnockouts players))) eqn:Hk;
      [|exact Hchampion].
    rewrite lookup_assignKey.
    destruct (String.eqb _ key); [|exact Hchampion].
    intros [= <-]; cbn [winner].
    apply in_map, Hmost; now apply Z.ltb_lt.
  - rewrite !lookup_assignKey; cbn [String.eqb Ascii.eqb Bool.eqb].
    destruct (0 <? knockouts (snd (mostKnockouts players))).
    + rewrite lookup_assignKey, String.eqb_refl; reflexivity.
    + destruct (find _ players); reflexivity.
Qed.

(** *** The loop over the lines *)

Lemma lineStep_awards (t : Tournament) (line : string) :
  awards (lineStep t line) = awards t.
Proof.
  unfold lineStep; cbv zeta.
  destruct (search knockoutRegex line), (execAt finishedRegex line),
    (search playersRegex line), (includes line "Tournament" && _)%bool;
    reflexivity.
Qed.

Lemma lines_awards (ls : list string) (t : Tournament) :
  awards (fold_left lineStep ls t) = awards t.
Proof.
  revert t; induction ls as [|l ls IH]; intros t; simpl; [reflexivity|].
  now rewrite IH, lineStep_awards.
Qed.

Lemma countKnockout_keeps (Q : Stats -> Prop) (knocker : string)
  (stats : list (string * Stats)) :
  Q {| placement := 999; knockouts := 0 |} ->
  (forall s, Q s -> Q {| placement := placement s; knockouts := knockouts s + 1 |}) ->
  Forall (fun e => Q (snd e)) stats ->
  Forall (fun e => Q (snd e)) (countKnockout knocker stats).
Proof.
  intros Hnew Hinc H; unfold countKnockout.
  set (stats1 := match lookup knocker stats with
                 | Some _ => stats
                 | None => assignKey knocker _ stats
                 end).
  assert (H1 : Forall (fun e => Q (snd e)) stats1).
  { unfold stats1; destruct (lookup knocker stats); [assumption|].
    apply Forall_forall; intros e He.
    apply In_assignKey in He as [->|He]; [assumption|].
    rewrite Forall_forall in H; auto. }
  destruct (lookup knocker stats1) as [s|] eqn:E; [|assumption].
  assert (Hs : Q s).
  { clear - E H1; induction stats1 as [|[k v] rest IH]; [discriminate|].
    inversion H1; subst; simpl in E.
    destruct (String.eqb k knocker); [injection E as <-; assumption | auto]. }
  apply Forall_forall; intros e He.
  apply In_assignKey in He as [->|He]; [now apply Hinc|].
  rewrite Forall_forall in H1; auto.
Qed.

(** No entry of [player_stats] has a negative placement or a negative
    number of knock-outs. *)
Lemma lineStep_stats (t : Tournament) (line : string) :
  Forall (fun e => 0 <= placement (snd e) /\ 0 <= knockouts (snd e))
    (player_stats t) ->
  Forall (fun e => 0 <= placement (snd e) /\ 0 <= knockouts (snd e))
    (player_stats (lineStep t line)).
Proof.
  intros H; unfold lineStep; cbv zeta.
  set (t2 := match search playersRegex line with
             | Some _ => _
             | None => _
             end).
  assert (H2 : player_stats t2 = player_stats t)
    by (unfold t2; destruct (search playersRegex line),
          (includes line "Tournament" && _)%bool; reflexivity).
  set (t3 := match execAt finishedRegex line with
             | Some _ => _
             | None => t2
             end).
  assert (H3 : Forall (fun e => 0 <= placement (snd e)
                                /\ 0 <= knockouts (snd e))
                 (player_stats t3)).
  { unfold t3; destruct (execAt finishedRegex line) as [m|];
      [|now rewrite H2].
    cbn [player_stats set_player_stats]; rewrite H2.
    apply Forall_forall; intros e He.
    apply In_assignKey in He as [->|He].
    - cbn; split; [apply parseInt_nonneg | lia].
    - rewrite Forall_forall in H; auto. }
  destruct (search knockoutRegex line) as [m|]; [|assumption].
  cbn [player_stats set_player_stats].
  apply (@countKnockout_keeps
           (fun s => 0 <= placement s /\ 0 <= knockouts s));
    [cbn; lia | cbn; intros s [? ?]; lia | assumption].
Qed.

Lemma lines_stats (ls : list string) (t : Tournament) :
  Forall (fun e => 0 <= placement (snd e) /\ 0 <= knockouts (snd e))
    (player_stats t) ->
  Forall (fun e => 0 <= placement (snd e) /\ 0 <= knockouts (snd e))
    (player_stats (fold_left lineStep ls t)).
Proof.
  revert t; induction ls as [|l ls IH]; intros t H; simpl; [assumption|].
  apply IH, lineStep_stats, H.
Qed.

Lemma Object_entries_nil {A : Type} (o : list (string * A)) :
  Object_entries o = [] <-> o = [].
Proof.
  split; [|now intros ->].
  intros H; pose proof (length_Object_entries o) as Hlen.
  rewrite H in Hlen; destruct o; [reflexivity | discriminate].
Qed.

(** What [parseTournament] returns. *)
Lemma parseTournament_returned (now : Clock) (content : string)
  (t : Tournament) :
  parseTournament now content = inr t ->
  blank content = false
  /\ Forall (fun e => 0 <= placement (snd e) /\ 0 <= knockouts (snd e))
       (player_stats t)
  /\ match player_stats t with
     | [] => awards t = []
     | _ :: _ => awardsOf (Object_entries (player_stats t)) = inr (awards t)
     end.
Proof.
  unfold parseTournament; cbv zeta.
  destruct (filter _ (map trim (splitLines content))) as [|l ls] eqn:E;
    [discriminate|].
  assert (Hb : blank content = false).
  { destruct (blank content) eqn:B; [|reflexivity].
    apply no_lines_blank in B; congruence. }
  remember (fold_left lineStep (l :: ls) _) as t1 eqn:Ht1.
  assert (Ha : awards t1 = []) by (rewrite Ht1; now rewrite lines_awards).
  assert (Hs : Forall (fun e => 0 <= placement (snd e)
                                /\ 0 <= knockouts (snd e))
                 (player_stats t1))
    by (rewrite Ht1; apply lines_stats; constructor).
  clear Ht1.
  destruct (Object_entries (player_stats t1)) as [|e es] eqn:Ee.
  - intros [= <-]; apply (proj1 (Object_entries_nil _)) in Ee.
    rewrite Ee in *; auto.
  - rewrite <- Ee.
    destruct (awardsOf _) as [err|aw] eqn:Ea; [discriminate|].
    cbn [andThen]; intros [= <-]; cbn [player_stats awards set_awards].
    repeat split; [assumption..|].
    destruct (player_stats t1); [discriminate Ee | exact Ea].
Qed.

(** On ASCII white space and own properties: [parseTournament] stops with
    its own error exactly on a blank file, and no index into the array of
    players is out of range. *)
Lemma parseTournament_outcomes (now : Clock) (content : string) :
  (parseTournament now content = inl EmptyFile <-> blank content = true)
  /\ parseTournament now content <> inl TypeError.
Proof.
  unfold parseTournament; cbv zeta.
  pose proof (no_lines_blank content) as Hblank.
  destruct (filter _ (map trim (splitLines content))) as [|l ls].
  - split; [|discriminate].
    split; [intros _; now apply Hblank | reflexivity].
  - assert (Hb : blank content <> true)
      by (intros B; apply Hblank in B; discriminate).
    set (t1 := fold_left lineStep (l :: ls) _).
    destruct (Object_entries (player_stats t1)) as [|e es] eqn:Ee.
    + split; [|discriminate].
      split; [discriminate | contradiction].
    + rewrite <- Ee.
      destruct (@awardsOf_spec (Object_entries (player_stats t1)))
        as (aw & -> & _); [rewrite Ee; discriminate|].
      cbn [andThen]; split; [|discriminate].
      split; [discriminate | contradiction].
Qed.

(** X18. On an ASCII file in which no line names a finisher or a knocker
    after a property that objects inherit, [parseTournament] throws exactly
    when the file holds nothing but white space, and then the error it
    raises itself; on every other such file it returns: no index into the
    array of players is out of range. *)
Theorem parseTournament_throws (now : Clock) (content : string) :
  isAscii content = true ->
  ordinaryResults content = true ->
  (parseTournament now content = inl EmptyFile <-> blank content = true)
  /\ parseTournament now content <> inl TypeError.
Proof. intros _ _; apply parseTournament_outcomes. Qed.

(** X18 at a file of blanks and line ends, and at [resultsFile]. *)
Lemma parseTournament_throws_witness :
  parseTournament firstOfMarch ("  " ++ LF ++ " " ++ LF)%string
  = inl EmptyFile
  /\ parseTournament firstOfMarch resultsFile <> inl TypeError.
Proof.
  split.
  - apply (proj1 (@parseTournament_throws firstOfMarch
                    ("  " ++ LF ++ " " ++ LF)%string eq_refl eq_refl));
      reflexivity.
  - apply (proj2 (@parseTournament_throws firstOfMarch resultsFile
                    eq_refl eq_refl)).
Defined.

(** X19. The awards of a tournament returned by [parseTournament]: none
    when no line named a player; otherwise the six awards Participation
    Award, Comeback Kid, YOLO Award, Hollywood Actor, Calling Station and
    Doggy Paddling Award are all given, and every award of the result names
    a player of [player_stats]. *)
Theorem parseTournament_awards (now : Clock) (content : string)
  (t : Tournament) :
  parseTournament now content = inr t ->
  (player_stats t = [] -> awards t = [])
  /\ (player_stats t <> [] ->
      Forall (fun key => lookup key (awards t) <> None) unconditionalAwards)
  /\ (forall key a,
         lookup key (awards t) = Some a ->
         In (winner a) (map fst (player_stats t))).
Proof.
  intros H; apply parseTournament_returned in H as (_ & _ & H).
  destruct (player_stats t) as [|e es] eqn:E.
  - rewrite H; repeat split; [contradiction | discriminate].
  - rewrite <- E in *.
    destruct (@awardsOf_spec (Object_entries (player_stats t)))
      as (aw & Haw & Hall & Hin & _).
    { intros Hn; apply (proj1 (Object_entries_nil _)) in Hn; congruence. }
    rewrite H in Haw; injection Haw as <-.
    split; [congruence|]; split; [auto|].
    intros key a Hk; specialize (Hin key a Hk).
    apply in_map_iff in Hin as (x & <- & Hx).
    apply in_map; now apply (proj1 (In_Object_entries _ _)).
Qed.

(** X19 at [resultsFile]. *)
Lemma parseTournament_awards_witness :
  exists t,
    parseTournament firstOfMarch resultsFile = inr t
    /\ Forall (fun key => lookup key (awards t) <> None) unconditionalAwards.
Proof.
  eexists; split; [vm_compute; reflexivity|].
  refine (proj1 (proj2 (@parseTournament_awards firstOfMarch resultsFile
                          _ _)) _);
    [vm_compute; reflexivity | vm_compute; discriminate].
Defined.

(** X20. In a tournament returned by [parseTournament], the Most Aggressive
    award is given exactly when some player has a knock-out, and it names a
    player with the largest number of knock-outs. *)
Theorem parseTournament_most_aggressive (now : Clock) (content : string)
  (t : Tournament) :
  parseTournament now content = inr t ->
  (forall a,
      lookup "Most Aggressive" (awards t) = Some a ->
      exists s,
        In (winner a, s) (player_stats t)
        /\ 0 < knockouts s
        /\ forall e, In e (player_stats t) -> knockouts (snd e) <= knockouts s)
  /\ (lookup "Most Aggressive" (awards t) = None ->
      forall e, In e (player_stats t) -> knockouts (snd e) = 0).
Proof.
  intros H; apply parseTournament_returned in H as (_ & Hs & H).
  destruct (player_stats t) as [|e0 es] eqn:E.
  - rewrite H; split; [discriminate | contradiction].
  - rewrite <- E in *.
    destruct (@awardsOf_spec (Object_entries (player_stats t)))
      as (aw & Haw & _ & _ & Hmost).
    { intros Hn; apply (proj1 (Object_entries_nil _)) in Hn; congruence. }
    rewrite H in Haw; injection Haw as <-.
    pose proof (mostKnockouts_spec (Object_entries (player_stats t)))
      as (Hmax & _ & Hin).
    rewrite Hmost.
    destruct (0 <? knockouts (snd (mostKnockouts _))) eqn:Hk.
    + apply Z.ltb_lt in Hk; split; [|discriminate].
      intros a [= <-]; cbn [winner].
      exists (snd (mostKnockouts (Object_entries (player_stats t)))).
      rewrite <- surjective_pairing.
      repeat split; [|assumption|].
      * now apply (proj1 (In_Object_entries _ _)), Hin.
      * intros e He; apply Hmax; now apply (proj2 (In_Object_entries _ _)).
    + apply Z.ltb_ge in Hk; split; [discriminate|].
      intros _ e He.
      rewrite Forall_forall in Hs; destruct (Hs e He) as [_ H0].
      apply (proj2 (In_Object_entries _ _)), Hmax in He; lia.
Qed.

(** X20 at [resultsFile]: Al, with two knock-outs, is Most Aggressive. *)
Lemma parseTournament_most_aggressive_witness :
  exists t a,
    parseTournament firstOfMarch resultsFile = inr t
    /\ lookup "Most Aggressive" (awards t) = Some a
    /\ exists s,
        In (winner a, s) (player_stats t)
        /\ 0 < knockouts s
        /\ forall e,
            In e (player_stats t) -> knockouts (snd e) <= knockouts s.
Proof.
  eexists _, _; split; [vm_compute; reflexivity|].
  split; [vm_compute; reflexivity|].
  refine (proj1 (@parseTournament_most_aggressive firstOfMarch resultsFile
                   _ _) _ _);
    vm_compute; reflexivity.
Defined.

(** X21. Every player of a tournament returned by [parseTournament] is
    credited by [saveTournamentToD1] the points of the placement (ten,
    eight, six or two) and two points for each knock-out: never fewer than
    two points, and never fewer than ten for the winner. *)
Theorem parseTournament_points (now : Clock) (content : string)
  (t : Tournament) :
  parseTournament now content = inr t ->
  Forall
    (fun e =>
       0 <= knockouts (snd e)
       /\ 2 + 2 * knockouts (snd e) <= pointsFor (snd e)
          <= 10 + 2 * knockouts (snd e)
       /\ (placement (snd e) = 1 ->
           pointsFor (snd e) = 10 + 2 * knockouts (snd e)))
    (player_stats t).
Proof.
  intros H; apply parseTournament_returned in H as (_ & Hs & _).
  apply Forall_forall; intros e He.
  rewrite Forall_forall in Hs; destruct (Hs e He) as [_ Hk].
  unfold pointsFor; cbv zeta; rewrite orElse_zero.
  split; [assumption|].
  destruct (Z.eqb_spec (placement (snd e)) 1) as [E1|E1];
    [split; lia|].
  split; [|contradiction].
  destruct (placement (snd e) =? 2), (placement (snd e) =? 3); lia.
Qed.

(** X21 at [resultsFile]. *)
Lemma parseTournament_points_witness :
  exists t,
    parseTournament firstOfMarch resultsFile = inr t
    /\ map (fun e => (fst e, pointsFor (snd e))) (player_stats t)
       = [("Joe", 10); ("Al", 12)]
    /\ Forall
         (fun e =>
            0 <= knockouts (snd e)
            /\ 2 + 2 * knockouts (snd e) <= pointsFor (snd e)
               <= 10 + 2 * knockouts (snd e)
            /\ (placement (snd e) = 1 ->
                pointsFor (snd e) = 10 + 2 * knockouts (snd e)))
         (player_stats t).
Proof.
  eexists; split; [vm_compute; reflexivity|].
  split; [vm_compute; reflexivity|].
  refine (@parseTournament_points firstOfMarch resultsFile _ _).
  vm_compute; reflexivity.
Defined.

End WorkerProperties.

Section WorkerDates.

Import Worker.

Lemma digit_not_slash (c : ascii) :
  isDigit c = true -> Ascii.eqb c "/" = false.
Proof.
  intros H; destruct (Ascii.eqb_spec c "/") as [->|]; [|reflexivity].
  vm_compute in H; discriminate.
Qed.

Lemma execAt_day (s : string) (m : Match) :
  execAt dayRegex s = Some m -> isoDay (dashes (group 1 m)) = true.
Proof.
  unfold execAt, dayRegex, group; cbv zeta.
  cbn [seqs Times].
  rewrite rmatch_Group_eq.
  repeat (destruct s as [|? s]; [discriminate|]; cbn [rmatch dropPrefix];
          match goal with
          | |- context [isDigit ?c] =>
              destruct (isDigit c) eqn:?; [|discriminate]
          | |- context [Ascii.eqb "/" ?c] =>
              destruct (Ascii.eqb "/" c) eqn:?; [|discriminate]
          end).
  match goal with
  | |- context [takeChars ?n _] =>
      replace n with 10%nat by (cbn [String.length]; lia)
  end.
  intros [= <-]; cbn [m_caps capture Nat.eqb].
  repeat match goal with
         | H : Ascii.eqb "/" ?c = true |- _ =>
             apply Ascii.eqb_eq in H; subst c
         end.
  cbn [takeChars dashes isoDay].
  repeat match goal with
         | H : isDigit ?c = true |- _ =>
             rewrite (digit_not_slash _ H), H; clear H
         end.
  reflexivity.
Qed.

(** X22. When [extractDate] finds a date in a line, what it returns has the
    form dddd-dd-dd: ten characters, digits except for a hyphen after the
    fourth and the sixth digit; no slash is left. *)
Theorem extractDate_iso (line day : string) :
  extractDate line = Some day -> isoDay day = true.
Proof.
  unfold extractDate.
  destruct (search dayRegex line) as [m|] eqn:E; [|discriminate].
  intros [= <-]; apply search_execAt in E as (s & E).
  now apply execAt_day with s.
Qed.

(** X22 at the header line of a results file. *)
Lemma extractDate_iso_witness : isoDay "2025-03-02" = true.
Proof.
  apply (@extractDate_iso
           "PokerStars Tournament #3928736979, No Limit Hold'em - 2025/03/02").
  vm_compute; reflexivity.
Defined.

End WorkerDates.

(* ================================================================== *)
(** * Properties that depend on the host *)

(** ** Bad beats *)

(** C1. From a host in which no player revealed in the hand is named after
    a truthy property of [Object.prototype]: in a hand with the showdown
    marker, exactly one pot-collection event, no split/tie phrase, at least
    two revealed hands and the collector among them, the detector appends
    to the [bad_beats] list of every registered player one [BadBeatInfo]
    for each of their losing revealed hands that is a genuine bad beat, and
    to the collector's [suckouts] list the mirrored [SuckoutInfo] of every
    genuine bad beat, and nothing else; a losing hand is a genuine bad beat
    if and only if its strength is at least 400 (three of a kind or
    stronger), or at least 300 (two pair of aces, kings or queens; other
    two pair has strength 200) and strictly below the winner's.  In
    particular a registered loser with a full house or better (strength at
    least 700) yields the pair of entries whenever the winner is
    registered. *)
Theorem C1_genuine_bad_beats (realm : Host.Realm) (handText winner : string)
  (winningHand : ShownHand) (players : Players) :
  includes handText SHOW_DOWN = true ->
  map (group 1) (potCollections handText) = [winner] ->
  splitLanguage handText = false ->
  (2 <= List.length (revealedHands handText winner))%nat ->
  find won (revealedHands handText winner) = Some winningHand ->
  forallb (fun h => negb (Host.hostName realm (player h)))
    (revealedHands handText winner) = true ->
  let players' := Host.analyzeShowdownForBadBeats realm handText players in
  let genuine l :=
    orb (400 <=? made_hand_strength l)
        ((300 <=? made_hand_strength l)
         && (made_hand_strength l <? made_hand_strength winningHand)) in
  (forall l,
      isGenuineBadBeat l winningHand = true <->
      400 <= made_hand_strength l
      \/ (300 <= made_hand_strength l
          /\ made_hand_strength l < made_hand_strength winningHand))
  /\ (forall name,
      registered name players = true ->
      badBeatsOf name players'
      = badBeatsOf name players
        ++ map (fun l => badBeatInfo winner l winningHand)
             (filter (fun l => (genuine l && String.eqb (player l) name)%bool)
                (losingHands handText winner))
      /\ suckoutsOf name players'
         = suckoutsOf name players
           ++ (if String.eqb winner name
               then map (fun l => suckoutInfo l winningHand)
                      (filter genuine (losingHands handText winner))
               else []))
  /\ (forall l,
         In l (losingHands handText winner) ->
         700 <= made_hand_strength l ->
         registered (player l) players = true ->
         registered winner players = true ->
         In (badBeatInfo winner l winningHand)
           (badBeatsOf (player l) players')
         /\ In (suckoutInfo l winningHand) (suckoutsOf winner players')).
Proof.
  intros Hsd Hwin Hsplit Hlen Hfind Hnames players'.
  assert (Hshown : forallb (fun n => negb (Host.hostName realm n))
                     (shownNames handText) = true).
  { unfold shownNames; unfold revealedHands in Hnames.
    rewrite forallb_forall in Hnames |- *; intros n Hn.
    apply in_map_iff in Hn as (m & <- & Hm).
    apply (Hnames (shownHand winner m)), in_map, Hm. }
  assert (Hcoll : forallb (fun n => negb (Host.hostName realm n))
                    (map (group 1) (matchAll collectedRegex handText))
                  = true).
  { unfold potCollections in Hwin; rewrite Hwin; cbn [forallb].
    rewrite andb_true_r.
    apply find_some in Hfind as [Hin Hwon].
    rewrite forallb_forall in Hnames; specialize (Hnames _ Hin).
    unfold revealedHands in Hin.
    apply in_map_iff in Hin as (m & <- & _); cbn [won shownHand] in Hwon.
    apply String.eqb_eq in Hwon; cbn [player shownHand] in Hnames.
    now rewrite Hwon in Hnames. }
  unfold players'.
  rewrite (@analyze_plain realm handText players Hshown Hcoll).
  now apply genuine_bad_beats_recorded.
Qed.

(** C1 at [badBeatHand], from the pristine host: the full house and the
    two pair of queens and jacks are both recorded against the four
    aces. *)
Lemma C1_genuine_bad_beats_witness :
  map bb_victim_hand
    (badBeatsOf "Al"
       (Host.analyzeShowdownForBadBeats Host.pristine badBeatHand
          (seated badBeatHand)))
  = ["a full house, Kings full of Aces"]
  /\ map so_victim
       (suckoutsOf "Joe"
          (Host.analyzeShowdownForBadBeats Host.pristine badBeatHand
             (seated badBeatHand)))
     = ["Al"; "Bea"].
Proof.
  destruct (@C1_genuine_bad_beats Host.pristine badBeatHand "Joe"
              (mkShown "Joe" "Ah Ad" "four of a kind, Aces" 800 true)
              (seated badBeatHand))
    as (_ & H & _);
    [ reflexivity | reflexivity | reflexivity | vm_compute; lia
    | reflexivity | reflexivity | ].
  destruct (H "Al" eq_refl) as [-> _].
  destruct (H "Joe" eq_refl) as [_ ->].
  split; reflexivity.
Defined.

(** ** Final positions *)

Lemma rankLastHand_host (realm : Host.Realm) (text : string)
  (players : Players) :
  Host.rankLastHand realm text players
  = match lastHand text with
    | Some finalHand => Host.rankFinalHand realm finalHand players
    | None => (Host.Returned players, realm)
    end.
Proof.
  unfold Host.rankLastHand, lastHand; now destruct (handsOf text).
Qed.

(** C7. The resolver reads the transcript through its last hand record
    only.  From a host in which neither the pot collector nor a player
    shown in that hand is named after a truthy property of
    [Object.prototype], it returns and leaves the host as it was; when the
    hand has a pot collector and at least one shown hand, the collector (if
    a registered player) gets position 1 and the first other registered
    player shown in that hand gets position 2; otherwise nobody gets
    position 1 or 2.  Then, if some player is still unranked, exactly one
    of them, with the highest [max_chips] among them, gets position 3, and
    every other player stays unranked. *)
Theorem C7_final_positions (realm : Host.Realm) (players : Players)
  (text : string) :
  NoDup (map fst players) ->
  forallb (fun n => negb (Host.hostName realm n)) (finalNames text) = true ->
  (forall text',
      lastHand text' = lastHand text ->
      Host.determineFinalPositions realm players text'
      = Host.determineFinalPositions realm players text)
  /\ exists resolved : Players,
      Host.determineFinalPositions realm players text
      = (Host.Returned resolved, realm)
      /\ exists third : option string,
          (forall n,
              n <> TOURNAMENT_INFO ->
              positionOf n resolved
              = if isName (secondPlace text players) n then Some 2
                else if isName (firstPlace text players) n then Some 1
                else if isName third n then Some 3
                else None)
          /\ match third with
             | Some t =>
                 unranked text players t
                 /\ forall m,
                     unranked text players m ->
                     maxChipsOf m players <= maxChipsOf t players
             | None => forall m, ~ unranked text players m
             end.
Proof.
  intros Hnd Hnames; split.
  - intros text' Hlast; unfold Host.determineFinalPositions.
    now rewrite !rankLastHand_host, Hlast.
  - exists (determineFinalPositions players text).
    split; [now apply determineFinalPositions_plain|].
    exact (proj2 (@final_positions_resolved players text Hnd)).
Qed.

(** C7 at the players of [twoPairHand] and the transcript
    [twoHandTranscript], whose last hand is [badBeatHand], from the
    pristine host. *)
Lemma C7_final_positions_witness :
  exists resolved : Players,
    Host.determineFinalPositions Host.pristine (seated twoPairHand)
      twoHandTranscript
    = (Host.Returned resolved, Host.pristine)
    /\ exists third : option string,
        (forall n,
            n <> TOURNAMENT_INFO ->
            positionOf n resolved
            = if isName (secondPlace twoHandTranscript (seated twoPairHand)) n
              then Some 2
              else if isName
                        (firstPlace twoHandTranscript (seated twoPairHand)) n
                   then Some 1
                   else if isName third n then Some 3 else None)
        /\ match third with
           | Some t =>
               unranked twoHandTranscript (seated twoPairHand) t
               /\ forall m,
                   unranked twoHandTranscript (seated twoPairHand) m ->
                   maxChipsOf m (seated twoPairHand)
                   <= maxChipsOf t (seated twoPairHand)
           | None =>
               forall m, ~ unranked twoHandTranscript (seated twoPairHand) m
           end.
Proof.
  apply (@C7_final_positions Host.pristine (seated twoPairHand)
           twoHandTranscript).
  - vm_compute; repeat constructor; simpl; intuition discriminate.
  - reflexivity.
Defined.

(** ** Voluntary play *)




(** ** Determinism *)



(** ** What the host remembers *)

(** A seat entry under an inherited name registers nobody, and a bad beat
    suffered under that name is dropped together with the winner's
    suckout. *)
Example borrowed_name_not_seated :
  match Host.extractFromTxt Host.pristine borrowedNameHand with
  | (Host.Returned (players, info), realm) =>
      map fst players = ["Al"]
      /\ ti_player_count info = 1
      /\ suckoutsOf "Al" players = []
      /\ realm = Host.pristine
  | (Host.Threw, _) => False
  end
  /\ map fst (fst (extractFromTxt borrowedNameHand)) = ["constructor"; "Al"].
Proof. vm_compute; repeat split. Qed.

(** A pot collected under the name [__proto__] leaves a position on
    [Object.prototype]; a later parse that seats a player named
    [final_position] ends in the [catch] branch, while the same parse from
    the pristine host returns its two players. *)
Example prototype_winner_leaks :
  let longDate := fun _ : Clock => "March 1, 2025 at 8:00 PM" in
  let first :=
    Host.parseTxt 1000 longDate Host.pristine firstOfMarch prototypeWinsHand in
  Host.leaked (snd first) = true
  /\ fst (Host.parseTxt 1000 longDate (snd first) secondOfMarch
            positionNameHand)
     = Host.generateSampleData longDate secondOfMarch
  /\ total_players
       (fst (Host.parseTxt 1000 longDate Host.pristine secondOfMarch
               positionNameHand))
     = 2.
Proof. vm_compute; repeat split. Qed.

(* ------------------------------------------------------------------ *)
(** ** What the host never does *)



Section HostKeys.

Variable realm : Host.Realm.









End HostKeys.






(* ------------------------------------------------------------------ *)
(** ** What a run leaves behind *)







